(** * Cosmos DB SQL resources of the azurerm provider: a shallow embedding

    The handlers of [internal/services/cosmos] are embedded as functions in a
    small state-and-exit monad.  The remote API, the identifier codecs of the
    SDK and the helpers of packages that are not part of the embedded files
    are parameters of the development; every theorem holds for all of them. *)

From Stdlib Require Import ZArith Ascii String.
From stdpp Require Import gmap strings list.

Open Scope string_scope.
Open Scope list_scope.

(** ** Go data *)

(** A Go pointer [*T]: [None] is [nil]. *)
Abbreviation ptr := option (only parsing).

(** A Go slice [[]T].  A nil slice and an empty slice are different values
    (the orchestration layer tells them apart), both have length 0. *)
Inductive slice (A : Type) : Type :=
| NilSlice
| Slice (l : list A).
Arguments NilSlice {A}.
Arguments Slice {A} l.

Definition elems {A} (s : slice A) : list A :=
  match s with
  | NilSlice => []
  | Slice l => l
  end.

(** [make([]T, 0)] and [append]. *)
Definition make0 {A} : slice A := Slice [].
Definition append {A} (s : slice A) (x : A) : slice A := Slice (elems s ++ [x]).

Definition is_nil_slice {A} (s : slice A) : bool :=
  match s with
  | NilSlice => true
  | Slice _ => false
  end.

(** A Go [interface{}] value as the handlers build and inspect it.  [VSet l]
    is a [*pluginsdk.Set] whose [List()] is [l]. *)
#[warnings="-register-all"]
Inductive value : Type :=
| VNil
| VString (s : string)
| VInt (z : Z)
| VList (l : list value)
| VSet (l : list value)
| VMap (m : list (string * value)).

(** A computation that may panic (nil dereference, failed type assertion). *)
Inductive result (A : Type) : Type :=
| Ok (a : A)
| Panicked.
Arguments Ok {A} a.
Arguments Panicked {A}.

Definition rbind {A B} (r : result A) (k : A -> result B) : result B :=
  match r with
  | Ok a => k a
  | Panicked => Panicked
  end.

(** [*p] *)
Definition deref {A} (p : ptr A) : result A :=
  match p with
  | Some a => Ok a
  | None => Panicked
  end.

(** [fmt.Errorf], [tf.ImportAsExistsError] and the errors of the SDK. *)
#[warnings="-register-all"]
Inductive error : Type :=
| RemoteError (msg : string)
| Errorf (format : string) (args : list string) (cause : option error)
| ImportAsExistsError (resourceName : string) (id : string).

(** ** SDK models *)

Module GetResults.
Record t (P : Type) := { Id : ptr string; Properties : ptr P }.
Arguments Id {P} _.
Arguments Properties {P} _.
End GetResults.

Module GetProperties.
Record t (R : Type) := { Resource : ptr R }.
Arguments Resource {R} _.
End GetProperties.

Module Capability.
Record t := { Name : ptr string }.
End Capability.

Module DatabaseAccountGetProperties.
Record t := { Capabilities : ptr (slice Capability.t) }.
End DatabaseAccountGetProperties.

(** [cosmosdb.DatabaseAccountGetResults] *)
Definition DatabaseAccountGetResults : Type :=
  GetResults.t DatabaseAccountGetProperties.t.

(** ** common/capabilities.go *)

(** The loop of [IsServerlessCapacityMode]: [return true] at the first
    capability whose name is non-nil and equal to the marker. *)
Fixpoint rangeCapabilities (caps : list Capability.t) : bool :=
  match caps with
  | [] => false
  | v :: rest =>
      match Capability.Name v with
      | Some name =>
          if String.eqb name "EnableServerless" then true
          else rangeCapabilities rest
      | None => rangeCapabilities rest
      end
  end.

Definition IsServerlessCapacityMode (accResp : DatabaseAccountGetResults) : bool :=
  match GetResults.Properties accResp with
  | Some props =>
      match DatabaseAccountGetProperties.Capabilities props with
      | Some caps => rangeCapabilities (elems caps)
      | None => false
      end
  | None => false
  end.

(** The account model of the older SDK ([documentdb]): the properties are an
    embedded pointer. *)
Module documentdb.
Module Capability.
Record t := { Name : ptr string }.
End Capability.
Module DatabaseAccountGetProperties.
Record t := { Capabilities : ptr (slice Capability.t) }.
End DatabaseAccountGetProperties.
Module DatabaseAccountGetResults.
Record t := { DatabaseAccountGetProperties : ptr DatabaseAccountGetProperties.t }.
End DatabaseAccountGetResults.
End documentdb.

Fixpoint rangeCapabilitiesLegacy (caps : list documentdb.Capability.t) : bool :=
  match caps with
  | [] => false
  | v :: rest =>
      match documentdb.Capability.Name v with
      | Some name =>
          if String.eqb name "EnableServerless" then true
          else rangeCapabilitiesLegacy rest
      | None => rangeCapabilitiesLegacy rest
      end
  end.

Definition IsServerlessCapacityModeLegacy (accResp : documentdb.DatabaseAccountGetResults.t)
  : bool :=
  match documentdb.DatabaseAccountGetResults.DatabaseAccountGetProperties accResp with
  | Some props =>
      match documentdb.DatabaseAccountGetProperties.Capabilities props with
      | Some caps => rangeCapabilitiesLegacy (elems caps)
      | None => false
      end
  | None => false
  end.

(** The same account in the model of the current SDK, with the [Id] given. *)
Definition ofLegacy (id : ptr string) (accResp : documentdb.DatabaseAccountGetResults.t)
  : DatabaseAccountGetResults :=
  {| GetResults.Id := id;
     GetResults.Properties :=
       match documentdb.DatabaseAccountGetResults.DatabaseAccountGetProperties accResp with
       | Some props =>
           Some {| DatabaseAccountGetProperties.Capabilities :=
                     match documentdb.DatabaseAccountGetProperties.Capabilities props with
                     | Some caps =>
                         Some (match caps with
                               | NilSlice => NilSlice
                               | Slice l =>
                                   Slice (map (fun v =>
                                                 {| Capability.Name :=
                                                      documentdb.Capability.Name v |}) l)
                               end)
                     | None => None
                     end |}
       | None => None
       end |}.

(** ** utils: string-slice helpers *)

(** [x.(string)], [x.(map[string]interface{})], [x.( *pluginsdk.Set).List()]:
    a type assertion on a value of another dynamic type (or on nil) panics. *)
Definition assertString (x : value) : result string :=
  match x with
  | VString s => Ok s
  | _ => Panicked
  end.

Definition assertMap (x : value) : result (list (string * value)) :=
  match x with
  | VMap m => Ok m
  | _ => Panicked
  end.

Definition assertSetList (x : value) : result (list value) :=
  match x with
  | VSet l => Ok l
  | _ => Panicked
  end.

(** [m[key]] on a Go map: the nil interface when the key is absent. *)
Fixpoint index (m : list (string * value)) (key : string) : value :=
  match m with
  | [] => VNil
  | (k, v) :: rest => if String.eqb k key then v else index rest key
  end.

(** The zero value of [string] unless the pointer is set:
    [var s string; if p != nil { s = *p }]. *)
Definition stringOrZero (p : ptr string) : string :=
  match p with
  | Some s => s
  | None => ""
  end.

(** Modelled from the spec: [utils.FlattenStringSlice] is not among the
    embedded files.  Section 4.3: flatten always produces a non-nil, empty
    container when the remote field is absent; otherwise one element per
    string, in order. *)
Definition utils_FlattenStringSlice (input : ptr (slice string)) : value :=
  match input with
  | None => VList []
  | Some s => VList (map VString (elems s))
  end.

(** Modelled from the spec: [utils.ExpandStringSlice] is not among the
    embedded files.  Section 4.3: expand maps the configuration list to the
    wire list, one string per element (the empty string for a nil element),
    and returns a non-nil pointer. *)
Definition utils_ExpandStringSlice (input : list value) : result (ptr (slice string)) :=
  rbind
    (fold_left
       (fun acc item =>
          rbind acc (fun res =>
          match item with
          | VNil => Ok (append res "")
          | _ => rbind (assertString item) (fun s => Ok (append res s))
          end))
       input (Ok make0))
    (fun res => Ok (Some res)).

(** ** cosmosdb_sql_role_definition_resource.go: permissions block *)

Module Permission.
Record t := { DataActions : ptr (slice string) }.
End Permission.

Section Permissions.
  (** The two helpers of package [utils], whatever they compute. *)
Variable FlattenStringSlice : ptr (slice string) -> value.
Variable ExpandStringSlice : list value -> result (ptr (slice string)).

Definition expandSqlRoleDefinitionPermissions (input : slice value)
    : result (ptr (slice Permission.t)) :=
    let results : slice Permission.t := make0 in
    rbind
      (fold_left
         (fun acc item =>
            rbind acc (fun results =>
            rbind (assertMap item) (fun v =>
            rbind (assertSetList (index v "data_actions")) (fun l =>
            rbind (ExpandStringSlice l) (fun dataActions =>
            Ok (append results {| Permission.DataActions := dataActions |}))))))
         (elems input) (Ok results))
      (fun results => Ok (Some results)).

Definition flattenSqlRoleDefinitionPermissions (input : ptr (slice Permission.t))
    : slice value :=
    let results : slice value := make0 in
    match input with
    | None => results
    | Some input' =>
        fold_left
          (fun results item =>
             append results
               (VMap [("data_actions", FlattenStringSlice (Permission.DataActions item))]))
          (elems input') results
    end.
End Permissions.

(** ** cosmosdb_restorable_database_accounts_data_source.go: flatten *)

Module RestorableLocationResource.
Record t := {
    CreationTime : ptr string;
    DeletionTime : ptr string;
    LocationName : ptr string;
    RegionalDatabaseAccountInstanceId : ptr string }.
End RestorableLocationResource.

Module RestorableDatabaseAccountProperties.
Record t := {
    AccountName : ptr string;
    ApiType : ptr string;
    CreationTime : ptr string;
    DeletionTime : ptr string;
    RestorableLocations : ptr (slice RestorableLocationResource.t) }.
End RestorableDatabaseAccountProperties.

(** [restorables.RestorableDatabaseAccountGetResult] *)
Definition RestorableDatabaseAccountGetResult : Type :=
  GetResults.t RestorableDatabaseAccountProperties.t.

Definition flattenCosmosDbRestorableDatabaseAccountsRestorableLocations
    (input : ptr (slice RestorableLocationResource.t)) : result (slice value) :=
  let result : slice value := make0 in
  (* len( *input ): the pointer is dereferenced before any nil test *)
  rbind (deref input) (fun input' =>
  if Nat.eqb (length (elems input')) 0 then Ok result
  else
    Ok (fold_left
          (fun result item =>
             let location := stringOrZero (RestorableLocationResource.LocationName item) in
             let regionalDatabaseAccountInstanceId :=
               stringOrZero (RestorableLocationResource.RegionalDatabaseAccountInstanceId item) in
             let creationTime := stringOrZero (RestorableLocationResource.CreationTime item) in
             let deletionTime := stringOrZero (RestorableLocationResource.DeletionTime item) in
             append result
               (VMap [("creation_time", VString creationTime);
                      ("deletion_time", VString deletionTime);
                      ("location", VString location);
                      ("regional_database_account_instance_id",
                        VString regionalDatabaseAccountInstanceId)]))
          (elems input') result)).

Definition flattenCosmosDbRestorableDatabaseAccounts
    (input : ptr (slice RestorableDatabaseAccountGetResult)) (accountName : string)
  : result (slice value) :=
  let result : slice value := make0 in
  rbind (deref input) (fun input' =>
  if Nat.eqb (length (elems input')) 0 then Ok result
  else
    fold_left
      (fun acc item =>
         rbind acc (fun result =>
         match GetResults.Properties item with
         | Some props =>
             match RestorableDatabaseAccountProperties.AccountName props with
             | Some name =>
                 if String.eqb name accountName then
                   let id := stringOrZero (GetResults.Id item) in
                   let apiType := stringOrZero (RestorableDatabaseAccountProperties.ApiType props) in
                   let creationTime :=
                     stringOrZero (RestorableDatabaseAccountProperties.CreationTime props) in
                   let deletionTime :=
                     stringOrZero (RestorableDatabaseAccountProperties.DeletionTime props) in
                   rbind (flattenCosmosDbRestorableDatabaseAccountsRestorableLocations
                            (RestorableDatabaseAccountProperties.RestorableLocations props))
                     (fun locations =>
                        Ok (append result
                              (VMap [("id", VString id);
                                     ("api_type", VString apiType);
                                     ("creation_time", VString creationTime);
                                     ("deletion_time", VString deletionTime);
                                     ("restorable_locations", VList (elems locations))])))
                 else Ok result
             | None => Ok result
             end
         | None => Ok result
         end))
      (elems input') (Ok result)).

(** ** Resource identifiers (go-azure-sdk) *)

Module ContainerId.
Record t := {
    SubscriptionId : string; ResourceGroupName : string;
    DatabaseAccountName : string; SqlDatabaseName : string;
    ContainerName : string }.
End ContainerId.

Module TriggerId.
Record t := {
    SubscriptionId : string; ResourceGroupName : string;
    DatabaseAccountName : string; SqlDatabaseName : string;
    ContainerName : string; TriggerName : string }.
End TriggerId.

Module UserDefinedFunctionId.
Record t := {
    SubscriptionId : string; ResourceGroupName : string;
    DatabaseAccountName : string; SqlDatabaseName : string;
    ContainerName : string; UserDefinedFunctionName : string }.
End UserDefinedFunctionId.

Module StoredProcedureId.
Record t := {
    SubscriptionId : string; ResourceGroupName : string;
    DatabaseAccountName : string; SqlDatabaseName : string;
    ContainerName : string; StoredProcedureName : string }.
End StoredProcedureId.

Module SqlDatabaseId.
Record t := {
    SubscriptionId : string; ResourceGroupName : string;
    DatabaseAccountName : string; SqlDatabaseName : string }.
End SqlDatabaseId.

Module DatabaseAccountId.
Record t := {
    SubscriptionId : string; ResourceGroupName : string;
    DatabaseAccountName : string }.
End DatabaseAccountId.

(** [rbacs.AccountId]: the identifier of a SQL role assignment. *)
Module AccountId.
Record t := {
    SubscriptionId : string; ResourceGroupName : string;
    DatabaseAccountName : string; RoleAssignmentId : string }.
End AccountId.

Module SqlRoleDefinitionId.
Record t := {
    SubscriptionId : string; ResourceGroupName : string;
    DatabaseAccountName : string; RoleDefinitionId : string }.
End SqlRoleDefinitionId.

(** The [resourceids.ResourceId] interface: [ID()] is the path stored in the
    state, [show] is the rendering of [String()] used in messages. *)
Class ResourceId (I : Type) := { ID : I -> string; show : I -> string }.

(** ** SDK payloads and responses *)

Module SqlTriggerResource.
Record t := {
    Id : string; Body : ptr string;
    TriggerType : ptr string; TriggerOperation : ptr string }.
End SqlTriggerResource.

Module SqlUserDefinedFunctionResource.
Record t := { Id : string; Body : ptr string }.
End SqlUserDefinedFunctionResource.

Module SqlStoredProcedureResource.
Record t := { Id : string; Body : ptr string }.
End SqlStoredProcedureResource.

Module SqlDatabaseResource.
Record t := { Id : string }.
End SqlDatabaseResource.

Module SqlRoleAssignmentResource.
Record t := {
    PrincipalId : ptr string; RoleDefinitionId : ptr string; Scope : ptr string }.
End SqlRoleAssignmentResource.

Module SqlRoleDefinitionResource.
Record t := {
    AssignableScopes : ptr (slice string);
    Permissions : ptr (slice Permission.t);
    RoleName : ptr string;
    Type_ : ptr string }.
End SqlRoleDefinitionResource.

Module CreateUpdateOptions.
Record t := { Throughput : ptr Z; AutoScaleSettings : ptr value }.
End CreateUpdateOptions.

Module CreateUpdateProperties.
Record t (R : Type) := { Resource : R; Options : ptr CreateUpdateOptions.t }.
Arguments Resource {R} _.
Arguments Options {R} _.
End CreateUpdateProperties.

Module CreateUpdateParameters.
Record t (P : Type) := { Properties : P }.
Arguments Properties {P} _.
End CreateUpdateParameters.

Module http.
Record Response := { StatusCode : Z }.
End http.

(** The response of a GET operation. *)
Module Response.
Record t (M : Type) := { HttpResponse : ptr http.Response; Model : ptr M }.
Arguments HttpResponse {M} _.
Arguments Model {M} _.
End Response.

(** The response of a long-running operation. *)
Module Future.
Record t (P : Type) := { HttpResponse : ptr http.Response; Poller : P }.
Arguments HttpResponse {P} _.
Arguments Poller {P} _.
End Future.

(** [response.WasNotFound] of go-azure-helpers: false on a nil response. *)
Definition response_WasNotFound (resp : ptr http.Response) : bool :=
  match resp with
  | Some r => Z.eqb (http.StatusCode r) 404
  | None => false
  end.

(** A client operation: it reads and changes the remote world [W]. *)
Definition GetOp (W I M : Type) : Type :=
  I -> W -> (Response.t M * option error) * W.
Definition PutOp (W P I B : Type) : Type :=
  I -> B -> W -> (Future.t P * option error) * W.
Definition DeleteOp (W P I : Type) : Type :=
  I -> W -> (Future.t P * option error) * W.

Abbreviation SqlGetResults R := (GetResults.t (GetProperties.t R)) (only parsing).
Abbreviation SqlCreateUpdateParameters R :=
  (CreateUpdateParameters.t (CreateUpdateProperties.t R)) (only parsing).

(** [W]: remote world, [P]: poller, [TG], [TU]: the throughput models. *)
Record CosmosDBClient (W P TG TU : Type) := {
  SqlResourcesGetSqlTrigger :
    GetOp W TriggerId.t (SqlGetResults SqlTriggerResource.t);
  SqlResourcesCreateUpdateSqlTrigger :
    PutOp W P TriggerId.t (SqlCreateUpdateParameters SqlTriggerResource.t);
  SqlResourcesDeleteSqlTrigger : DeleteOp W P TriggerId.t;
  SqlResourcesGetSqlUserDefinedFunction :
    GetOp W UserDefinedFunctionId.t (SqlGetResults SqlUserDefinedFunctionResource.t);
  SqlResourcesCreateUpdateSqlUserDefinedFunction :
    PutOp W P UserDefinedFunctionId.t
      (SqlCreateUpdateParameters SqlUserDefinedFunctionResource.t);
  SqlResourcesDeleteSqlUserDefinedFunction : DeleteOp W P UserDefinedFunctionId.t;
  SqlResourcesGetSqlStoredProcedure :
    GetOp W StoredProcedureId.t (SqlGetResults SqlStoredProcedureResource.t);
  SqlResourcesCreateUpdateSqlStoredProcedure :
    PutOp W P StoredProcedureId.t
      (SqlCreateUpdateParameters SqlStoredProcedureResource.t);
  SqlResourcesDeleteSqlStoredProcedure : DeleteOp W P StoredProcedureId.t;
  SqlResourcesGetSqlDatabase :
    GetOp W SqlDatabaseId.t (SqlGetResults SqlDatabaseResource.t);
  SqlResourcesCreateUpdateSqlDatabase :
    PutOp W P SqlDatabaseId.t (SqlCreateUpdateParameters SqlDatabaseResource.t);
  SqlResourcesDeleteSqlDatabase : DeleteOp W P SqlDatabaseId.t;
  SqlResourcesGetSqlDatabaseThroughput : GetOp W SqlDatabaseId.t TG;
  SqlResourcesUpdateSqlDatabaseThroughput : PutOp W P SqlDatabaseId.t TU;
  DatabaseAccountsGet : GetOp W DatabaseAccountId.t DatabaseAccountGetResults }.
Arguments SqlResourcesGetSqlTrigger {W P TG TU} _.
Arguments SqlResourcesCreateUpdateSqlTrigger {W P TG TU} _.
Arguments SqlResourcesDeleteSqlTrigger {W P TG TU} _.
Arguments SqlResourcesGetSqlUserDefinedFunction {W P TG TU} _.
Arguments SqlResourcesCreateUpdateSqlUserDefinedFunction {W P TG TU} _.
Arguments SqlResourcesDeleteSqlUserDefinedFunction {W P TG TU} _.
Arguments SqlResourcesGetSqlStoredProcedure {W P TG TU} _.
Arguments SqlResourcesCreateUpdateSqlStoredProcedure {W P TG TU} _.
Arguments SqlResourcesDeleteSqlStoredProcedure {W P TG TU} _.
Arguments SqlResourcesGetSqlDatabase {W P TG TU} _.
Arguments SqlResourcesCreateUpdateSqlDatabase {W P TG TU} _.
Arguments SqlResourcesDeleteSqlDatabase {W P TG TU} _.
Arguments SqlResourcesGetSqlDatabaseThroughput {W P TG TU} _.
Arguments SqlResourcesUpdateSqlDatabaseThroughput {W P TG TU} _.
Arguments DatabaseAccountsGet {W P TG TU} _.

Record RbacsClient (W P : Type) := {
  SqlResourcesGetSqlRoleAssignment :
    GetOp W AccountId.t (GetResults.t SqlRoleAssignmentResource.t);
  SqlResourcesCreateUpdateSqlRoleAssignment :
    PutOp W P AccountId.t (CreateUpdateParameters.t (ptr SqlRoleAssignmentResource.t));
  SqlResourcesDeleteSqlRoleAssignment : DeleteOp W P AccountId.t;
  SqlResourcesGetSqlRoleDefinition :
    GetOp W SqlRoleDefinitionId.t (GetResults.t SqlRoleDefinitionResource.t);
  SqlResourcesCreateUpdateSqlRoleDefinition :
    PutOp W P SqlRoleDefinitionId.t
      (CreateUpdateParameters.t (ptr SqlRoleDefinitionResource.t));
  SqlResourcesDeleteSqlRoleDefinition : DeleteOp W P SqlRoleDefinitionId.t }.
Arguments SqlResourcesGetSqlRoleAssignment {W P} _.
Arguments SqlResourcesCreateUpdateSqlRoleAssignment {W P} _.
Arguments SqlResourcesDeleteSqlRoleAssignment {W P} _.
Arguments SqlResourcesGetSqlRoleDefinition {W P} _.
Arguments SqlResourcesCreateUpdateSqlRoleDefinition {W P} _.
Arguments SqlResourcesDeleteSqlRoleDefinition {W P} _.

(** ** Observable events *)

(** The operations of the clients, as they appear in a trace. *)
Module Op.
Inductive t :=
  | GetSqlTrigger | CreateUpdateSqlTrigger | DeleteSqlTrigger
  | GetSqlUserDefinedFunction | CreateUpdateSqlUserDefinedFunction
  | DeleteSqlUserDefinedFunction
  | GetSqlStoredProcedure | CreateUpdateSqlStoredProcedure | DeleteSqlStoredProcedure
  | GetSqlDatabase | CreateUpdateSqlDatabase | DeleteSqlDatabase
  | GetSqlDatabaseThroughput | UpdateSqlDatabaseThroughput
  | DatabaseAccountsGet
  | GetSqlRoleAssignment | CreateUpdateSqlRoleAssignment | DeleteSqlRoleAssignment
  | GetSqlRoleDefinition | CreateUpdateSqlRoleDefinition | DeleteSqlRoleDefinition
  | RestorableDatabaseAccountsListByLocation.

Definition eqb (a b : t) : bool :=
    match a, b with
    | GetSqlTrigger, GetSqlTrigger
    | CreateUpdateSqlTrigger, CreateUpdateSqlTrigger
    | DeleteSqlTrigger, DeleteSqlTrigger
    | GetSqlUserDefinedFunction, GetSqlUserDefinedFunction
    | CreateUpdateSqlUserDefinedFunction, CreateUpdateSqlUserDefinedFunction
    | DeleteSqlUserDefinedFunction, DeleteSqlUserDefinedFunction
    | GetSqlStoredProcedure, GetSqlStoredProcedure
    | CreateUpdateSqlStoredProcedure, CreateUpdateSqlStoredProcedure
    | DeleteSqlStoredProcedure, DeleteSqlStoredProcedure
    | GetSqlDatabase, GetSqlDatabase
    | CreateUpdateSqlDatabase, CreateUpdateSqlDatabase
    | DeleteSqlDatabase, DeleteSqlDatabase
    | GetSqlDatabaseThroughput, GetSqlDatabaseThroughput
    | UpdateSqlDatabaseThroughput, UpdateSqlDatabaseThroughput
    | DatabaseAccountsGet, DatabaseAccountsGet
    | GetSqlRoleAssignment, GetSqlRoleAssignment
    | CreateUpdateSqlRoleAssignment, CreateUpdateSqlRoleAssignment
    | DeleteSqlRoleAssignment, DeleteSqlRoleAssignment
    | GetSqlRoleDefinition, GetSqlRoleDefinition
    | CreateUpdateSqlRoleDefinition, CreateUpdateSqlRoleDefinition
    | DeleteSqlRoleDefinition, DeleteSqlRoleDefinition
    | RestorableDatabaseAccountsListByLocation, RestorableDatabaseAccountsListByLocation => true
    | _, _ => false
    end.

  (** The operations that change the remote state. *)
Definition mutating (a : t) : bool :=
    match a with
    | CreateUpdateSqlTrigger | DeleteSqlTrigger
    | CreateUpdateSqlUserDefinedFunction | DeleteSqlUserDefinedFunction
    | CreateUpdateSqlStoredProcedure | DeleteSqlStoredProcedure
    | CreateUpdateSqlDatabase | DeleteSqlDatabase
    | UpdateSqlDatabaseThroughput
    | CreateUpdateSqlRoleAssignment | DeleteSqlRoleAssignment
    | CreateUpdateSqlRoleDefinition | DeleteSqlRoleDefinition => true
    | _ => false
    end.
End Op.

(** The trace of a handler: the requests of the clients with the status
    line and the error of the answer, the polls with their error, the named
    lock, and the writes of the identifier. *)
Inductive event : Type :=
| ECall (op : Op.t) (id : string) (resp : ptr http.Response) (err : option error)
| EPoll (op : Op.t) (err : option error)   (* PollUntilDone on the future of [op] *)
| ELock (name kind : string)               (* locks.ByName *)
| EUnlock (name kind : string)             (* locks.UnlockByName *)
| ESetId (id : string).                    (* d.SetId *)

(** ** pluginsdk.ResourceData *)

Record ResourceData := {
  rdId : string;
  rdFields : gmap string value;
  rdIsNew : bool }.

(** [d.Get(key).(string)] of a string field: the zero value when unset. *)
Definition getString (d : ResourceData) (key : string) : string :=
  match rdFields d !! key with
  | Some (VString s) => s
  | _ => ""
  end.

(** [d.Get(key).( *pluginsdk.Set).List()] of a set field. *)
Definition getSetList (d : ResourceData) (key : string) : list value :=
  match rdFields d !! key with
  | Some (VSet l) => l
  | Some (VList l) => l
  | _ => []
  end.

(** The zero values of the schema types. *)
Definition isZero (v : value) : bool :=
  match v with
  | VNil | VString "" | VInt 0%Z | VList [] | VSet [] | VMap [] => true
  | _ => false
  end.

(** [d.GetOk(key)]: the value, and whether it is set to a non-zero value. *)
Definition getOk (d : ResourceData) (key : string) : value * bool :=
  match rdFields d !! key with
  | Some v => (v, negb (isZero v))
  | None => (VNil, false)
  end.

Definition setId (d : ResourceData) (id : string) : ResourceData :=
  {| rdId := id; rdFields := rdFields d; rdIsNew := rdIsNew d |}.

Definition setField (d : ResourceData) (key : string) (v : value) : ResourceData :=
  {| rdId := rdId d; rdFields := <[key := v]> (rdFields d); rdIsNew := rdIsNew d |}.

(** The effect of [d.Set(key, v)] on the data: the field is written unless
    the schema check refuses the value. *)
Definition setChecked (check : string -> value -> option error)
    (d : ResourceData) (key : string) (v : value) : ResourceData :=
  match check key v with
  | Some _ => d
  | None => setField d key v
  end.

(** Several [d.Set] in a row. *)
Definition setAll (check : string -> value -> option error)
    (d : ResourceData) (kvs : list (string * value)) : ResourceData :=
  fold_left (fun d kv => setChecked check d (fst kv) (snd kv)) kvs d.

(** A [*string] or a [string] handed to [d.Set]. *)
Definition ofPtrString (p : ptr string) : value :=
  match p with
  | Some s => VString s
  | None => VNil
  end.

(** ** The handler monad: state, trace, early return and panic *)

Record State (W : Type) := { rd : ResourceData; world : W }.
Arguments rd {W} _.
Arguments world {W} _.

Inductive outcome (A : Type) : Type :=
| Next (a : A)                 (* fall through to the next statement *)
| Return (err : option error)  (* [return err]; [None] is [nil] *)
| Panic.
Arguments Next {A} a.
Arguments Return {A} err.
Arguments Panic {A}.

Definition M (W A : Type) : Type := State W -> outcome A * State W * list event.

Definition ret {W A} (a : A) : M W A := fun st => (Next a, st, []).

Definition bind {W A B} (c : M W A) (k : A -> M W B) : M W B :=
  fun st =>
    match c st with
    | (Next a, st1, evs1) =>
        match k a st1 with
        | (o, st2, evs2) => (o, st2, evs1 ++ evs2)
        end
    | (Return err, st1, evs1) => (Return err, st1, evs1)
    | (Panic, st1, evs1) => (Panic, st1, evs1)
    end.

Declare Scope go_scope.
Delimit Scope go_scope with go.
Notation "x <- c ;; k" := (bind c (fun x => k))
  (at level 20, c at level 99, k at level 200, only parsing) : go_scope.
Notation "' p <- c ;; k" := (bind c (fun x => match x with p => k end))
  (at level 20, p pattern, c at level 99, k at level 200, only parsing) : go_scope.
Notation "c ;; k" := (bind c (fun _ => k))
  (at level 100, k at level 200, only parsing, right associativity) : go_scope.

(** [return err] *)
Definition return_ {W A} (err : option error) : M W A := fun st => (Return err, st, []).

Definition panic {W A} : M W A := fun st => (Panic, st, []).

Definition lift {W A} (r : result A) : M W A :=
  match r with
  | Ok a => ret a
  | Panicked => panic
  end.

Definition emit {W} (e : event) : M W unit := fun st => (Next tt, st, [e]).

(** [if cond { body }] *)
Definition when {W} (cond : bool) (body : M W unit) : M W unit :=
  if cond then body else ret tt.

(** A handler: every path ends in [return] or in a panic. *)
Definition Handler (W : Type) : Type := M W Empty_set.

(** [defer f()] followed by the rest of the body: [f] runs when the body
    returns and when it panics. *)
Definition defer {W A} (f : event) (body : M W A) : M W A :=
  fun st =>
    match body st with
    | (o, st1, evs) => (o, st1, evs ++ [f])
    end.

Definition getData {W} : M W ResourceData := fun st => (Next (rd st), st, []).

Definition putData {W} (d : ResourceData) : M W unit :=
  fun st => (Next tt, {| rd := d; world := world st |}, []).

(** [d.SetId(id)] *)
Definition d_SetId {W} (id : string) : M W unit :=
  fun st => (Next tt, {| rd := setId (rd st) id; world := world st |}, [ESetId id]).

(** A GET request of a client. *)
Definition callGet {W R} (op : Op.t) (id : string)
    (f : W -> (Response.t R * option error) * W) : M W (Response.t R * option error) :=
  fun st =>
    match f (world st) with
    | ((resp, err), w) =>
        (Next (resp, err), {| rd := rd st; world := w |},
         [ECall op id (Response.HttpResponse resp) err])
    end.

(** A request of a client that starts a long-running operation. *)
Definition callLro {W P} (op : Op.t) (id : string)
    (f : W -> (Future.t P * option error) * W) : M W (Future.t P * option error) :=
  fun st =>
    match f (world st) with
    | ((future, err), w) =>
        (Next (future, err), {| rd := rd st; world := w |},
         [ECall op id (Future.HttpResponse future) err])
    end.

(** The events [evs], then the run [r]. *)
Definition pre {X S : Type} (evs : list event) (r : X * S * list event)
  : X * S * list event :=
  (fst (fst r), snd (fst r), evs ++ snd r).

(** The run [r], then the events [evs]. *)
Definition post {X S : Type} (evs : list event) (r : X * S * list event)
  : X * S * list event :=
  (fst (fst r), snd (fst r), snd r ++ evs).

(** The end of a handler: the returned error, or the panic. *)
Definition finish {W} (r : outcome Empty_set * State W * list event)
  : result (option error) * State W * list event :=
  match r with
  | (Next a, _, _) => match a with end
  | (Return err, st1, evs) => (Ok err, st1, evs)
  | (Panic, st1, evs) => (Panicked, st1, evs)
  end.

(** The result, the final state and the trace of a handler run from a state. *)
Definition run {W} (h : Handler W) (st : State W)
  : result (option error) * State W * list event :=
  finish (h st).

(** ** What the handlers import *)

(** [meta.( *clients.Client)] *)
Record Client (W P TG TU : Type) := {
  Account_SubscriptionId : string;
  Cosmos_CosmosDBClient : CosmosDBClient W P TG TU;
  Cosmos_RbacsClient : RbacsClient W P }.
Arguments Account_SubscriptionId {W P TG TU} _.
Arguments Cosmos_CosmosDBClient {W P TG TU} _.
Arguments Cosmos_RbacsClient {W P TG TU} _.

(** The functions of other packages that the handlers call and that are not
    part of the embedded files: the pollers and parsers of the SDK, the UUID
    generator, the schema check of [d.Set], and the helpers of packages
    [common] and [utils].  A parser returns the error or the identifier. *)
Record Imports (W P TG TU : Type) := {
  PollUntilDone : P -> W -> option error * W;
  GenerateUUID : W -> (string * option error) * W;
  CosmosDbAccountResourceName : string;
  ParseContainerID : string -> error + ContainerId.t;
  ParseTriggerID : string -> error + TriggerId.t;
  ParseUserDefinedFunctionID : string -> error + UserDefinedFunctionId.t;
  ParseStoredProcedureID : string -> error + StoredProcedureId.t;
  ParseSqlDatabaseID : string -> error + SqlDatabaseId.t;
  ParseAccountID : string -> error + AccountId.t;
  ParseSqlRoleDefinitionID : string -> error + SqlRoleDefinitionId.t;
  schemaSet : string -> value -> option error;
  ConvertThroughputFromResourceData : value -> ptr Z;
  ExpandCosmosDbAutoscaleSettings : ResourceData -> ptr value;
  CheckForChangeFromAutoscaleAndManualThroughput : ResourceData -> option error;
  HasThroughputChange : ResourceData -> bool;
  ExpandCosmosDBThroughputSettingsUpdateParameters : ResourceData -> ptr TU;
  SetResourceDataThroughputFromResponse : TG -> ResourceData -> ResourceData;
  FlattenStringSlice : ptr (slice string) -> value;
  ExpandStringSlice : list value -> result (ptr (slice string)) }.
Arguments PollUntilDone {W P TG TU} _.
Arguments GenerateUUID {W P TG TU} _.
Arguments CosmosDbAccountResourceName {W P TG TU} _.
Arguments ParseContainerID {W P TG TU} _.
Arguments ParseTriggerID {W P TG TU} _.
Arguments ParseUserDefinedFunctionID {W P TG TU} _.
Arguments ParseStoredProcedureID {W P TG TU} _.
Arguments ParseSqlDatabaseID {W P TG TU} _.
Arguments ParseAccountID {W P TG TU} _.
Arguments ParseSqlRoleDefinitionID {W P TG TU} _.
Arguments schemaSet {W P TG TU} _.
Arguments ConvertThroughputFromResourceData {W P TG TU} _.
Arguments ExpandCosmosDbAutoscaleSettings {W P TG TU} _.
Arguments CheckForChangeFromAutoscaleAndManualThroughput {W P TG TU} _.
Arguments HasThroughputChange {W P TG TU} _.
Arguments ExpandCosmosDBThroughputSettingsUpdateParameters {W P TG TU} _.
Arguments SetResourceDataThroughputFromResponse {W P TG TU} _.
Arguments FlattenStringSlice {W P TG TU} _.
Arguments ExpandStringSlice {W P TG TU} _.

(** The constructors of the identifiers. *)
Definition NewContainerID (subscriptionId resourceGroupName databaseAccountName
    sqlDatabaseName containerName : string) : ContainerId.t :=
  {| ContainerId.SubscriptionId := subscriptionId;
     ContainerId.ResourceGroupName := resourceGroupName;
     ContainerId.DatabaseAccountName := databaseAccountName;
     ContainerId.SqlDatabaseName := sqlDatabaseName;
     ContainerId.ContainerName := containerName |}.

Definition NewTriggerID (subscriptionId resourceGroupName databaseAccountName
    sqlDatabaseName containerName triggerName : string) : TriggerId.t :=
  {| TriggerId.SubscriptionId := subscriptionId;
     TriggerId.ResourceGroupName := resourceGroupName;
     TriggerId.DatabaseAccountName := databaseAccountName;
     TriggerId.SqlDatabaseName := sqlDatabaseName;
     TriggerId.ContainerName := containerName;
     TriggerId.TriggerName := triggerName |}.

Definition NewUserDefinedFunctionID (subscriptionId resourceGroupName databaseAccountName
    sqlDatabaseName containerName userDefinedFunctionName : string)
  : UserDefinedFunctionId.t :=
  {| UserDefinedFunctionId.SubscriptionId := subscriptionId;
     UserDefinedFunctionId.ResourceGroupName := resourceGroupName;
     UserDefinedFunctionId.DatabaseAccountName := databaseAccountName;
     UserDefinedFunctionId.SqlDatabaseName := sqlDatabaseName;
     UserDefinedFunctionId.ContainerName := containerName;
     UserDefinedFunctionId.UserDefinedFunctionName := userDefinedFunctionName |}.

Definition NewStoredProcedureID (subscriptionId resourceGroupName databaseAccountName
    sqlDatabaseName containerName storedProcedureName : string) : StoredProcedureId.t :=
  {| StoredProcedureId.SubscriptionId := subscriptionId;
     StoredProcedureId.ResourceGroupName := resourceGroupName;
     StoredProcedureId.DatabaseAccountName := databaseAccountName;
     StoredProcedureId.SqlDatabaseName := sqlDatabaseName;
     StoredProcedureId.ContainerName := containerName;
     StoredProcedureId.StoredProcedureName := storedProcedureName |}.

Definition NewSqlDatabaseID (subscriptionId resourceGroupName databaseAccountName
    sqlDatabaseName : string) : SqlDatabaseId.t :=
  {| SqlDatabaseId.SubscriptionId := subscriptionId;
     SqlDatabaseId.ResourceGroupName := resourceGroupName;
     SqlDatabaseId.DatabaseAccountName := databaseAccountName;
     SqlDatabaseId.SqlDatabaseName := sqlDatabaseName |}.

Definition NewDatabaseAccountID (subscriptionId resourceGroupName
    databaseAccountName : string) : DatabaseAccountId.t :=
  {| DatabaseAccountId.SubscriptionId := subscriptionId;
     DatabaseAccountId.ResourceGroupName := resourceGroupName;
     DatabaseAccountId.DatabaseAccountName := databaseAccountName |}.

Definition NewAccountID (subscriptionId resourceGroupName databaseAccountName
    roleAssignmentId : string) : AccountId.t :=
  {| AccountId.SubscriptionId := subscriptionId;
     AccountId.ResourceGroupName := resourceGroupName;
     AccountId.DatabaseAccountName := databaseAccountName;
     AccountId.RoleAssignmentId := roleAssignmentId |}.

Definition NewSqlRoleDefinitionID (subscriptionId resourceGroupName databaseAccountName
    roleDefinitionId : string) : SqlRoleDefinitionId.t :=
  {| SqlRoleDefinitionId.SubscriptionId := subscriptionId;
     SqlRoleDefinitionId.ResourceGroupName := resourceGroupName;
     SqlRoleDefinitionId.DatabaseAccountName := databaseAccountName;
     SqlRoleDefinitionId.RoleDefinitionId := roleDefinitionId |}.

(** [a && b] and [a || b] where evaluating [b] may panic. *)
Definition andThen (a : bool) (b : result bool) : result bool :=
  if a then b else Ok false.
Definition orElse (a : bool) (b : result bool) : result bool :=
  if a then Ok true else b.

Definition isNil {A} (p : ptr A) : bool :=
  match p with
  | None => true
  | Some _ => false
  end.

(** ** The handlers

    The context built by [timeouts.For*], its deferred [cancel()] and the
    calls of [log.Printf] change neither the state nor the returned error,
    and are left out. *)

Section Handlers.
Context {W P TG TU : Type}.
Context `{!ResourceId ContainerId.t, !ResourceId TriggerId.t,
            !ResourceId UserDefinedFunctionId.t, !ResourceId StoredProcedureId.t,
            !ResourceId SqlDatabaseId.t, !ResourceId DatabaseAccountId.t,
            !ResourceId AccountId.t, !ResourceId SqlRoleDefinitionId.t}.
Variable meta : Client W P TG TU.
Variable pkg : Imports W P TG TU.

Local Open Scope go_scope.

  (** [future.Poller.PollUntilDone()] on the future of [op]. *)
Definition poll (op : Op.t) (p : P) : M W (option error) :=
    fun st =>
      match PollUntilDone pkg p (world st) with
      | (err, w) => (Next err, {| rd := rd st; world := w |}, [EPoll op err])
      end.

Definition uuid_GenerateUUID : M W (string * option error) :=
    fun st =>
      match GenerateUUID pkg (world st) with
      | (r, w) => (Next r, {| rd := rd st; world := w |}, [])
      end.

  (** [d.Set(key, v)]: the field is written unless the schema refuses it. *)
Definition d_Set (key : string) (v : value) : M W (option error) :=
  fun st =>
    (Next (schemaSet pkg key v),
     {| rd := setChecked (schemaSet pkg) (rd st) key v; world := world st |},
     []).

(** [if err != nil { body }] *)
Definition ifErr (err : option error) (body : error -> M W unit) : M W unit :=
    match err with
    | Some e => body e
    | None => ret tt
    end.

  (** [id, err := Parse(s); if err != nil { return err }] *)
Definition parseOrReturn {I} (r : error + I) : M W I :=
    match r with
    | inr id => ret id
    | inl err => return_ (Some err)
    end.

  (** [id, _ := Parse(s)]: the error is dropped, and the first use of a field
      of the nil identifier panics. *)
Definition parseOrNil {I} (r : error + I) : M W I :=
    match r with
    | inr id => ret id
    | inl _ => panic
    end.

Definition locks_ByName (name kind : string) : M W unit := emit (ELock name kind).

  (** *** cosmosdb_sql_trigger_resource.go *)

Definition resourceCosmosDbSQLTriggerRead : Handler W :=
    d <- getData ;;
    id <- parseOrReturn (ParseTriggerID pkg (rdId d)) ;;
    '(resp, err) <- callGet Op.GetSqlTrigger (ID id)
                      (SqlResourcesGetSqlTrigger (Cosmos_CosmosDBClient meta) id) ;;
    ifErr err (fun err =>
      when (response_WasNotFound (Response.HttpResponse resp))
        (d_SetId "" ;;
         return_ None) ;;
      return_ (Some (Errorf "retrieving CosmosDb SQLTrigger %q: %+v" [show id] (Some err)))) ;;
    let containerId :=
      NewContainerID (TriggerId.SubscriptionId id) (TriggerId.ResourceGroupName id)
        (TriggerId.DatabaseAccountName id) (TriggerId.SqlDatabaseName id)
        (TriggerId.ContainerName id) in
    d_Set "name" (VString (TriggerId.TriggerName id)) ;;
    d_Set "container_id" (VString (ID containerId)) ;;
    model <- lift (deref (Response.Model resp)) ;;
    match GetResults.Properties model with
    | Some props =>
        match GetProperties.Resource props with
        | Some res =>
            d_Set "body" (ofPtrString (SqlTriggerResource.Body res)) ;;
            d_Set "operation" (ofPtrString (SqlTriggerResource.TriggerOperation res)) ;;
            d_Set "type" (ofPtrString (SqlTriggerResource.TriggerType res)) ;;
            ret tt
        | None => ret tt
        end
    | None => ret tt
    end ;;
    return_ None.

Definition resourceCosmosDbSQLTriggerCreateUpdate : Handler W :=
    let subscriptionId := Account_SubscriptionId meta in
    d <- getData ;;
    let name := getString d "name" in
    containerId <- parseOrNil (ParseContainerID pkg (getString d "container_id")) ;;
    let body := getString d "body" in
    let triggerOperation := getString d "operation" in
    let triggerType := getString d "type" in
    let id :=
      NewTriggerID subscriptionId (ContainerId.ResourceGroupName containerId)
        (ContainerId.DatabaseAccountName containerId)
        (ContainerId.SqlDatabaseName containerId)
        (ContainerId.ContainerName containerId) name in
    when (rdIsNew d)
      ('(existing, err) <- callGet Op.GetSqlTrigger (ID id)
                             (SqlResourcesGetSqlTrigger (Cosmos_CosmosDBClient meta) id) ;;
       ifErr err (fun err =>
         when (negb (response_WasNotFound (Response.HttpResponse existing)))
           (return_ (Some (Errorf "checking for existing CosmosDb SQLTrigger %q: %+v"
                             [show id] (Some err))))) ;;
       when (negb (response_WasNotFound (Response.HttpResponse existing)))
         (return_ (Some (ImportAsExistsError "azurerm_cosmosdb_sql_trigger" (ID id))))) ;;
    let createUpdateSqlTriggerParameters :=
      {| CreateUpdateParameters.Properties :=
           {| CreateUpdateProperties.Resource :=
                {| SqlTriggerResource.Id := name;
                   SqlTriggerResource.Body := Some body;
                   SqlTriggerResource.TriggerType := Some triggerType;
                   SqlTriggerResource.TriggerOperation := Some triggerOperation |};
              CreateUpdateProperties.Options :=
                Some {| CreateUpdateOptions.Throughput := None;
                        CreateUpdateOptions.AutoScaleSettings := None |} |} |} in
    '(future, err) <- callLro Op.CreateUpdateSqlTrigger (ID id)
                        (SqlResourcesCreateUpdateSqlTrigger (Cosmos_CosmosDBClient meta) id
                           createUpdateSqlTriggerParameters) ;;
    ifErr err (fun err =>
      return_ (Some (Errorf "creating/updating CosmosDb SQLTrigger %q: %+v"
                       [show id] (Some err)))) ;;
    err <- poll Op.CreateUpdateSqlTrigger (Future.Poller future) ;;
    ifErr err (fun err =>
      return_ (Some (Errorf "waiting for creation/update of the CosmosDb SQLTrigger %q: %+v"
                       [show id] (Some err)))) ;;
    d_SetId (ID id) ;;
    resourceCosmosDbSQLTriggerRead.

Definition resourceCosmosDbSQLTriggerDelete : Handler W :=
    d <- getData ;;
    id <- parseOrReturn (ParseTriggerID pkg (rdId d)) ;;
    '(future, err) <- callLro Op.DeleteSqlTrigger (ID id)
                        (SqlResourcesDeleteSqlTrigger (Cosmos_CosmosDBClient meta) id) ;;
    ifErr err (fun err =>
      return_ (Some (Errorf "deleting CosmosDb SQLResourcesSQLTrigger %q: %+v"
                       [show id] (Some err)))) ;;
    err <- poll Op.DeleteSqlTrigger (Future.Poller future) ;;
    ifErr err (fun err =>
      return_ (Some (Errorf
                       "waiting for deletion of the CosmosDb SQLResourcesSQLTrigger %q: %+v"
                       [show id] (Some err)))) ;;
    return_ None.

  (** *** cosmosdb_sql_function_resource.go *)

Definition resourceCosmosDbSQLFunctionRead : Handler W :=
    d <- getData ;;
    id <- parseOrReturn (ParseUserDefinedFunctionID pkg (rdId d)) ;;
    '(resp, err) <- callGet Op.GetSqlUserDefinedFunction (ID id)
                      (SqlResourcesGetSqlUserDefinedFunction (Cosmos_CosmosDBClient meta) id) ;;
    ifErr err (fun err =>
      when (response_WasNotFound (Response.HttpResponse resp))
        (d_SetId "" ;;
         return_ None) ;;
      return_ (Some (Errorf "retrieving CosmosDb SqlFunction %q: %+v" [show id] (Some err)))) ;;
    let containerId :=
      NewContainerID (UserDefinedFunctionId.SubscriptionId id)
        (UserDefinedFunctionId.ResourceGroupName id)
        (UserDefinedFunctionId.DatabaseAccountName id)
        (UserDefinedFunctionId.SqlDatabaseName id)
        (UserDefinedFunctionId.ContainerName id) in
    d_Set "name" (VString (UserDefinedFunctionId.UserDefinedFunctionName id)) ;;
    d_Set "container_id" (VString (ID containerId)) ;;
    model <- lift (deref (Response.Model resp)) ;;
    match GetResults.Properties model with
    | Some props =>
        match GetProperties.Resource props with
        | Some res =>
            d_Set "body" (ofPtrString (SqlUserDefinedFunctionResource.Body res)) ;;
            ret tt
        | None => ret tt
        end
    | None => ret tt
    end ;;
    return_ None.

Definition resourceCosmosDbSQLFunctionCreateUpdate : Handler W :=
    let subscriptionId := Account_SubscriptionId meta in
    d <- getData ;;
    let name := getString d "name" in
    containerId <- parseOrNil (ParseContainerID pkg (getString d "container_id")) ;;
    let body := getString d "body" in
    let id :=
      NewUserDefinedFunctionID subscriptionId (ContainerId.ResourceGroupName containerId)
        (ContainerId.DatabaseAccountName containerId)
        (ContainerId.SqlDatabaseName containerId)
        (ContainerId.ContainerName containerId) name in
    when (rdIsNew d)
      ('(existing, err) <- callGet Op.GetSqlUserDefinedFunction (ID id)
                             (SqlResourcesGetSqlUserDefinedFunction
                                (Cosmos_CosmosDBClient meta) id) ;;
       ifErr err (fun err =>
         when (negb (response_WasNotFound (Response.HttpResponse existing)))
           (return_ (Some (Errorf "checking for existing CosmosDb SqlFunction %q: %+v"
                             [show id] (Some err))))) ;;
       when (negb (response_WasNotFound (Response.HttpResponse existing)))
         (return_ (Some (ImportAsExistsError "azurerm_cosmosdb_sql_function" (ID id))))) ;;
    let createUpdateSqlUserDefinedFunctionParameters :=
      {| CreateUpdateParameters.Properties :=
           {| CreateUpdateProperties.Resource :=
                {| SqlUserDefinedFunctionResource.Id := name;
                   SqlUserDefinedFunctionResource.Body := Some body |};
              CreateUpdateProperties.Options :=
                Some {| CreateUpdateOptions.Throughput := None;
                        CreateUpdateOptions.AutoScaleSettings := None |} |} |} in
    '(future, err) <- callLro Op.CreateUpdateSqlUserDefinedFunction (ID id)
                        (SqlResourcesCreateUpdateSqlUserDefinedFunction
                           (Cosmos_CosmosDBClient meta) id
                           createUpdateSqlUserDefinedFunctionParameters) ;;
    ifErr err (fun err =>
      return_ (Some (Errorf "creating/updating CosmosDb SqlFunction %q: %+v"
                       [show id] (Some err)))) ;;
    err <- poll Op.CreateUpdateSqlUserDefinedFunction (Future.Poller future) ;;
    ifErr err (fun err =>
      return_ (Some (Errorf "waiting for creation/update of the CosmosDb SqlFunction %q: %+v"
                       [show id] (Some err)))) ;;
    d_SetId (ID id) ;;
    resourceCosmosDbSQLFunctionRead.

Definition resourceCosmosDbSQLFunctionDelete : Handler W :=
    d <- getData ;;
    id <- parseOrReturn (ParseUserDefinedFunctionID pkg (rdId d)) ;;
    '(future, err) <- callLro Op.DeleteSqlUserDefinedFunction (ID id)
                        (SqlResourcesDeleteSqlUserDefinedFunction
                           (Cosmos_CosmosDBClient meta) id) ;;
    ifErr err (fun err =>
      return_ (Some (Errorf "deleting CosmosDb SqlFunction %q: %+v" [show id] (Some err)))) ;;
    err <- poll Op.DeleteSqlUserDefinedFunction (Future.Poller future) ;;
    ifErr err (fun err =>
      return_ (Some (Errorf "waiting for deletion of the CosmosDb SqlFunction %q: %+v"
                       [show id] (Some err)))) ;;
    return_ None.

  (** *** cosmosdb_sql_role_assignment_resource.go *)

Definition resourceCosmosDbSQLRoleAssignmentRead : Handler W :=
    d <- getData ;;
    id <- parseOrReturn (ParseAccountID pkg (rdId d)) ;;
    '(resp, err) <- callGet Op.GetSqlRoleAssignment (ID id)
                      (SqlResourcesGetSqlRoleAssignment (Cosmos_RbacsClient meta) id) ;;
    ifErr err (fun err =>
      when (response_WasNotFound (Response.HttpResponse resp))
        (d_SetId "" ;;
         return_ None) ;;
      return_ (Some (Errorf "retrieving %s: %+v" [show id] (Some err)))) ;;
    d_Set "name" (VString (AccountId.RoleAssignmentId id)) ;;
    d_Set "resource_group_name" (VString (AccountId.ResourceGroupName id)) ;;
    d_Set "account_name" (VString (AccountId.DatabaseAccountName id)) ;;
    model <- lift (deref (Response.Model resp)) ;;
    match GetResults.Properties model with
    | Some props =>
        d_Set "principal_id" (ofPtrString (SqlRoleAssignmentResource.PrincipalId props)) ;;
        d_Set "role_definition_id"
          (ofPtrString (SqlRoleAssignmentResource.RoleDefinitionId props)) ;;
        d_Set "scope" (ofPtrString (SqlRoleAssignmentResource.Scope props)) ;;
        ret tt
    | None => ret tt
    end ;;
    return_ None.

Definition resourceCosmosDbSQLRoleAssignmentCreate : Handler W :=
    let subscriptionId := Account_SubscriptionId meta in
    d <- getData ;;
    let name := getString d "name" in
    name <- (if String.eqb name "" then
               '(uuid, err) <- uuid_GenerateUUID ;;
               ifErr err (fun err =>
                 return_ (Some (Errorf "generating UUID for Cosmos DB SQL Role Assignment: %+v"
                                  [] (Some err)))) ;;
               ret uuid
             else ret name) ;;
    let resourceGroup := getString d "resource_group_name" in
    let accountName := getString d "account_name" in
    let id := NewAccountID subscriptionId resourceGroup accountName name in
    locks_ByName (AccountId.DatabaseAccountName id) (CosmosDbAccountResourceName pkg) ;;
    defer (EUnlock (AccountId.DatabaseAccountName id) (CosmosDbAccountResourceName pkg))
      ('(existing, err) <- callGet Op.GetSqlRoleAssignment (ID id)
                             (SqlResourcesGetSqlRoleAssignment (Cosmos_RbacsClient meta) id) ;;
       ifErr err (fun err =>
         when (negb (response_WasNotFound (Response.HttpResponse existing)))
           (return_ (Some (Errorf "checking for presence of existing %s: %+v"
                             [show id] (Some err))))) ;;
       when (negb (response_WasNotFound (Response.HttpResponse existing)))
         (return_ (Some (ImportAsExistsError "azurerm_cosmosdb_sql_role_assignment" (ID id)))) ;;
       let parameters :=
         {| CreateUpdateParameters.Properties :=
              Some {| SqlRoleAssignmentResource.PrincipalId :=
                        Some (getString d "principal_id");
                      SqlRoleAssignmentResource.RoleDefinitionId :=
                        Some (getString d "role_definition_id");
                      SqlRoleAssignmentResource.Scope := Some (getString d "scope") |} |} in
       '(future, err) <- callLro Op.CreateUpdateSqlRoleAssignment (ID id)
                           (SqlResourcesCreateUpdateSqlRoleAssignment
                              (Cosmos_RbacsClient meta) id parameters) ;;
       ifErr err (fun err =>
         return_ (Some (Errorf "creating/updating %s: %+v" [show id] (Some err)))) ;;
       err <- poll Op.CreateUpdateSqlRoleAssignment (Future.Poller future) ;;
       ifErr err (fun err =>
         return_ (Some (Errorf "waiting for the completion of the creating/updating of %s: %+v"
                          [show id] (Some err)))) ;;
       d_SetId (ID id) ;;
       resourceCosmosDbSQLRoleAssignmentRead).

Definition resourceCosmosDbSQLRoleAssignmentUpdate : Handler W :=
    d <- getData ;;
    id <- parseOrReturn (ParseAccountID pkg (rdId d)) ;;
    locks_ByName (AccountId.DatabaseAccountName id) (CosmosDbAccountResourceName pkg) ;;
    defer (EUnlock (AccountId.DatabaseAccountName id) (CosmosDbAccountResourceName pkg))
      (let parameters :=
         {| CreateUpdateParameters.Properties :=
              Some {| SqlRoleAssignmentResource.PrincipalId :=
                        Some (getString d "principal_id");
                      SqlRoleAssignmentResource.RoleDefinitionId :=
                        Some (getString d "role_definition_id");
                      SqlRoleAssignmentResource.Scope := Some (getString d "scope") |} |} in
       '(future, err) <- callLro Op.CreateUpdateSqlRoleAssignment (ID id)
                           (SqlResourcesCreateUpdateSqlRoleAssignment
                              (Cosmos_RbacsClient meta) id parameters) ;;
       ifErr err (fun err =>
         return_ (Some (Errorf "updating %s: %+v" [show id] (Some err)))) ;;
       err <- poll Op.CreateUpdateSqlRoleAssignment (Future.Poller future) ;;
       ifErr err (fun err =>
         return_ (Some (Errorf "waiting for the completion of the updating of %s: %+v"
                          [show id] (Some err)))) ;;
       d_SetId (ID id) ;;
       resourceCosmosDbSQLRoleAssignmentRead).

Definition resourceCosmosDbSQLRoleAssignmentDelete : Handler W :=
    d <- getData ;;
    id <- parseOrReturn (ParseAccountID pkg (rdId d)) ;;
    locks_ByName (AccountId.DatabaseAccountName id) (CosmosDbAccountResourceName pkg) ;;
    defer (EUnlock (AccountId.DatabaseAccountName id) (CosmosDbAccountResourceName pkg))
      ('(future, err) <- callLro Op.DeleteSqlRoleAssignment (ID id)
                           (SqlResourcesDeleteSqlRoleAssignment (Cosmos_RbacsClient meta) id) ;;
       ifErr err (fun err =>
         return_ (Some (Errorf "deleting %s: %+v" [show id] (Some err)))) ;;
       err <- poll Op.DeleteSqlRoleAssignment (Future.Poller future) ;;
       ifErr err (fun err =>
         return_ (Some (Errorf "waiting for the completion of the deleting of %s: %+v"
                          [show id] (Some err)))) ;;
       return_ None).

  (** *** cosmosdb_sql_stored_procedure_resource.go *)

Definition resourceCosmosDbSQLStoredProcedureRead : Handler W :=
    d <- getData ;;
    id <- parseOrReturn (ParseStoredProcedureID pkg (rdId d)) ;;
    '(resp, err) <- callGet Op.GetSqlStoredProcedure (ID id)
                      (SqlResourcesGetSqlStoredProcedure (Cosmos_CosmosDBClient meta) id) ;;
    ifErr err (fun err =>
      when (response_WasNotFound (Response.HttpResponse resp))
        (d_SetId "" ;;
         return_ None) ;;
      return_ (Some (Errorf
                       "retrieving SQL Stored Procedure %q (Container %q / Database %q / Account %q): %+v"
                       [StoredProcedureId.StoredProcedureName id;
                        StoredProcedureId.ContainerName id;
                        StoredProcedureId.SqlDatabaseName id;
                        StoredProcedureId.DatabaseAccountName id] (Some err)))) ;;
    d_Set "resource_group_name" (VString (StoredProcedureId.ResourceGroupName id)) ;;
    d_Set "account_name" (VString (StoredProcedureId.DatabaseAccountName id)) ;;
    d_Set "database_name" (VString (StoredProcedureId.SqlDatabaseName id)) ;;
    d_Set "container_name" (VString (StoredProcedureId.ContainerName id)) ;;
    d_Set "name" (VString (StoredProcedureId.StoredProcedureName id)) ;;
    model <- lift (deref (Response.Model resp)) ;;
    match GetResults.Properties model with
    | Some props =>
        match GetProperties.Resource props with
        | Some res =>
            d_Set "body" (ofPtrString (SqlStoredProcedureResource.Body res)) ;;
            ret tt
        | None => ret tt
        end
    | None => ret tt
    end ;;
    return_ None.

Definition resourceCosmosDbSQLStoredProcedureCreate : Handler W :=
    let subscriptionId := Account_SubscriptionId meta in
    d <- getData ;;
    let storedProcBody := getString d "body" in
    let id :=
      NewStoredProcedureID subscriptionId (getString d "resource_group_name")
        (getString d "account_name") (getString d "database_name")
        (getString d "container_name") (getString d "name") in
    '(existing, err) <- callGet Op.GetSqlStoredProcedure (ID id)
                          (SqlResourcesGetSqlStoredProcedure (Cosmos_CosmosDBClient meta) id) ;;
    match err with
    | Some err =>
        when (negb (response_WasNotFound (Response.HttpResponse existing)))
          (return_ (Some (Errorf "checking for presence of %s: %+v" [show id] (Some err))))
    | None =>
        model <- lift (deref (Response.Model existing)) ;;
        (* existing.Model.Id == nil && *existing.Model.Id == "" *)
        cond <- lift (andThen (isNil (GetResults.Id model))
                        (rbind (deref (GetResults.Id model))
                           (fun s => Ok (String.eqb s "")))) ;;
        when cond
          (return_ (Some (Errorf "generating import ID for %s" [show id] None))) ;;
        existingId <- lift (deref (GetResults.Id model)) ;;
        return_ (Some (ImportAsExistsError "azurerm_cosmosdb_sql_stored_procedure" existingId))
    end ;;
    let storedProcParams :=
      {| CreateUpdateParameters.Properties :=
           {| CreateUpdateProperties.Resource :=
                {| SqlStoredProcedureResource.Id := StoredProcedureId.StoredProcedureName id;
                   SqlStoredProcedureResource.Body := Some storedProcBody |};
              CreateUpdateProperties.Options :=
                Some {| CreateUpdateOptions.Throughput := None;
                        CreateUpdateOptions.AutoScaleSettings := None |} |} |} in
    '(future, err) <- callLro Op.CreateUpdateSqlStoredProcedure (ID id)
                        (SqlResourcesCreateUpdateSqlStoredProcedure
                           (Cosmos_CosmosDBClient meta) id storedProcParams) ;;
    ifErr err (fun err =>
      return_ (Some (Errorf "creating %s: %+v" [show id] (Some err)))) ;;
    err <- poll Op.CreateUpdateSqlStoredProcedure (Future.Poller future) ;;
    ifErr err (fun err =>
      return_ (Some (Errorf "waiting for creation of %s: %+v" [show id] (Some err)))) ;;
    d_SetId (ID id) ;;
    resourceCosmosDbSQLStoredProcedureRead.

Definition resourceCosmosDbSQLStoredProcedureUpdate : Handler W :=
    d <- getData ;;
    id <- parseOrReturn (ParseStoredProcedureID pkg (rdId d)) ;;
    let containerName := StoredProcedureId.ContainerName id in
    let databaseName := StoredProcedureId.SqlDatabaseName id in
    let accountName := StoredProcedureId.DatabaseAccountName id in
    let name := StoredProcedureId.StoredProcedureName id in
    let storedProcParams :=
      {| CreateUpdateParameters.Properties :=
           {| CreateUpdateProperties.Resource :=
                {| SqlStoredProcedureResource.Id := name;
                   SqlStoredProcedureResource.Body := Some (getString d "body") |};
              CreateUpdateProperties.Options :=
                Some {| CreateUpdateOptions.Throughput := None;
                        CreateUpdateOptions.AutoScaleSettings := None |} |} |} in
    '(future, err) <- callLro Op.CreateUpdateSqlStoredProcedure (ID id)
                        (SqlResourcesCreateUpdateSqlStoredProcedure
                           (Cosmos_CosmosDBClient meta) id storedProcParams) ;;
    ifErr err (fun err =>
      return_ (Some (Errorf
                       "updating SQL Stored Procedure %q (Container %q / Database %q / Account %q): %+v"
                       [name; containerName; databaseName; accountName] (Some err)))) ;;
    err <- poll Op.CreateUpdateSqlStoredProcedure (Future.Poller future) ;;
    ifErr err (fun err =>
      return_ (Some (Errorf
                       "waiting for update of SQL Stored Procedure %q (Container %q / Database %q / Account %q): %+v"
                       [name; containerName; databaseName; accountName] (Some err)))) ;;
    resourceCosmosDbSQLStoredProcedureRead.

Definition resourceCosmosDbSQLStoredProcedureDelete : Handler W :=
    d <- getData ;;
    id <- parseOrReturn (ParseStoredProcedureID pkg (rdId d)) ;;
    '(future, err) <- callLro Op.DeleteSqlStoredProcedure (ID id)
                        (SqlResourcesDeleteSqlStoredProcedure (Cosmos_CosmosDBClient meta) id) ;;
    ifErr err (fun err =>
      when (negb (response_WasNotFound (Future.HttpResponse future)))
        (return_ (Some (Errorf
                          "deleting SQL Stored Procedure %q (Container %q / Database %q / Account %q): %+v"
                          [StoredProcedureId.StoredProcedureName id;
                           StoredProcedureId.ContainerName id;
                           StoredProcedureId.SqlDatabaseName id;
                           StoredProcedureId.DatabaseAccountName id] (Some err))))) ;;
    err <- poll Op.DeleteSqlStoredProcedure (Future.Poller future) ;;
    ifErr err (fun err =>
      return_ (Some (Errorf
                       "waiting for deletion of SQL Stored Procedure %q (Container %q / Database %q / Account %q): %+v"
                       [StoredProcedureId.StoredProcedureName id;
                        StoredProcedureId.ContainerName id;
                        StoredProcedureId.SqlDatabaseName id;
                        StoredProcedureId.DatabaseAccountName id] (Some err)))) ;;
    return_ None.

  (** *** cosmosdb_sql_role_definition_resource.go *)

Definition resourceCosmosDbSQLRoleDefinitionRead : Handler W :=
    d <- getData ;;
    id <- parseOrReturn (ParseSqlRoleDefinitionID pkg (rdId d)) ;;
    '(resp, err) <- callGet Op.GetSqlRoleDefinition (ID id)
                      (SqlResourcesGetSqlRoleDefinition (Cosmos_RbacsClient meta) id) ;;
    ifErr err (fun err =>
      when (response_WasNotFound (Response.HttpResponse resp))
        (d_SetId "" ;;
         return_ None) ;;
      return_ (Some (Errorf "retrieving %s: %+v" [show id] (Some err)))) ;;
    d_Set "role_definition_id" (VString (SqlRoleDefinitionId.RoleDefinitionId id)) ;;
    d_Set "resource_group_name" (VString (SqlRoleDefinitionId.ResourceGroupName id)) ;;
    d_Set "account_name" (VString (SqlRoleDefinitionId.DatabaseAccountName id)) ;;
    model <- lift (deref (Response.Model resp)) ;;
    match GetResults.Properties model with
    | Some props =>
        d_Set "assignable_scopes"
          (FlattenStringSlice pkg (SqlRoleDefinitionResource.AssignableScopes props)) ;;
        d_Set "name" (ofPtrString (SqlRoleDefinitionResource.RoleName props)) ;;
        d_Set "type" (ofPtrString (SqlRoleDefinitionResource.Type_ props)) ;;
        err <- d_Set "permissions"
                 (VList (elems (flattenSqlRoleDefinitionPermissions (FlattenStringSlice pkg)
                                  (SqlRoleDefinitionResource.Permissions props)))) ;;
        ifErr err (fun err =>
          return_ (Some (Errorf "setting `permissions`: %+v" [] (Some err))))
    | None => ret tt
    end ;;
    return_ None.

Definition resourceCosmosDbSQLRoleDefinitionCreate : Handler W :=
    let subscriptionId := Account_SubscriptionId meta in
    d <- getData ;;
    let roleDefinitionId := getString d "role_definition_id" in
    roleDefinitionId <-
      (if String.eqb roleDefinitionId "" then
         '(uuid, err) <- uuid_GenerateUUID ;;
         ifErr err (fun err =>
           return_ (Some (Errorf "generating UUID for Cosmos DB SQL Role Definition: %+v"
                            [] (Some err)))) ;;
         ret uuid
       else ret roleDefinitionId) ;;
    let resourceGroup := getString d "resource_group_name" in
    let accountName := getString d "account_name" in
    let id := NewSqlRoleDefinitionID subscriptionId resourceGroup accountName roleDefinitionId in
    locks_ByName (SqlRoleDefinitionId.DatabaseAccountName id) (CosmosDbAccountResourceName pkg) ;;
    defer (EUnlock (SqlRoleDefinitionId.DatabaseAccountName id)
             (CosmosDbAccountResourceName pkg))
      ('(existing, err) <- callGet Op.GetSqlRoleDefinition (ID id)
                             (SqlResourcesGetSqlRoleDefinition (Cosmos_RbacsClient meta) id) ;;
       ifErr err (fun err =>
         when (negb (response_WasNotFound (Response.HttpResponse existing)))
           (return_ (Some (Errorf "checking for presence of existing %s: %+v"
                             [show id] (Some err))))) ;;
       when (negb (response_WasNotFound (Response.HttpResponse existing)))
         (return_ (Some (ImportAsExistsError "azurerm_cosmosdb_sql_role_definition" (ID id)))) ;;
       assignableScopes <- lift (ExpandStringSlice pkg (getSetList d "assignable_scopes")) ;;
       permissions <- lift (expandSqlRoleDefinitionPermissions (ExpandStringSlice pkg)
                              (Slice (getSetList d "permissions"))) ;;
       let parameters :=
         {| CreateUpdateParameters.Properties :=
              Some {| SqlRoleDefinitionResource.RoleName := Some (getString d "name");
                      SqlRoleDefinitionResource.AssignableScopes := assignableScopes;
                      SqlRoleDefinitionResource.Permissions := permissions;
                      SqlRoleDefinitionResource.Type_ := Some (getString d "type") |} |} in
       '(future, err) <- callLro Op.CreateUpdateSqlRoleDefinition (ID id)
                           (SqlResourcesCreateUpdateSqlRoleDefinition
                              (Cosmos_RbacsClient meta) id parameters) ;;
       ifErr err (fun err =>
         return_ (Some (Errorf "creating %s: %+v" [show id] (Some err)))) ;;
       err <- poll Op.CreateUpdateSqlRoleDefinition (Future.Poller future) ;;
       ifErr err (fun err =>
         return_ (Some (Errorf "waiting for creation of %s: %+v" [show id] (Some err)))) ;;
       d_SetId (ID id) ;;
       resourceCosmosDbSQLRoleDefinitionRead).

Definition resourceCosmosDbSQLRoleDefinitionUpdate : Handler W :=
    d <- getData ;;
    id <- parseOrReturn (ParseSqlRoleDefinitionID pkg (rdId d)) ;;
    locks_ByName (SqlRoleDefinitionId.DatabaseAccountName id) (CosmosDbAccountResourceName pkg) ;;
    defer (EUnlock (SqlRoleDefinitionId.DatabaseAccountName id)
             (CosmosDbAccountResourceName pkg))
      (assignableScopes <- lift (ExpandStringSlice pkg (getSetList d "assignable_scopes")) ;;
       permissions <- lift (expandSqlRoleDefinitionPermissions (ExpandStringSlice pkg)
                              (Slice (getSetList d "permissions"))) ;;
       let parameters :=
         {| CreateUpdateParameters.Properties :=
              Some {| SqlRoleDefinitionResource.RoleName := Some (getString d "name");
                      SqlRoleDefinitionResource.AssignableScopes := assignableScopes;
                      SqlRoleDefinitionResource.Permissions := permissions;
                      SqlRoleDefinitionResource.Type_ := Some (getString d "type") |} |} in
       '(future, err) <- callLro Op.CreateUpdateSqlRoleDefinition (ID id)
                           (SqlResourcesCreateUpdateSqlRoleDefinition
                              (Cosmos_RbacsClient meta) id parameters) ;;
       ifErr err (fun err =>
         return_ (Some (Errorf "updating %s: %+v" [show id] (Some err)))) ;;
       err <- poll Op.CreateUpdateSqlRoleDefinition (Future.Poller future) ;;
       ifErr err (fun err =>
         return_ (Some (Errorf "waiting for update of %s: %+v" [show id] (Some err)))) ;;
       d_SetId (ID id) ;;
       resourceCosmosDbSQLRoleDefinitionRead).

Definition resourceCosmosDbSQLRoleDefinitionDelete : Handler W :=
    d <- getData ;;
    id <- parseOrReturn (ParseSqlRoleDefinitionID pkg (rdId d)) ;;
    locks_ByName (SqlRoleDefinitionId.DatabaseAccountName id) (CosmosDbAccountResourceName pkg) ;;
    defer (EUnlock (SqlRoleDefinitionId.DatabaseAccountName id)
             (CosmosDbAccountResourceName pkg))
      ('(future, err) <- callLro Op.DeleteSqlRoleDefinition (ID id)
                           (SqlResourcesDeleteSqlRoleDefinition (Cosmos_RbacsClient meta) id) ;;
       ifErr err (fun err =>
         return_ (Some (Errorf "deleting %s: %+v" [show id] (Some err)))) ;;
       err <- poll Op.DeleteSqlRoleDefinition (Future.Poller future) ;;
       ifErr err (fun err =>
         return_ (Some (Errorf "waiting for deletion of %s: %+v" [show id] (Some err)))) ;;
       return_ None).

  (** *** cosmosdb_sql_database_resource.go *)

Definition resourceCosmosDbSQLDatabaseRead : Handler W :=
    let subscriptionId := Account_SubscriptionId meta in
    d <- getData ;;
    id <- parseOrReturn (ParseSqlDatabaseID pkg (rdId d)) ;;
    '(resp, err) <- callGet Op.GetSqlDatabase (ID id)
                      (SqlResourcesGetSqlDatabase (Cosmos_CosmosDBClient meta) id) ;;
    ifErr err (fun err =>
      when (response_WasNotFound (Response.HttpResponse resp))
        (d_SetId "" ;;
         return_ None) ;;
      return_ (Some (Errorf "reading Cosmos SQL Database %q (Account: %q): %+v"
                       [SqlDatabaseId.SqlDatabaseName id;
                        SqlDatabaseId.DatabaseAccountName id] (Some err)))) ;;
    d_Set "resource_group_name" (VString (SqlDatabaseId.ResourceGroupName id)) ;;
    d_Set "account_name" (VString (SqlDatabaseId.DatabaseAccountName id)) ;;
    model <- lift (deref (Response.Model resp)) ;;
    match GetResults.Properties model with
    | Some props =>
        match GetProperties.Resource props with
        | Some res => d_Set "name" (VString (SqlDatabaseResource.Id res)) ;; ret tt
        | None => ret tt
        end
    | None => ret tt
    end ;;
    let accountId :=
      NewDatabaseAccountID subscriptionId (SqlDatabaseId.ResourceGroupName id)
        (SqlDatabaseId.DatabaseAccountName id) in
    '(accResp, err) <- callGet Op.DatabaseAccountsGet (ID accountId)
                         (DatabaseAccountsGet (Cosmos_CosmosDBClient meta) accountId) ;;
    ifErr err (fun err =>
      return_ (Some (Errorf "reading CosmosDB Account %q (Resource Group %q): %+v"
                       [SqlDatabaseId.DatabaseAccountName id;
                        SqlDatabaseId.ResourceGroupName id] (Some err)))) ;;
    accModel <- lift (deref (Response.Model accResp)) ;;
    (* accResp.Model.Id == nil || *accResp.Model.Id == "" *)
    cond <- lift (orElse (isNil (GetResults.Id accModel))
                    (rbind (deref (GetResults.Id accModel))
                       (fun s => Ok (String.eqb s "")))) ;;
    when cond
      (return_ (Some (Errorf "cosmosDB Account %q (Resource Group %q) ID is empty or nil"
                        [SqlDatabaseId.DatabaseAccountName id;
                         SqlDatabaseId.ResourceGroupName id] None))) ;;
    when (negb (IsServerlessCapacityMode accModel))
      ('(throughputResp, err) <-
          callGet Op.GetSqlDatabaseThroughput (ID id)
            (SqlResourcesGetSqlDatabaseThroughput (Cosmos_CosmosDBClient meta) id) ;;
       match err with
       | Some err =>
           if negb (response_WasNotFound (Response.HttpResponse throughputResp)) then
             return_ (Some (Errorf
                              "reading Throughput on Cosmos SQL Database %q (Account: %q) ID: %v"
                              [SqlDatabaseId.SqlDatabaseName id;
                               SqlDatabaseId.DatabaseAccountName id] (Some err)))
           else
             d_Set "throughput" VNil ;;
             d_Set "autoscale_settings" VNil ;;
             ret tt
       | None =>
           throughputModel <- lift (deref (Response.Model throughputResp)) ;;
           d <- getData ;;
           putData (SetResourceDataThroughputFromResponse pkg throughputModel d)
       end) ;;
    return_ None.

  (** [throughput != 0] on the value of [d.GetOk]. *)
Definition notZeroInt (v : value) : bool :=
    match v with
    | VInt 0%Z => false
    | _ => true
    end.

Definition resourceCosmosDbSQLDatabaseCreate : Handler W :=
    let subscriptionId := Account_SubscriptionId meta in
    d <- getData ;;
    let id :=
      NewSqlDatabaseID subscriptionId (getString d "resource_group_name")
        (getString d "account_name") (getString d "name") in
    '(existing, err) <- callGet Op.GetSqlDatabase (ID id)
                          (SqlResourcesGetSqlDatabase (Cosmos_CosmosDBClient meta) id) ;;
    match err with
    | Some err =>
        when (negb (response_WasNotFound (Response.HttpResponse existing)))
          (return_ (Some (Errorf "checking for presence of %s: %+v" [show id] (Some err))))
    | None =>
        model <- lift (deref (Response.Model existing)) ;;
        (* existing.Model.Id == nil && *existing.Model.Id == "" *)
        cond <- lift (andThen (isNil (GetResults.Id model))
                        (rbind (deref (GetResults.Id model))
                           (fun s => Ok (String.eqb s "")))) ;;
        when cond
          (return_ (Some (Errorf "generating import ID for %s" [show id] None))) ;;
        existingId <- lift (deref (GetResults.Id model)) ;;
        return_ (Some (ImportAsExistsError "azurerm_cosmosdb_sql_database" existingId))
    end ;;
    let throughput :=
      match getOk d "throughput" with
      | (throughput, true) =>
          if notZeroInt throughput
          then ConvertThroughputFromResourceData pkg throughput
          else None
      | (_, false) => None
      end in
    let autoScaleSettings :=
      match getOk d "autoscale_settings" with
      | (_, true) => ExpandCosmosDbAutoscaleSettings pkg d
      | (_, false) => None
      end in
    let db :=
      {| CreateUpdateParameters.Properties :=
           {| CreateUpdateProperties.Resource :=
                {| SqlDatabaseResource.Id := SqlDatabaseId.SqlDatabaseName id |};
              CreateUpdateProperties.Options :=
                Some {| CreateUpdateOptions.Throughput := throughput;
                        CreateUpdateOptions.AutoScaleSettings := autoScaleSettings |} |} |} in
    '(future, err) <- callLro Op.CreateUpdateSqlDatabase (ID id)
                        (SqlResourcesCreateUpdateSqlDatabase (Cosmos_CosmosDBClient meta) id db) ;;
    ifErr err (fun err =>
      return_ (Some (Errorf "issuing create/update request for %s: %+v" [show id] (Some err)))) ;;
    err <- poll Op.CreateUpdateSqlDatabase (Future.Poller future) ;;
    ifErr err (fun err =>
      return_ (Some (Errorf "waiting on create/update future for %s: %+v"
                       [show id] (Some err)))) ;;
    d_SetId (ID id) ;;
    resourceCosmosDbSQLDatabaseRead.

Definition resourceCosmosDbSQLDatabaseUpdate : Handler W :=
    d <- getData ;;
    id <- parseOrReturn (ParseSqlDatabaseID pkg (rdId d)) ;;
    ifErr (CheckForChangeFromAutoscaleAndManualThroughput pkg d) (fun err =>
      return_ (Some (Errorf "updating Cosmos SQL Database %q (Account: %q) - %+v"
                       [SqlDatabaseId.SqlDatabaseName id;
                        SqlDatabaseId.DatabaseAccountName id] (Some err)))) ;;
    let db :=
      {| CreateUpdateParameters.Properties :=
           {| CreateUpdateProperties.Resource :=
                {| SqlDatabaseResource.Id := SqlDatabaseId.SqlDatabaseName id |};
              CreateUpdateProperties.Options :=
                Some {| CreateUpdateOptions.Throughput := None;
                        CreateUpdateOptions.AutoScaleSettings := None |} |} |} in
    '(future, err) <- callLro Op.CreateUpdateSqlDatabase (ID id)
                        (SqlResourcesCreateUpdateSqlDatabase (Cosmos_CosmosDBClient meta) id db) ;;
    ifErr err (fun err =>
      return_ (Some (Errorf
                       "issuing create/update request for Cosmos SQL Database %q (Account: %q): %+v"
                       [SqlDatabaseId.SqlDatabaseName id;
                        SqlDatabaseId.DatabaseAccountName id] (Some err)))) ;;
    err <- poll Op.CreateUpdateSqlDatabase (Future.Poller future) ;;
    ifErr err (fun err =>
      return_ (Some (Errorf
                       "waiting on create/update future for Cosmos SQL Database %q (Account: %q): %+v"
                       [SqlDatabaseId.SqlDatabaseName id;
                        SqlDatabaseId.DatabaseAccountName id] (Some err)))) ;;
    when (HasThroughputChange pkg d)
      (throughputParameters <-
         lift (deref (ExpandCosmosDBThroughputSettingsUpdateParameters pkg d)) ;;
       '(throughputFuture, err) <-
          callLro Op.UpdateSqlDatabaseThroughput (ID id)
            (SqlResourcesUpdateSqlDatabaseThroughput (Cosmos_CosmosDBClient meta) id
               throughputParameters) ;;
       ifErr err (fun err =>
         when (response_WasNotFound (Future.HttpResponse throughputFuture))
           (return_ (Some (Errorf
                             "setting Throughput for Cosmos SQL Database %q (Account: %q) %+v - If the collection has not been created with an initial throughput, you cannot configure it later"
                             [SqlDatabaseId.SqlDatabaseName id;
                              SqlDatabaseId.DatabaseAccountName id] (Some err))))) ;;
       err <- poll Op.UpdateSqlDatabaseThroughput (Future.Poller throughputFuture) ;;
       ifErr err (fun err =>
         return_ (Some (Errorf
                          "waiting on ThroughputUpdate future for Cosmos SQL Database %q (Account: %q): %+v"
                          [SqlDatabaseId.SqlDatabaseName id;
                           SqlDatabaseId.DatabaseAccountName id] (Some err))))) ;;
    resourceCosmosDbSQLDatabaseRead.

Definition resourceCosmosDbSQLDatabaseDelete : Handler W :=
    d <- getData ;;
    id <- parseOrReturn (ParseSqlDatabaseID pkg (rdId d)) ;;
    '(future, err) <- callLro Op.DeleteSqlDatabase (ID id)
                        (SqlResourcesDeleteSqlDatabase (Cosmos_CosmosDBClient meta) id) ;;
    ifErr err (fun err =>
      when (negb (response_WasNotFound (Future.HttpResponse future)))
        (return_ (Some (Errorf "deleting Cosmos SQL Database %q (Account: %q): %+v"
                          [SqlDatabaseId.SqlDatabaseName id;
                           SqlDatabaseId.DatabaseAccountName id] (Some err))))) ;;
    err <- poll Op.DeleteSqlDatabase (Future.Poller future) ;;
    ifErr err (fun err =>
      return_ (Some (Errorf
                       "waiting on delete future for Cosmos SQL Database %q (Account: %q): %+v"
                       [SqlDatabaseId.SqlDatabaseName id;
                        SqlDatabaseId.DatabaseAccountName id] (Some err)))) ;;
    return_ None.

  (** *** cosmosdb_sql_database_data_source.go *)

Definition dataSourceCosmosDbSQLDatabaseRead : Handler W :=
    let subscriptionId := Account_SubscriptionId meta in
    d <- getData ;;
    let id :=
      NewSqlDatabaseID subscriptionId (getString d "resource_group_name")
        (getString d "account_name") (getString d "name") in
    '(resp, err) <- callGet Op.GetSqlDatabase (ID id)
                      (SqlResourcesGetSqlDatabase (Cosmos_CosmosDBClient meta) id) ;;
    ifErr err (fun err =>
      when (response_WasNotFound (Response.HttpResponse resp))
        (return_ (Some (Errorf "%s was not found" [show id] None))) ;;
      return_ (Some (Errorf "reading Cosmos SQL Database %q (Account: %q): %+v"
                       [SqlDatabaseId.SqlDatabaseName id;
                        SqlDatabaseId.DatabaseAccountName id] (Some err)))) ;;
    d_SetId (ID id) ;;
    d_Set "resource_group_name" (VString (SqlDatabaseId.ResourceGroupName id)) ;;
    d_Set "account_name" (VString (SqlDatabaseId.DatabaseAccountName id)) ;;
    model <- lift (deref (Response.Model resp)) ;;
    match GetResults.Properties model with
    | Some props =>
        match GetProperties.Resource props with
        | Some res => d_Set "name" (VString (SqlDatabaseResource.Id res)) ;; ret tt
        | None => ret tt
        end
    | None => ret tt
    end ;;
    let accountId :=
      NewDatabaseAccountID subscriptionId (SqlDatabaseId.ResourceGroupName id)
        (SqlDatabaseId.DatabaseAccountName id) in
    '(accResp, err) <- callGet Op.DatabaseAccountsGet (ID accountId)
                         (DatabaseAccountsGet (Cosmos_CosmosDBClient meta) accountId) ;;
    ifErr err (fun err =>
      return_ (Some (Errorf "reading CosmosDB Account %q (Resource Group %q): %+v"
                       [SqlDatabaseId.DatabaseAccountName id;
                        SqlDatabaseId.ResourceGroupName id] (Some err)))) ;;
    accModel <- lift (deref (Response.Model accResp)) ;;
    (* accResp.Model.Id == nil || *accResp.Model.Id == "" *)
    cond <- lift (orElse (isNil (GetResults.Id accModel))
                    (rbind (deref (GetResults.Id accModel))
                       (fun s => Ok (String.eqb s "")))) ;;
    when cond
      (return_ (Some (Errorf "cosmosDB Account %q (Resource Group %q) ID is empty or nil"
                        [SqlDatabaseId.DatabaseAccountName id;
                         SqlDatabaseId.ResourceGroupName id] None))) ;;
    when (negb (IsServerlessCapacityMode accModel))
      ('(throughputResp, err) <-
          callGet Op.GetSqlDatabaseThroughput (ID id)
            (SqlResourcesGetSqlDatabaseThroughput (Cosmos_CosmosDBClient meta) id) ;;
       match err with
       | Some err =>
           if negb (response_WasNotFound (Response.HttpResponse throughputResp)) then
             return_ (Some (Errorf
                              "reading Throughput on Cosmos SQL Database %q (Account: %q) ID: %v"
                              [SqlDatabaseId.SqlDatabaseName id;
                               SqlDatabaseId.DatabaseAccountName id] (Some err)))
           else
             d_Set "throughput" VNil ;;
             d_Set "autoscale_settings" VNil ;;
             ret tt
       | None =>
           throughputModel <- lift (deref (Response.Model throughputResp)) ;;
           d <- getData ;;
           putData (SetResourceDataThroughputFromResponse pkg throughputModel d)
       end) ;;
    return_ None.

  (** *** cosmosdb_sql_role_definition_data_source.go *)

Definition dataSourceCosmosDbSQLRoleDefinitionRead : Handler W :=
    let subscriptionId := Account_SubscriptionId meta in
    d <- getData ;;
    let roleDefinitionId := getString d "role_definition_id" in
    let resourceGroup := getString d "resource_group_name" in
    let accountName := getString d "account_name" in
    let id := NewSqlRoleDefinitionID subscriptionId resourceGroup accountName roleDefinitionId in
    '(resp, err) <- callGet Op.GetSqlRoleDefinition (ID id)
                      (SqlResourcesGetSqlRoleDefinition (Cosmos_RbacsClient meta) id) ;;
    ifErr err (fun err =>
      when (response_WasNotFound (Response.HttpResponse resp))
        (return_ (Some (Errorf "%s was not found" [show id] None))) ;;
      return_ (Some (Errorf "retrieving %s: %+v" [show id] (Some err)))) ;;
    d_SetId (ID id) ;;
    d_Set "role_definition_id" (VString (SqlRoleDefinitionId.RoleDefinitionId id)) ;;
    d_Set "resource_group_name" (VString (SqlRoleDefinitionId.ResourceGroupName id)) ;;
    d_Set "account_name" (VString (SqlRoleDefinitionId.DatabaseAccountName id)) ;;
    model <- lift (deref (Response.Model resp)) ;;
    match GetResults.Properties model with
    | Some props =>
        d_Set "assignable_scopes"
          (FlattenStringSlice pkg (SqlRoleDefinitionResource.AssignableScopes props)) ;;
        d_Set "name" (ofPtrString (SqlRoleDefinitionResource.RoleName props)) ;;
        d_Set "type" (ofPtrString (SqlRoleDefinitionResource.Type_ props)) ;;
        err <- d_Set "permissions"
                 (VList (elems (flattenSqlRoleDefinitionPermissions (FlattenStringSlice pkg)
                                  (SqlRoleDefinitionResource.Permissions props)))) ;;
        ifErr err (fun err =>
          return_ (Some (Errorf "setting `permissions`: %+v" [] (Some err))))
    | None => ret tt
    end ;;
    return_ None.

End Handlers.

(** ** cosmosdb_restorable_database_accounts_data_source.go: the read *)

Module LocationId.
Record t := { SubscriptionId : string; LocationName : string }.
End LocationId.

Module RestorableDatabaseAccountId.
Record t := { SubscriptionId : string; LocationName : string; InstanceId : string }.
End RestorableDatabaseAccountId.

Module RestorableDatabaseAccountsListResult.
Record t := { Value : ptr (slice RestorableDatabaseAccountGetResult) }.
End RestorableDatabaseAccountsListResult.

Definition NewLocationID (subscriptionId locationName : string) : LocationId.t :=
  {| LocationId.SubscriptionId := subscriptionId;
     LocationId.LocationName := locationName |}.

Definition NewRestorableDatabaseAccountID (subscriptionId locationName instanceId : string)
  : RestorableDatabaseAccountId.t :=
  {| RestorableDatabaseAccountId.SubscriptionId := subscriptionId;
     RestorableDatabaseAccountId.LocationName := locationName;
     RestorableDatabaseAccountId.InstanceId := instanceId |}.

Section RestorableAccounts.
Context {W P TG TU : Type}.
Context `{!ResourceId LocationId.t, !ResourceId RestorableDatabaseAccountId.t}.
Variable meta : Client W P TG TU.
Variable pkg : Imports W P TG TU.

(** [meta.( *clients.Client).Cosmos.RestorablesClient]: its one operation. *)
Variable RestorablesClient :
  GetOp W LocationId.t RestorableDatabaseAccountsListResult.t.

Local Open Scope go_scope.

Definition dataSourceCosmosDbRestorableDatabaseAccountsRead : Handler W :=
    let subscriptionId := Account_SubscriptionId meta in
    d <- getData ;;
    let id := NewRestorableDatabaseAccountID subscriptionId (getString d "location") "read" in
    let name := getString d "name" in
    let location := getString d "location" in
    let locationId := NewLocationID subscriptionId location in
    '(resp, err) <- callGet Op.RestorableDatabaseAccountsListByLocation (ID locationId)
                      (RestorablesClient locationId) ;;
    ifErr err (fun err =>
      when (response_WasNotFound (Response.HttpResponse resp))
        (return_ (Some (Errorf "%s was not found" [show id] None))) ;;
      return_ (Some (Errorf "retrieving %s: %+v" [show id] (Some err)))) ;;
    d_Set pkg "location" (VString location) ;;
    model <- lift (deref (Response.Model resp)) ;;
    match RestorableDatabaseAccountsListResult.Value model with
    | Some props =>
        accounts <- lift (flattenCosmosDbRestorableDatabaseAccounts (Some props) name) ;;
        err <- d_Set pkg "accounts" (VList (elems accounts)) ;;
        ifErr err (fun err =>
          return_ (Some (Errorf "flattening `accounts`: %+v" [] (Some err))))
    | None => ret tt
    end ;;
    d_SetId (ID id) ;;
    return_ None.

End RestorableAccounts.

(** ** An in-memory remote, for concrete runs

    The remote world is the list of the identifiers that exist.  A GET or a
    DELETE of an identifier that does not exist answers 404 with an error; a
    create adds the identifier, a delete removes it.  Three switches change
    the answers: [serverless] adds the capability to every account, [omitIds]
    drops the [Id] of every model, [outage] makes every GET answer 500. *)

Module Fake.

Record World := {
  existing : list string;
  serverless : bool;
  omitIds : bool;
  outage : bool }.

Definition withExisting (w : World) (ids : list string) : World :=
  {| existing := ids; serverless := serverless w;
     omitIds := omitIds w; outage := outage w |}.

Definition exists_ (w : World) (id : string) : bool :=
  existsb (String.eqb id) (existing w).

Definition remove (id : string) (ids : list string) : list string :=
  List.filter (fun x => negb (String.eqb id x)) ids.

(** The poller holds the error that [PollUntilDone] returns. *)
Definition Poller : Type := option error.

Definition path (segments : list string) : string := String.concat "/" segments.

Fixpoint segmentsOf (s : string) : list string :=
  match s with
  | EmptyString => [""]
  | String c rest =>
      if Ascii.eqb c "/"%char then "" :: segmentsOf rest
      else match segmentsOf rest with
           | seg :: segs => String c seg :: segs
           | [] => [String c ""]
           end
  end.

Definition malformed : error := RemoteError "parsing the resource ID".

#[export] Instance ContainerId_ResourceId : ResourceId ContainerId.t :=
  {| ID id := path [ContainerId.SubscriptionId id; ContainerId.ResourceGroupName id;
                    ContainerId.DatabaseAccountName id; ContainerId.SqlDatabaseName id;
                    ContainerId.ContainerName id];
     show id := ContainerId.ContainerName id |}.

#[export] Instance TriggerId_ResourceId : ResourceId TriggerId.t :=
  {| ID id := path [TriggerId.SubscriptionId id; TriggerId.ResourceGroupName id;
                    TriggerId.DatabaseAccountName id; TriggerId.SqlDatabaseName id;
                    TriggerId.ContainerName id; TriggerId.TriggerName id];
     show id := TriggerId.TriggerName id |}.

#[export] Instance UserDefinedFunctionId_ResourceId : ResourceId UserDefinedFunctionId.t :=
  {| ID id := path [UserDefinedFunctionId.SubscriptionId id;
                    UserDefinedFunctionId.ResourceGroupName id;
                    UserDefinedFunctionId.DatabaseAccountName id;
                    UserDefinedFunctionId.SqlDatabaseName id;
                    UserDefinedFunctionId.ContainerName id;
                    UserDefinedFunctionId.UserDefinedFunctionName id];
     show id := UserDefinedFunctionId.UserDefinedFunctionName id |}.

#[export] Instance StoredProcedureId_ResourceId : ResourceId StoredProcedureId.t :=
  {| ID id := path [StoredProcedureId.SubscriptionId id;
                    StoredProcedureId.ResourceGroupName id;
                    StoredProcedureId.DatabaseAccountName id;
                    StoredProcedureId.SqlDatabaseName id;
                    StoredProcedureId.ContainerName id;
                    StoredProcedureId.StoredProcedureName id];
     show id := StoredProcedureId.StoredProcedureName id |}.

#[export] Instance SqlDatabaseId_ResourceId : ResourceId SqlDatabaseId.t :=
  {| ID id := path [SqlDatabaseId.SubscriptionId id; SqlDatabaseId.ResourceGroupName id;
                    SqlDatabaseId.DatabaseAccountName id; SqlDatabaseId.SqlDatabaseName id];
     show id := SqlDatabaseId.SqlDatabaseName id |}.

#[export] Instance DatabaseAccountId_ResourceId : ResourceId DatabaseAccountId.t :=
  {| ID id := path [DatabaseAccountId.SubscriptionId id;
                    DatabaseAccountId.ResourceGroupName id;
                    DatabaseAccountId.DatabaseAccountName id];
     show id := DatabaseAccountId.DatabaseAccountName id |}.

#[export] Instance AccountId_ResourceId : ResourceId AccountId.t :=
  {| ID id := path [AccountId.SubscriptionId id; AccountId.ResourceGroupName id;
                    AccountId.DatabaseAccountName id; "assignments";
                    AccountId.RoleAssignmentId id];
     show id := AccountId.RoleAssignmentId id |}.

#[export] Instance SqlRoleDefinitionId_ResourceId : ResourceId SqlRoleDefinitionId.t :=
  {| ID id := path [SqlRoleDefinitionId.SubscriptionId id;
                    SqlRoleDefinitionId.ResourceGroupName id;
                    SqlRoleDefinitionId.DatabaseAccountName id; "definitions";
                    SqlRoleDefinitionId.RoleDefinitionId id];
     show id := SqlRoleDefinitionId.RoleDefinitionId id |}.

Definition getOp {I M : Type} `{!ResourceId I} (model : I -> World -> M)
  : GetOp World I M :=
  fun id w =>
    if outage w then
      ({| Response.HttpResponse := Some {| http.StatusCode := 500 |};
          Response.Model := None |},
       Some (RemoteError "500 Internal Server Error"), w)
    else if exists_ w (ID id) then
      ({| Response.HttpResponse := Some {| http.StatusCode := 200 |};
          Response.Model := Some (model id w) |}, None, w)
    else
      ({| Response.HttpResponse := Some {| http.StatusCode := 404 |};
          Response.Model := None |},
       Some (RemoteError "404 Not Found"), w).

Definition putOp {I B : Type} `{!ResourceId I} : PutOp World Poller I B :=
  fun id _ w =>
    ({| Future.HttpResponse := Some {| http.StatusCode := 200 |};
        Future.Poller := None |},
     None, withExisting w (ID id :: existing w)).

Definition deleteOp {I : Type} `{!ResourceId I} : DeleteOp World Poller I :=
  fun id w =>
    if exists_ w (ID id) then
      ({| Future.HttpResponse := Some {| http.StatusCode := 202 |};
          Future.Poller := None |},
       None, withExisting w (remove (ID id) (existing w)))
    else
      ({| Future.HttpResponse := Some {| http.StatusCode := 404 |};
          Future.Poller := None |},
       Some (RemoteError "404 Not Found"), w).

Definition modelOf {I R : Type} `{!ResourceId I} (res : R)
  : I -> World -> GetResults.t (GetProperties.t R) :=
  fun id w =>
    {| GetResults.Id := if omitIds w then None else Some (ID id);
       GetResults.Properties := Some {| GetProperties.Resource := Some res |} |}.

Definition rbacsModelOf {I R : Type} `{!ResourceId I} (res : R)
  : I -> World -> GetResults.t R :=
  fun id w =>
    {| GetResults.Id := if omitIds w then None else Some (ID id);
       GetResults.Properties := Some res |}.

Definition accountOf : DatabaseAccountId.t -> World -> DatabaseAccountGetResults :=
  fun id w =>
    {| GetResults.Id := Some (ID id);
       GetResults.Properties :=
         Some {| DatabaseAccountGetProperties.Capabilities :=
                   Some (Slice (if serverless w
                                then [ {| Capability.Name := Some "EnableServerless" |} ]
                                else [])) |} |}.

(** The account always exists. *)
Definition accountsGet : GetOp World DatabaseAccountId.t DatabaseAccountGetResults :=
  fun id w =>
    ({| Response.HttpResponse := Some {| http.StatusCode := 200 |};
        Response.Model := Some (accountOf id w) |}, None, w).

Definition throughputGet : GetOp World SqlDatabaseId.t unit :=
  fun id w =>
    ({| Response.HttpResponse := Some {| http.StatusCode := 200 |};
        Response.Model := Some tt |}, None, w).

Definition throughputPut : PutOp World Poller SqlDatabaseId.t unit :=
  fun id _ w =>
    ({| Future.HttpResponse := Some {| http.StatusCode := 200 |};
        Future.Poller := None |}, None, w).

Definition cosmos : CosmosDBClient World Poller unit unit :=
  {| SqlResourcesGetSqlTrigger :=
       getOp (modelOf {| SqlTriggerResource.Id := "t";
                         SqlTriggerResource.Body := Some "function(){}";
                         SqlTriggerResource.TriggerType := Some "Pre";
                         SqlTriggerResource.TriggerOperation := Some "All" |});
     SqlResourcesCreateUpdateSqlTrigger := putOp;
     SqlResourcesDeleteSqlTrigger := deleteOp;
     SqlResourcesGetSqlUserDefinedFunction :=
       getOp (modelOf {| SqlUserDefinedFunctionResource.Id := "f";
                         SqlUserDefinedFunctionResource.Body := Some "function(){}" |});
     SqlResourcesCreateUpdateSqlUserDefinedFunction := putOp;
     SqlResourcesDeleteSqlUserDefinedFunction := deleteOp;
     SqlResourcesGetSqlStoredProcedure :=
       getOp (modelOf {| SqlStoredProcedureResource.Id := "p";
                         SqlStoredProcedureResource.Body := Some "function(){}" |});
     SqlResourcesCreateUpdateSqlStoredProcedure := putOp;
     SqlResourcesDeleteSqlStoredProcedure := deleteOp;
     SqlResourcesGetSqlDatabase := getOp (modelOf {| SqlDatabaseResource.Id := "db" |});
     SqlResourcesCreateUpdateSqlDatabase := putOp;
     SqlResourcesDeleteSqlDatabase := deleteOp;
     SqlResourcesGetSqlDatabaseThroughput := throughputGet;
     SqlResourcesUpdateSqlDatabaseThroughput := throughputPut;
     DatabaseAccountsGet := accountsGet |}.

Definition rbacs : RbacsClient World Poller :=
  {| SqlResourcesGetSqlRoleAssignment :=
       getOp (rbacsModelOf {| SqlRoleAssignmentResource.PrincipalId := Some "principal";
                              SqlRoleAssignmentResource.RoleDefinitionId := Some "role";
                              SqlRoleAssignmentResource.Scope := Some "/" |});
     SqlResourcesCreateUpdateSqlRoleAssignment := putOp;
     SqlResourcesDeleteSqlRoleAssignment := deleteOp;
     SqlResourcesGetSqlRoleDefinition :=
       getOp (rbacsModelOf {| SqlRoleDefinitionResource.AssignableScopes := Some (Slice ["/"]);
                              SqlRoleDefinitionResource.Permissions := Some (Slice []);
                              SqlRoleDefinitionResource.RoleName := Some "reader";
                              SqlRoleDefinitionResource.Type_ := Some "CustomRole" |});
     SqlResourcesCreateUpdateSqlRoleDefinition := putOp;
     SqlResourcesDeleteSqlRoleDefinition := deleteOp |}.

Definition meta : Client World Poller unit unit :=
  {| Account_SubscriptionId := "sub";
     Cosmos_CosmosDBClient := cosmos;
     Cosmos_RbacsClient := rbacs |}.

Definition pkg : Imports World Poller unit unit :=
  {| PollUntilDone := fun p w => (p, w);
     GenerateUUID := fun w => (("00000000-0000-0000-0000-000000000001", None), w);
     CosmosDbAccountResourceName := "azurerm_cosmosdb_account";
     ParseContainerID := fun s =>
       match segmentsOf s with
       | [sub; rg; acct; db; cont] => inr (NewContainerID sub rg acct db cont)
       | _ => inl malformed
       end;
     ParseTriggerID := fun s =>
       match segmentsOf s with
       | [sub; rg; acct; db; cont; name] => inr (NewTriggerID sub rg acct db cont name)
       | _ => inl malformed
       end;
     ParseUserDefinedFunctionID := fun s =>
       match segmentsOf s with
       | [sub; rg; acct; db; cont; name] =>
           inr (NewUserDefinedFunctionID sub rg acct db cont name)
       | _ => inl malformed
       end;
     ParseStoredProcedureID := fun s =>
       match segmentsOf s with
       | [sub; rg; acct; db; cont; name] =>
           inr (NewStoredProcedureID sub rg acct db cont name)
       | _ => inl malformed
       end;
     ParseSqlDatabaseID := fun s =>
       match segmentsOf s with
       | [sub; rg; acct; db] => inr (NewSqlDatabaseID sub rg acct db)
       | _ => inl malformed
       end;
     ParseAccountID := fun s =>
       match segmentsOf s with
       | [sub; rg; acct; "assignments"; name] => inr (NewAccountID sub rg acct name)
       | _ => inl malformed
       end;
     ParseSqlRoleDefinitionID := fun s =>
       match segmentsOf s with
       | [sub; rg; acct; "definitions"; name] =>
           inr (NewSqlRoleDefinitionID sub rg acct name)
       | _ => inl malformed
       end;
     schemaSet := fun _ _ => None;
     ConvertThroughputFromResourceData := fun v =>
       match v with
       | VInt z => Some z
       | _ => None
       end;
     ExpandCosmosDbAutoscaleSettings := fun _ => None;
     CheckForChangeFromAutoscaleAndManualThroughput := fun _ => None;
     HasThroughputChange := fun _ => false;
     ExpandCosmosDBThroughputSettingsUpdateParameters := fun _ => Some tt;
     SetResourceDataThroughputFromResponse := fun _ d => d;
     FlattenStringSlice := utils_FlattenStringSlice;
     ExpandStringSlice := utils_ExpandStringSlice |}.

(** The remote with nothing in it, and its three variants. *)
Definition empty : World :=
  {| existing := []; serverless := false; omitIds := false; outage := false |}.

(** A configuration of string fields, not yet stored in the state. *)
Definition config (fields : list (string * string)) : ResourceData :=
  {| rdId := "";
     rdFields := list_to_map (map (fun kv => (fst kv, VString (snd kv))) fields);
     rdIsNew := true |}.

Definition triggerConfig : ResourceData :=
  config [("name", "t1"); ("container_id", "sub/rg/acct/db/c1");
          ("body", "function(){}"); ("operation", "All"); ("type", "Pre")].

Definition storedProcedureConfig : ResourceData :=
  config [("name", "p1"); ("resource_group_name", "rg"); ("account_name", "acct");
          ("database_name", "db"); ("container_name", "c1"); ("body", "function(){}")].

Definition databaseConfig : ResourceData :=
  config [("name", "db"); ("resource_group_name", "rg"); ("account_name", "acct")].

Definition roleAssignmentConfig : ResourceData :=
  config [("name", "ra1"); ("resource_group_name", "rg"); ("account_name", "acct");
          ("principal_id", "principal"); ("role_definition_id", "role"); ("scope", "/")].

Definition roleDefinitionConfig : ResourceData :=
  config [("role_definition_id", "rd1"); ("resource_group_name", "rg");
          ("account_name", "acct"); ("name", "reader"); ("type", "CustomRole")].

End Fake.

(** ** Variants of the in-memory remote *)

Module Scenario.

(** The resource data of a resource that is stored under [id]. *)
Definition stored (id : string) : ResourceData :=
  {| rdId := id; rdFields := ∅; rdIsNew := false |}.

(** The configuration of a resource that exists already. *)
Definition notNew (d : ResourceData) : ResourceData :=
  {| rdId := rdId d; rdFields := rdFields d; rdIsNew := false |}.

Definition status (code : Z) : ptr http.Response := Some {| http.StatusCode := code |}.

(** A GET answered 200 without a body. *)
Definition emptyAnswer {I M : Type} : GetOp Fake.World I M :=
  fun _ w => ({| Response.HttpResponse := status 200; Response.Model := None |}, None, w).

(** A GET answered 500. *)
Definition failing {I M : Type} : GetOp Fake.World I M :=
  fun _ w =>
    ({| Response.HttpResponse := status 500; Response.Model := None |},
     Some (RemoteError "500 Internal Server Error"), w).

(** [Fake.cosmos], with another GET of the trigger and of the account. *)
Definition cosmosWith
    (getTrigger : GetOp Fake.World TriggerId.t
                    (GetResults.t (GetProperties.t SqlTriggerResource.t)))
    (accountsGet : GetOp Fake.World DatabaseAccountId.t DatabaseAccountGetResults)
  : CosmosDBClient Fake.World Fake.Poller unit unit :=
  {| SqlResourcesGetSqlTrigger := getTrigger;
     SqlResourcesCreateUpdateSqlTrigger := SqlResourcesCreateUpdateSqlTrigger Fake.cosmos;
     SqlResourcesDeleteSqlTrigger := SqlResourcesDeleteSqlTrigger Fake.cosmos;
     SqlResourcesGetSqlUserDefinedFunction := SqlResourcesGetSqlUserDefinedFunction Fake.cosmos;
     SqlResourcesCreateUpdateSqlUserDefinedFunction :=
       SqlResourcesCreateUpdateSqlUserDefinedFunction Fake.cosmos;
     SqlResourcesDeleteSqlUserDefinedFunction :=
       SqlResourcesDeleteSqlUserDefinedFunction Fake.cosmos;
     SqlResourcesGetSqlStoredProcedure := SqlResourcesGetSqlStoredProcedure Fake.cosmos;
     SqlResourcesCreateUpdateSqlStoredProcedure :=
       SqlResourcesCreateUpdateSqlStoredProcedure Fake.cosmos;
     SqlResourcesDeleteSqlStoredProcedure := SqlResourcesDeleteSqlStoredProcedure Fake.cosmos;
     SqlResourcesGetSqlDatabase := SqlResourcesGetSqlDatabase Fake.cosmos;
     SqlResourcesCreateUpdateSqlDatabase := SqlResourcesCreateUpdateSqlDatabase Fake.cosmos;
     SqlResourcesDeleteSqlDatabase := SqlResourcesDeleteSqlDatabase Fake.cosmos;
     SqlResourcesGetSqlDatabaseThroughput := SqlResourcesGetSqlDatabaseThroughput Fake.cosmos;
     SqlResourcesUpdateSqlDatabaseThroughput :=
       SqlResourcesUpdateSqlDatabaseThroughput Fake.cosmos;
     DatabaseAccountsGet := accountsGet |}.

Definition metaWith (cosmos : CosmosDBClient Fake.World Fake.Poller unit unit)
  : Client Fake.World Fake.Poller unit unit :=
  {| Account_SubscriptionId := "sub";
     Cosmos_CosmosDBClient := cosmos;
     Cosmos_RbacsClient := Fake.rbacs |}.

(** [Fake.pkg], with another UUID generator. *)
Definition pkgWith (generateUUID : Fake.World -> (string * option error) * Fake.World)
  : Imports Fake.World Fake.Poller unit unit :=
  {| PollUntilDone := PollUntilDone Fake.pkg;
     GenerateUUID := generateUUID;
     CosmosDbAccountResourceName := CosmosDbAccountResourceName Fake.pkg;
     ParseContainerID := ParseContainerID Fake.pkg;
     ParseTriggerID := ParseTriggerID Fake.pkg;
     ParseUserDefinedFunctionID := ParseUserDefinedFunctionID Fake.pkg;
     ParseStoredProcedureID := ParseStoredProcedureID Fake.pkg;
     ParseSqlDatabaseID := ParseSqlDatabaseID Fake.pkg;
     ParseAccountID := ParseAccountID Fake.pkg;
     ParseSqlRoleDefinitionID := ParseSqlRoleDefinitionID Fake.pkg;
     schemaSet := schemaSet Fake.pkg;
     ConvertThroughputFromResourceData := ConvertThroughputFromResourceData Fake.pkg;
     ExpandCosmosDbAutoscaleSettings := ExpandCosmosDbAutoscaleSettings Fake.pkg;
     CheckForChangeFromAutoscaleAndManualThroughput :=
       CheckForChangeFromAutoscaleAndManualThroughput Fake.pkg;
     HasThroughputChange := HasThroughputChange Fake.pkg;
     ExpandCosmosDBThroughputSettingsUpdateParameters :=
       ExpandCosmosDBThroughputSettingsUpdateParameters Fake.pkg;
     SetResourceDataThroughputFromResponse := SetResourceDataThroughputFromResponse Fake.pkg;
     FlattenStringSlice := FlattenStringSlice Fake.pkg;
     ExpandStringSlice := ExpandStringSlice Fake.pkg |}.

(** A generator that fails. *)
Definition noEntropy : Fake.World -> (string * option error) * Fake.World :=
  fun w => (("", Some (RemoteError "reading random bytes")), w).

#[export] Instance LocationId_ResourceId : ResourceId LocationId.t :=
  {| ID id := Fake.path [LocationId.SubscriptionId id; "locations"; LocationId.LocationName id];
     show id := LocationId.LocationName id |}.

#[export] Instance RestorableDatabaseAccountId_ResourceId
  : ResourceId RestorableDatabaseAccountId.t :=
  {| ID id := Fake.path [RestorableDatabaseAccountId.SubscriptionId id; "locations";
                         RestorableDatabaseAccountId.LocationName id;
                         "restorableDatabaseAccounts";
                         RestorableDatabaseAccountId.InstanceId id];
     show id := RestorableDatabaseAccountId.InstanceId id |}.

(** An account as the list of a location has it. *)
Definition account (name : string) (locations : ptr (slice RestorableLocationResource.t))
  : RestorableDatabaseAccountGetResult :=
  {| GetResults.Id := Some name;
     GetResults.Properties :=
       Some {| RestorableDatabaseAccountProperties.AccountName := Some name;
               RestorableDatabaseAccountProperties.ApiType := Some "Sql";
               RestorableDatabaseAccountProperties.CreationTime := None;
               RestorableDatabaseAccountProperties.DeletionTime := None;
               RestorableDatabaseAccountProperties.RestorableLocations := locations |} |}.

Definition westeurope : RestorableLocationResource.t :=
  {| RestorableLocationResource.CreationTime := None;
     RestorableLocationResource.DeletionTime := None;
     RestorableLocationResource.LocationName := Some "westeurope";
     RestorableLocationResource.RegionalDatabaseAccountInstanceId := None |}.

(** The list of a location: the accounts [accounts] where the remote is up,
    a 500 during an outage. *)
Definition restorables (accounts : list RestorableDatabaseAccountGetResult)
  : GetOp Fake.World LocationId.t RestorableDatabaseAccountsListResult.t :=
  fun _ w =>
    if Fake.outage w then
      ({| Response.HttpResponse := status 500; Response.Model := None |},
       Some (RemoteError "500 Internal Server Error"), w)
    else
      ({| Response.HttpResponse := status 200;
          Response.Model :=
            Some {| RestorableDatabaseAccountsListResult.Value := Some (Slice accounts) |} |},
       None, w).

Definition outage : Fake.World :=
  {| Fake.existing := []; Fake.serverless := false; Fake.omitIds := false;
     Fake.outage := true |}.

Definition serverlessWith (ids : list string) : Fake.World :=
  {| Fake.existing := ids; Fake.serverless := true; Fake.omitIds := false;
     Fake.outage := false |}.

Definition withIds (ids : list string) : Fake.World := Fake.withExisting Fake.empty ids.

End Scenario.

(** ** Reading a run *)

Definition resultOf {W} (r : result (option error) * State W * list event)
  : result (option error) := fst (fst r).
Definition stateOf {W} (r : result (option error) * State W * list event)
  : State W := snd (fst r).
Definition traceOf {W} (r : result (option error) * State W * list event)
  : list event := snd r.

(** The first request in a trace. *)
Fixpoint firstCall (tr : list event) : option event :=
  match tr with
  | [] => None
  | ECall op id resp err :: _ => Some (ECall op id resp err)
  | _ :: rest => firstCall rest
  end.

(** No request of the operation [op] in the trace. *)
Fixpoint noCall (op : Op.t) (tr : list event) : bool :=
  match tr with
  | [] => true
  | ECall op' _ _ _ :: rest => negb (Op.eqb op op') && noCall op rest
  | _ :: rest => noCall op rest
  end.

(** No request that changes the remote state in the trace. *)
Fixpoint noMutation (tr : list event) : bool :=
  match tr with
  | [] => true
  | ECall op _ _ _ :: rest => negb (Op.mutating op) && noMutation rest
  | _ :: rest => noMutation rest
  end.


Definition isLockEvent (e : event) : bool :=
  match e with
  | ELock _ _ | EUnlock _ _ => true
  | _ => false
  end.

(** The trace starts by taking the lock, ends by releasing it, and touches
    no lock in between. *)
Definition lockedSection (name kind : string) (tr : list event) : Prop :=
  exists body,
    tr = ELock name kind :: body ++ [EUnlock name kind] /\
    Forall (fun e => isLockEvent e = false) body.

(** The events [tr] as they appear when the body runs with or without the
    named lock. *)
Definition underLock (lock : option (string * string)) (tr : list event) : list event :=
  match lock with
  | Some (name, kind) => ELock name kind :: tr ++ [EUnlock name kind]
  | None => tr
  end.


(** The events of a body that touches no lock, then the release of the lock. *)
Inductive bodyThenUnlock (name kind : string) : list event -> Prop :=
| btu_unlock : bodyThenUnlock name kind [EUnlock name kind]
| btu_event e tr :
    isLockEvent e = false ->
    bodyThenUnlock name kind tr ->
    bodyThenUnlock name kind (e :: tr)
| btu_tail body :
    Forall (fun e => isLockEvent e = false) body ->
    bodyThenUnlock name kind (body ++ [EUnlock name kind]).

(** Every poll in the trace follows an accepted request: the last request
    before the poll is of the operation that is polled, and it returned no
    error.  [last] is the last request seen so far and whether it was
    accepted. *)
Fixpoint pollsAccepted (last : option (Op.t * bool)) (tr : list event) : bool :=
  match tr with
  | [] => true
  | ECall op _ _ err :: rest => pollsAccepted (Some (op, isNil err)) rest
  | EPoll op _ :: rest =>
      match last with
      | Some (op', true) => Op.eqb op op' && pollsAccepted last rest
      | _ => false
      end
  | _ :: rest => pollsAccepted last rest
  end.

Definition isPoll (e : event) : bool :=
  match e with
  | EPoll _ _ => true
  | _ => false
  end.

(** ** The contracts of the handlers *)

Section Contracts.
Context {W P : Type}.

(** A handler that starts by parsing the stored identifier: when the parser
    refuses it, the handler returns the parser's error as it is, sends no
    request, takes no lock and leaves the state alone. *)
Definition FailsOnBadId {I} (h : Handler W) (parse : string -> error + I) : Prop :=
  forall st err,
    parse (rdId (rd st)) = inl err ->
    run h st = (Ok (Some err), st, []).

(** A read whose GET fails: on 404 the identifier in the state is cleared
    and the handler returns nil; any other error is returned, wrapped in
    [format] with the arguments [args] of the identifier. *)
Definition ReadOnGetError {I R} `{!ResourceId I} (read : Handler W)
    (parse : string -> error + I) (get : GetOp W I R) (op : Op.t)
    (format : string) (args : I -> list string) : Prop :=
  forall st id resp err w,
    parse (rdId (rd st)) = inr id ->
    get id (world st) = ((resp, Some err), w) ->
    run read st =
    if response_WasNotFound (Response.HttpResponse resp) then
      (Ok None, {| rd := setId (rd st) ""; world := w |},
       [ECall op (ID id) (Response.HttpResponse resp) (Some err); ESetId ""])
    else
      (Ok (Some (Errorf format (args id) (Some err))), {| rd := rd st; world := w |},
       [ECall op (ID id) (Response.HttpResponse resp) (Some err)]).

(** A read whose GET answers without an error and without a model: the
    handler dereferences the nil model and panics, after the one request. *)
Definition ReadPanicsOnNilModel {I R} `{!ResourceId I} (read : Handler W)
    (parse : string -> error + I) (get : GetOp W I R) (op : Op.t) : Prop :=
  forall st id resp w,
    parse (rdId (rd st)) = inr id ->
    get id (world st) = ((resp, None), w) ->
    Response.Model resp = None ->
    resultOf (run read st) = Panicked /\
    traceOf (run read st) = [ECall op (ID id) (Response.HttpResponse resp) None].

(** No run of the handler sends a request that changes the remote state. *)
Definition NeverMutates (h : Handler W) : Prop :=
  forall st, noMutation (traceOf (run h st)) = true.


(** [fmt.Errorf(format, args..., err)] when [err] is not nil. *)
Definition wrapErr (format : string) (args : list string) (err : option error)
  : option error :=
  match err with
  | Some e => Some (Errorf format args (Some e))
  | None => None
  end.

(** A delete whose request fails, with whatever status: the error is
    returned wrapped, the poller is not touched. *)
Definition DeleteFailsOnError {I} `{!ResourceId I} (h : Handler W)
    (parse : string -> error + I) (delete : DeleteOp W P I) (op : Op.t)
    (lock : I -> option (string * string))
    (format : string) (args : I -> list string) : Prop :=
  forall st id future err w,
    parse (rdId (rd st)) = inr id ->
    delete id (world st) = ((future, Some err), w) ->
    run h st =
    (Ok (Some (Errorf format (args id) (Some err))), {| rd := rd st; world := w |},
     underLock (lock id) [ECall op (ID id) (Future.HttpResponse future) (Some err)]).

(** A delete whose request fails: on 404 the error is dropped and the
    poller of the failed request is polled, and the poll decides the result;
    any other error is returned wrapped. *)
Definition DeletePollsAfterNotFound {I} `{!ResourceId I} (h : Handler W)
    (parse : string -> error + I) (delete : DeleteOp W P I)
    (pollUntilDone : P -> W -> option error * W) (op : Op.t)
    (format waitFormat : string) (args : I -> list string) : Prop :=
  forall st id future err w perr w',
    parse (rdId (rd st)) = inr id ->
    delete id (world st) = ((future, Some err), w) ->
    pollUntilDone (Future.Poller future) w = (perr, w') ->
    run h st =
    if response_WasNotFound (Future.HttpResponse future) then
      (Ok (wrapErr waitFormat (args id) perr), {| rd := rd st; world := w' |},
       [ECall op (ID id) (Future.HttpResponse future) (Some err); EPoll op perr])
    else
      (Ok (Some (Errorf format (args id) (Some err))), {| rd := rd st; world := w |},
       [ECall op (ID id) (Future.HttpResponse future) (Some err)]).

(** A delete whose request is accepted: the poller is driven to its end,
    its error comes back wrapped, and the resource data is left as it was. *)
Definition DeleteAccepted {I} `{!ResourceId I} (h : Handler W)
    (parse : string -> error + I) (delete : DeleteOp W P I)
    (pollUntilDone : P -> W -> option error * W) (op : Op.t)
    (lock : I -> option (string * string))
    (waitFormat : string) (args : I -> list string) : Prop :=
  forall st id future w perr w',
    parse (rdId (rd st)) = inr id ->
    delete id (world st) = ((future, None), w) ->
    pollUntilDone (Future.Poller future) w = (perr, w') ->
    run h st =
    (Ok (wrapErr waitFormat (args id) perr), {| rd := rd st; world := w' |},
     underLock (lock id)
       [ECall op (ID id) (Future.HttpResponse future) None; EPoll op perr]).

(** A read whose GET succeeds with a model: the handler returns nil after
    writing the fields [idFields] taken from the parsed identifier, then the
    fields [modelFields] taken from the answer. *)
Definition ReadWrites {I R} `{!ResourceId I} (read : Handler W)
    (parse : string -> error + I) (get : GetOp W I R) (op : Op.t)
    (check : string -> value -> option error)
    (idFields : I -> list (string * value))
    (modelFields : R -> list (string * value)) : Prop :=
  forall st id resp w model,
    parse (rdId (rd st)) = inr id ->
    get id (world st) = ((resp, None), w) ->
    Response.Model resp = Some model ->
    run read st =
    (Ok None,
     {| rd := setAll check (rd st) (idFields id ++ modelFields model); world := w |},
     [ECall op (ID id) (Response.HttpResponse resp) None]).


(** A create whose probe does not answer 404: the handler stops after the
    probe, with the error of the probe wrapped in [format] when there is one
    and with the import-as-exists error naming the identifier otherwise.
    [ready st id w0] says that the handler reaches the probe with the
    identifier [id] in the remote world [w0]. *)
Definition CreateRefusesExisting {I R} `{!ResourceId I} (create : Handler W)
    (ready : State W -> I -> W -> Prop) (get : GetOp W I R) (op : Op.t)
    (lock : I -> option (string * string))
    (resourceName format : string) : Prop :=
  forall st id w0 existing err w,
    ready st id w0 ->
    get id w0 = ((existing, err), w) ->
    response_WasNotFound (Response.HttpResponse existing) = false ->
    run create st =
    (Ok (Some match err with
              | Some e => Errorf format [show id] (Some e)
              | None => ImportAsExistsError resourceName (ID id)
              end),
     {| rd := rd st; world := w |},
     underLock (lock id) [ECall op (ID id) (Response.HttpResponse existing) err]).




(** In every run from a state where [cond] holds, the first request, when
    there is one, is a request of the operation [op]. *)
Definition FirstRequestIs (h : Handler W) (cond : State W -> Prop) (op : Op.t) : Prop :=
  forall st,
    cond st ->
    match firstCall (traceOf (run h st)) with
    | Some (ECall op' _ _ _) => op' = op
    | Some _ => False
    | None => True
    end.

(** A handler that drops the error of a parser and then uses the nil
    identifier: it panics before any request. *)
Definition PanicsOnBadConfig {I} (h : Handler W) (parse : string -> error + I)
    (key : string) : Prop :=
  forall st err,
    parse (getString (rd st) key) = inl err ->
    run h st = (Panicked, st, []).

(** A create with an empty name whose UUID generation fails: the error is
    returned wrapped before the lock is taken and before any request. *)
Definition FailsOnUUID (h : Handler W) (generate : W -> (string * option error) * W)
    (key format : string) : Prop :=
  forall st uuid err w,
    getString (rd st) key = "" ->
    generate (world st) = ((uuid, Some err), w) ->
    run h st = (Ok (Some (Errorf format [] (Some err))), {| rd := rd st; world := w |}, []).


(** No run of the handler takes or releases a lock. *)
Definition NeverLocks (h : Handler W) : Prop :=
  forall st, Forall (fun e => isLockEvent e = false) (traceOf (run h st)).

(** Every run of the handler either does nothing observable, or takes the
    lock of the account [name] of kind [kind] first, releases it last, and
    touches no lock in between: every request is sent with the lock held,
    and the lock is released on every way out, panics included. *)
Definition LocksAccount (h : Handler W) (kind : string)
    (nameOf : State W -> string -> Prop) : Prop :=
  forall st,
    traceOf (run h st) = [] \/
    exists name, nameOf st name /\ lockedSection name kind (traceOf (run h st)).


(** A data source whose GET fails: a 404 gives the error "was not found"
    without a cause, any other error comes back wrapped in [format]; the
    resource data, its identifier included, is left as it was. *)
Definition DataSourceOnGetError {I R} `{!ResourceId I} (read : Handler W)
    (idOf : ResourceData -> I) (get : GetOp W I R) (op : Op.t)
    (format : string) (args : I -> list string) : Prop :=
  forall st resp err w,
    get (idOf (rd st)) (world st) = ((resp, Some err), w) ->
    run read st =
    (Ok (Some (if response_WasNotFound (Response.HttpResponse resp)
               then Errorf "%s was not found" [show (idOf (rd st))] None
               else Errorf format (args (idOf (rd st))) (Some err))),
     {| rd := rd st; world := w |},
     [ECall op (ID (idOf (rd st))) (Response.HttpResponse resp) (Some err)]).


(** In every run of the handler, whatever is polled is the poller of a
    request that was accepted. *)
Definition PollsOnlyAccepted (h : Handler W) : Prop :=
  forall st, pollsAccepted None (traceOf (run h st)) = true.

(** No run of the handler polls. *)
Definition NeverPolls (h : Handler W) : Prop :=
  forall st, Forall (fun e => isPoll e = false) (traceOf (run h st)).

End Contracts.

(** ** What a create handler builds before its first request *)

Section Preparation.
Context {W P TG TU : Type}.
Variable meta : Client W P TG TU.
Variable pkg : Imports W P TG TU.

(** The identifier of a trigger: the container identifier of the
    configuration parses, and the name is appended to it. *)
Definition triggerIdBuilt (d : ResourceData) (id : TriggerId.t) : Prop :=
  exists containerId,
    ParseContainerID pkg (getString d "container_id") = inr containerId /\
    id = NewTriggerID (Account_SubscriptionId meta)
           (ContainerId.ResourceGroupName containerId)
           (ContainerId.DatabaseAccountName containerId)
           (ContainerId.SqlDatabaseName containerId)
           (ContainerId.ContainerName containerId) (getString d "name").

Definition functionIdBuilt (d : ResourceData) (id : UserDefinedFunctionId.t) : Prop :=
  exists containerId,
    ParseContainerID pkg (getString d "container_id") = inr containerId /\
    id = NewUserDefinedFunctionID (Account_SubscriptionId meta)
           (ContainerId.ResourceGroupName containerId)
           (ContainerId.DatabaseAccountName containerId)
           (ContainerId.SqlDatabaseName containerId)
           (ContainerId.ContainerName containerId) (getString d "name").


Definition sqlDatabaseIdOf (d : ResourceData) : SqlDatabaseId.t :=
  NewSqlDatabaseID (Account_SubscriptionId meta) (getString d "resource_group_name")
    (getString d "account_name") (getString d "name").

(** The name of a role assignment or definition: the configured one, or a
    generated UUID when the configured one is empty; [w0] is the world after
    the generation. *)
Definition namedOrGenerated (st : State W) (key : string) (name : string) (w0 : W)
  : Prop :=
  if String.eqb (getString (rd st) key) "" then
    GenerateUUID pkg (world st) = ((name, None), w0)
  else
    name = getString (rd st) key /\ w0 = world st.

Definition roleAssignmentIdBuilt (st : State W) (id : AccountId.t) (w0 : W) : Prop :=
  exists name,
    namedOrGenerated st "name" name w0 /\
    id = NewAccountID (Account_SubscriptionId meta)
           (getString (rd st) "resource_group_name")
           (getString (rd st) "account_name") name.

Definition roleDefinitionIdBuilt (st : State W) (id : SqlRoleDefinitionId.t) (w0 : W)
  : Prop :=
  exists name,
    namedOrGenerated st "role_definition_id" name w0 /\
    id = NewSqlRoleDefinitionID (Account_SubscriptionId meta)
           (getString (rd st) "resource_group_name")
           (getString (rd st) "account_name") name.

End Preparation.

(** ** The reads of a SQL database and of a role definition, past the GET *)

Section PastTheGet.
Context {W P TG TU : Type}.
Context `{!ResourceId SqlDatabaseId.t, !ResourceId DatabaseAccountId.t,
          !ResourceId SqlRoleDefinitionId.t}.
Variable meta : Client W P TG TU.
Variable pkg : Imports W P TG TU.

(** The account of a SQL database. *)
Definition accountIdOf (id : SqlDatabaseId.t) : DatabaseAccountId.t :=
  NewDatabaseAccountID (Account_SubscriptionId meta)
    (SqlDatabaseId.ResourceGroupName id) (SqlDatabaseId.DatabaseAccountName id).

(** The fields written from the identifier and from the answer of the
    database GET. *)
Definition databaseFields (id : SqlDatabaseId.t)
    (model : GetResults.t (GetProperties.t SqlDatabaseResource.t))
  : list (string * value) :=
  [("resource_group_name", VString (SqlDatabaseId.ResourceGroupName id));
   ("account_name", VString (SqlDatabaseId.DatabaseAccountName id))] ++
  match GetResults.Properties model with
  | Some props =>
      match GetProperties.Resource props with
      | Some res => [("name", VString (SqlDatabaseResource.Id res))]
      | None => []
      end
  | None => []
  end.

(** The account model has no usable [Id]. *)
Definition accountIdMissing (accModel : DatabaseAccountGetResults) : bool :=
  match GetResults.Id accModel with
  | Some s => String.eqb s ""
  | None => true
  end.

(** The resource data a handler works on: with the identifier written first
    when [setsId]. *)
Definition startOf (setsId : bool) (d : ResourceData) (ids : string) : ResourceData :=
  if setsId then setId d ids else d.

(** A read of the database [id] got the database, with a model, and then
    asked for the account: [d1] is the resource data, [w1] the remote world
    and [tr] the trace at that point, [accResp] and [aerr] the answer. *)
Definition AccountAnswered (setsId : bool) (st : State W) (id : SqlDatabaseId.t)
    (d1 : ResourceData) (w1 : W) (accResp : Response.t DatabaseAccountGetResults)
    (aerr : option error) (tr : list event) : Prop :=
  exists resp w model,
    SqlResourcesGetSqlDatabase (Cosmos_CosmosDBClient meta) id (world st)
      = ((resp, None), w) /\
    Response.Model resp = Some model /\
    DatabaseAccountsGet (Cosmos_CosmosDBClient meta) (accountIdOf id) w
      = ((accResp, aerr), w1) /\
    d1 = setAll (schemaSet pkg) (startOf setsId (rd st) (ID id)) (databaseFields id model) /\
    tr = ECall Op.GetSqlDatabase (ID id) (Response.HttpResponse resp) None
           :: (if setsId then [ESetId (ID id)] else [])
           ++ [ECall Op.DatabaseAccountsGet (ID (accountIdOf id))
                 (Response.HttpResponse accResp) aerr].

(** The read stops at the account: with the error of the account request
    wrapped, with a panic when the answer has no model, and with the error
    "ID is empty or nil" when the model has no usable [Id].  No throughput
    request is sent. *)
Definition StopsAtAccount (read : Handler W) (idOf : State W -> SqlDatabaseId.t -> Prop)
    (setsId : bool) : Prop :=
  forall st id d1 w1 accResp aerr tr,
    idOf st id ->
    AccountAnswered setsId st id d1 w1 accResp aerr tr ->
    match aerr, Response.Model accResp with
    | Some e, _ =>
        run read st =
        (Ok (Some (Errorf "reading CosmosDB Account %q (Resource Group %q): %+v"
                     [SqlDatabaseId.DatabaseAccountName id;
                      SqlDatabaseId.ResourceGroupName id] (Some e))),
         {| rd := d1; world := w1 |}, tr)
    | None, None => run read st = (Panicked, {| rd := d1; world := w1 |}, tr)
    | None, Some accModel =>
        accountIdMissing accModel = true ->
        run read st =
        (Ok (Some (Errorf "cosmosDB Account %q (Resource Group %q) ID is empty or nil"
                     [SqlDatabaseId.DatabaseAccountName id;
                      SqlDatabaseId.ResourceGroupName id] None)),
         {| rd := d1; world := w1 |}, tr)
    end.

(** On a serverless account the read ends after the account request: it
    returns nil and sends no throughput request. *)
Definition SkipsThroughputWhenServerless (read : Handler W)
    (idOf : State W -> SqlDatabaseId.t -> Prop) (setsId : bool) : Prop :=
  forall st id d1 w1 accResp accModel tr,
    idOf st id ->
    AccountAnswered setsId st id d1 w1 accResp None tr ->
    Response.Model accResp = Some accModel ->
    accountIdMissing accModel = false ->
    IsServerlessCapacityMode accModel = true ->
    run read st = (Ok None, {| rd := d1; world := w1 |}, tr).

(** On an account that is not serverless the read asks for the throughput,
    once, and ends.  A 404 writes nil to the two throughput fields and
    gives nil; any other error comes back wrapped; an answer with a model
    goes to [SetResourceDataThroughputFromResponse]; an answer with neither
    error nor model is a panic. *)
Definition ReadsThroughput (read : Handler W)
    (idOf : State W -> SqlDatabaseId.t -> Prop) (setsId : bool) : Prop :=
  forall st id d1 w1 accResp accModel tr tresp terr w2,
    idOf st id ->
    AccountAnswered setsId st id d1 w1 accResp None tr ->
    Response.Model accResp = Some accModel ->
    accountIdMissing accModel = false ->
    IsServerlessCapacityMode accModel = false ->
    SqlResourcesGetSqlDatabaseThroughput (Cosmos_CosmosDBClient meta) id w1
      = ((tresp, terr), w2) ->
    run read st =
    (match terr with
     | Some e =>
         if response_WasNotFound (Response.HttpResponse tresp) then Ok None
         else Ok (Some (Errorf
                          "reading Throughput on Cosmos SQL Database %q (Account: %q) ID: %v"
                          [SqlDatabaseId.SqlDatabaseName id;
                           SqlDatabaseId.DatabaseAccountName id] (Some e)))
     | None => if isNil (Response.Model tresp) then Panicked else Ok None
     end,
     {| rd := match terr, Response.Model tresp with
              | Some _, _ =>
                  if response_WasNotFound (Response.HttpResponse tresp)
                  then setAll (schemaSet pkg) d1
                         [("throughput", VNil); ("autoscale_settings", VNil)]
                  else d1
              | None, Some throughputModel =>
                  SetResourceDataThroughputFromResponse pkg throughputModel d1
              | None, None => d1
              end;
        world := w2 |},
     tr ++ [ECall Op.GetSqlDatabaseThroughput (ID id) (Response.HttpResponse tresp) terr]).

(** The update of a SQL database checks the change of the throughput mode
    before anything else: the error of the check comes back wrapped, no
    request is sent. *)
Definition ChecksThroughputModeFirst (update : Handler W) : Prop :=
  forall st id e,
    ParseSqlDatabaseID pkg (rdId (rd st)) = inr id ->
    CheckForChangeFromAutoscaleAndManualThroughput pkg (rd st) = Some e ->
    run update st =
    (Ok (Some (Errorf "updating Cosmos SQL Database %q (Account: %q) - %+v"
                 [SqlDatabaseId.SqlDatabaseName id;
                  SqlDatabaseId.DatabaseAccountName id] (Some e))),
     st, []).

(** The payload of the update: the name of the database and empty options. *)
Definition updatePayload (id : SqlDatabaseId.t)
  : CreateUpdateParameters.t (CreateUpdateProperties.t SqlDatabaseResource.t) :=
  {| CreateUpdateParameters.Properties :=
       {| CreateUpdateProperties.Resource :=
            {| SqlDatabaseResource.Id := SqlDatabaseId.SqlDatabaseName id |};
          CreateUpdateProperties.Options :=
            Some {| CreateUpdateOptions.Throughput := None;
                    CreateUpdateOptions.AutoScaleSettings := None |} |} |}.

(** The update got its create-or-update request accepted and polled to the
    end in the world [w1]. *)
Definition DatabaseUpdated (st : State W) (id : SqlDatabaseId.t) (w1 : W)
    (tr : list event) : Prop :=
  exists future w,
    ParseSqlDatabaseID pkg (rdId (rd st)) = inr id /\
    CheckForChangeFromAutoscaleAndManualThroughput pkg (rd st) = None /\
    SqlResourcesCreateUpdateSqlDatabase (Cosmos_CosmosDBClient meta) id (updatePayload id)
      (world st) = ((future, None), w) /\
    PollUntilDone pkg (Future.Poller future) w = (None, w1) /\
    tr = [ECall Op.CreateUpdateSqlDatabase (ID id) (Future.HttpResponse future) None;
          EPoll Op.CreateUpdateSqlDatabase None].

(** Without a change of the throughput the update goes on to the read,
    from the resource data as it was. *)
Definition UpdateWithoutThroughput (update read : Handler W) : Prop :=
  forall st id w1 tr,
    DatabaseUpdated st id w1 tr ->
    HasThroughputChange pkg (rd st) = false ->
    run update st = pre tr (run read {| rd := rd st; world := w1 |}).

(** With a change of the throughput the update sends the throughput
    request.  Only a 404 with an error stops it there; any other error of
    the request is dropped, the poller of the request is polled, and the
    error of the poll, when there is one, comes back wrapped; without one
    the update goes on to the read.  Parameters that expand to nil are a
    panic before the request. *)
Definition UpdatesThroughput (update read : Handler W) : Prop :=
  forall st id w1 tr,
    DatabaseUpdated st id w1 tr ->
    HasThroughputChange pkg (rd st) = true ->
    match ExpandCosmosDBThroughputSettingsUpdateParameters pkg (rd st) with
    | None => run update st = (Panicked, {| rd := rd st; world := w1 |}, tr)
    | Some parameters =>
        forall tfuture terr w2 perr w3,
          SqlResourcesUpdateSqlDatabaseThroughput (Cosmos_CosmosDBClient meta) id
            parameters w1 = ((tfuture, terr), w2) ->
          PollUntilDone pkg (Future.Poller tfuture) w2 = (perr, w3) ->
          let sent :=
            tr ++ [ECall Op.UpdateSqlDatabaseThroughput (ID id)
                     (Future.HttpResponse tfuture) terr] in
          let polled := sent ++ [EPoll Op.UpdateSqlDatabaseThroughput perr] in
          run update st =
          match terr, response_WasNotFound (Future.HttpResponse tfuture), perr with
          | Some e, true, _ =>
              (Ok (Some (Errorf
                           "setting Throughput for Cosmos SQL Database %q (Account: %q) %+v - If the collection has not been created with an initial throughput, you cannot configure it later"
                           [SqlDatabaseId.SqlDatabaseName id;
                            SqlDatabaseId.DatabaseAccountName id] (Some e))),
               {| rd := rd st; world := w2 |}, sent)
          | _, _, Some pe =>
              (Ok (Some (Errorf
                           "waiting on ThroughputUpdate future for Cosmos SQL Database %q (Account: %q): %+v"
                           [SqlDatabaseId.SqlDatabaseName id;
                            SqlDatabaseId.DatabaseAccountName id] (Some pe))),
               {| rd := rd st; world := w3 |}, polled)
          | _, _, None => pre polled (run read {| rd := rd st; world := w3 |})
          end
    end.

(** The fields that a read of a role definition writes from the identifier
    and from the properties of the answer. *)
Definition roleDefinitionFields (id : SqlRoleDefinitionId.t)
    (model : GetResults.t SqlRoleDefinitionResource.t) : list (string * value) :=
  [("role_definition_id", VString (SqlRoleDefinitionId.RoleDefinitionId id));
   ("resource_group_name", VString (SqlRoleDefinitionId.ResourceGroupName id));
   ("account_name", VString (SqlRoleDefinitionId.DatabaseAccountName id))] ++
  match GetResults.Properties model with
  | Some props =>
      [("assignable_scopes",
         FlattenStringSlice pkg (SqlRoleDefinitionResource.AssignableScopes props));
       ("name", ofPtrString (SqlRoleDefinitionResource.RoleName props));
       ("type", ofPtrString (SqlRoleDefinitionResource.Type_ props));
       ("permissions",
         VList (elems (flattenSqlRoleDefinitionPermissions (FlattenStringSlice pkg)
                         (SqlRoleDefinitionResource.Permissions props))))]
  | None => []
  end.

(** A read of a role definition whose GET succeeds with a model writes the
    fields above, and returns nil unless the schema refuses the permissions:
    of the seven writes, only the error of this last one is looked at. *)
Definition ReadsRoleDefinition (read : Handler W)
    (idOf : State W -> SqlRoleDefinitionId.t -> Prop) (setsId : bool) : Prop :=
  forall st id resp w model,
    idOf st id ->
    SqlResourcesGetSqlRoleDefinition (Cosmos_RbacsClient meta) id (world st)
      = ((resp, None), w) ->
    Response.Model resp = Some model ->
    run read st =
    (Ok match GetResults.Properties model with
        | Some props =>
            wrapErr "setting `permissions`: %+v" []
              (schemaSet pkg "permissions"
                 (VList (elems (flattenSqlRoleDefinitionPermissions (FlattenStringSlice pkg)
                                  (SqlRoleDefinitionResource.Permissions props)))))
        | None => None
        end,
     {| rd := setAll (schemaSet pkg) (startOf setsId (rd st) (ID id))
                (roleDefinitionFields id model);
        world := w |},
     ECall Op.GetSqlRoleDefinition (ID id) (Response.HttpResponse resp) None
       :: (if setsId then [ESetId (ID id)] else [])).

Definition sqlRoleDefinitionIdOf (d : ResourceData) : SqlRoleDefinitionId.t :=
  NewSqlRoleDefinitionID (Account_SubscriptionId meta) (getString d "resource_group_name")
    (getString d "account_name") (getString d "role_definition_id").

End PastTheGet.

(** ** What the flattens of the restorable accounts compute *)

(** The entry of one restorable location. *)
Definition restorableLocationEntry (item : RestorableLocationResource.t) : value :=
  VMap [("creation_time", VString (stringOrZero (RestorableLocationResource.CreationTime item)));
        ("deletion_time", VString (stringOrZero (RestorableLocationResource.DeletionTime item)));
        ("location", VString (stringOrZero (RestorableLocationResource.LocationName item)));
        ("regional_database_account_instance_id",
          VString (stringOrZero (RestorableLocationResource.RegionalDatabaseAccountInstanceId item)))].

(** The account has properties with the name [accountName]. *)
Definition accountMatches (accountName : string) (item : RestorableDatabaseAccountGetResult)
  : bool :=
  match GetResults.Properties item with
  | Some props =>
      match RestorableDatabaseAccountProperties.AccountName props with
      | Some name => String.eqb name accountName
      | None => false
      end
  | None => false
  end.

Definition locationsOf (item : RestorableDatabaseAccountGetResult)
  : ptr (slice RestorableLocationResource.t) :=
  match GetResults.Properties item with
  | Some props => RestorableDatabaseAccountProperties.RestorableLocations props
  | None => None
  end.

(** An account of the name asked for whose restorable locations are absent. *)
Definition lacksLocations (accountName : string) (item : RestorableDatabaseAccountGetResult)
  : bool :=
  accountMatches accountName item && isNil (locationsOf item).

(** The entry of one restorable account. *)
Definition restorableAccountEntry (item : RestorableDatabaseAccountGetResult) : value :=
  let field (f : RestorableDatabaseAccountProperties.t -> ptr string) :=
    match GetResults.Properties item with
    | Some props => stringOrZero (f props)
    | None => ""
    end in
  VMap [("id", VString (stringOrZero (GetResults.Id item)));
        ("api_type", VString (field RestorableDatabaseAccountProperties.ApiType));
        ("creation_time", VString (field RestorableDatabaseAccountProperties.CreationTime));
        ("deletion_time", VString (field RestorableDatabaseAccountProperties.DeletionTime));
        ("restorable_locations",
          VList (map restorableLocationEntry
                   (match locationsOf item with
                    | Some locations => elems locations
                    | None => []
                    end)))].

(** ** The read of the restorable accounts, as a function of the answer *)

Section RestorableAccountsRead.
Context {W P TG TU : Type}.
Context `{!ResourceId LocationId.t, !ResourceId RestorableDatabaseAccountId.t}.
Variable meta : Client W P TG TU.
Variable pkg : Imports W P TG TU.

Definition restorableLocationIdOf (d : ResourceData) : LocationId.t :=
  NewLocationID (Account_SubscriptionId meta) (getString d "location").

(** The identifier of the data source: the location, with the fixed
    instance name "read". *)
Definition restorableAccountsIdOf (d : ResourceData) : RestorableDatabaseAccountId.t :=
  NewRestorableDatabaseAccountID (Account_SubscriptionId meta) (getString d "location") "read".

(** The run of the read on an answer without error.  The location is
    written first.  Without a model the read panics.  Without a list it
    writes the identifier and returns nil.  With a list, the flatten gets a
    pointer that is not nil; the read panics when the flatten does, and
    otherwise writes the accounts, then the identifier, and returns nil;
    when the schema refuses the accounts it returns that error wrapped and
    does not write the identifier. *)
Definition RestorableAccountsRead (read : Handler W)
    (list : GetOp W LocationId.t RestorableDatabaseAccountsListResult.t) : Prop :=
  forall st resp w,
    list (restorableLocationIdOf (rd st)) (world st) = ((resp, None), w) ->
    let id := restorableAccountsIdOf (rd st) in
    let name := getString (rd st) "name" in
    let called :=
      ECall Op.RestorableDatabaseAccountsListByLocation (ID (restorableLocationIdOf (rd st)))
        (Response.HttpResponse resp) None in
    let located :=
      setChecked (schemaSet pkg) (rd st) "location" (VString (getString (rd st) "location")) in
    run read st =
    match Response.Model resp with
    | None => (Panicked, {| rd := located; world := w |}, [called])
    | Some model =>
        match RestorableDatabaseAccountsListResult.Value model with
        | None =>
            (Ok None, {| rd := setId located (ID id); world := w |}, [called; ESetId (ID id)])
        | Some accounts =>
            match flattenCosmosDbRestorableDatabaseAccounts (Some accounts) name with
            | Panicked => (Panicked, {| rd := located; world := w |}, [called])
            | Ok kept =>
                match schemaSet pkg "accounts" (VList (elems kept)) with
                | Some e =>
                    (Ok (Some (Errorf "flattening `accounts`: %+v" [] (Some e))),
                     {| rd := located; world := w |}, [called])
                | None =>
                    (Ok None,
                     {| rd := setId (setField located "accounts" (VList (elems kept))) (ID id);
                        world := w |},
                     [called; ESetId (ID id)])
                end
            end
        end
    end.

(** The read fails with the error of the request: "was not found" on a
    404, wrapped otherwise, both naming the identifier of the data source;
    nothing is written. *)
Definition RestorableAccountsReadFails (read : Handler W)
    (list : GetOp W LocationId.t RestorableDatabaseAccountsListResult.t) : Prop :=
  forall st resp err w,
    list (restorableLocationIdOf (rd st)) (world st) = ((resp, Some err), w) ->
    run read st =
    (Ok (Some (if response_WasNotFound (Response.HttpResponse resp)
               then Errorf "%s was not found" [show (restorableAccountsIdOf (rd st))] None
               else Errorf "retrieving %s: %+v" [show (restorableAccountsIdOf (rd st))]
                      (Some err))),
     {| rd := rd st; world := w |},
     [ECall Op.RestorableDatabaseAccountsListByLocation
        (ID (restorableLocationIdOf (rd st))) (Response.HttpResponse resp) (Some err)]).

End RestorableAccountsRead.

(** * Theorems *)

Lemma rangeCapabilities_spec (caps : list Capability.t) :
  rangeCapabilities caps = true <->
  exists v, In v caps /\ Capability.Name v = Some "EnableServerless".
Proof.
  induction caps as [|c caps IH]; simpl.
  { split; [discriminate | intros (v & [] & _)]. }
  assert (Hskip : Capability.Name c <> Some "EnableServerless" ->
                  rangeCapabilities caps = true <->
                  exists v, (c = v \/ In v caps) /\
                            Capability.Name v = Some "EnableServerless").
  { intros Hne. rewrite IH. split.
    - intros (v & Hin & Hv). exists v; auto.
    - intros (v & [<-|Hin] & Hv); [congruence | exists v; auto]. }
  destruct (Capability.Name c) as [name|] eqn:Hname.
  - destruct (String.eqb name "EnableServerless") eqn:Heq.
    + apply String.eqb_eq in Heq. subst name.
      split; [intros _; exists c; auto | reflexivity].
    + apply String.eqb_neq in Heq. apply Hskip. congruence.
  - apply Hskip. discriminate.
Qed.

(** C6.  [IsServerlessCapacityMode] answers [true] exactly when the account
    has properties, the properties have a capability list, and the list holds
    an entry whose name is non-nil and equal to "EnableServerless".  It is
    [true] on the one-element list with that name, and [false] when the
    properties or the capability list are nil. *)
Theorem IsServerlessCapacityMode_iff :
  (forall accResp : DatabaseAccountGetResults,
     IsServerlessCapacityMode accResp = true <->
     exists props caps v,
       GetResults.Properties accResp = Some props /\
       DatabaseAccountGetProperties.Capabilities props = Some caps /\
       In v (elems caps) /\
       Capability.Name v = Some "EnableServerless") /\
  (forall id,
     IsServerlessCapacityMode
       {| GetResults.Id := id;
          GetResults.Properties :=
            Some {| DatabaseAccountGetProperties.Capabilities :=
                      Some (Slice [ {| Capability.Name := Some "EnableServerless" |} ]) |} |}
     = true) /\
  (forall id,
     IsServerlessCapacityMode
       {| GetResults.Id := id; GetResults.Properties := None |} = false) /\
  (forall id,
     IsServerlessCapacityMode
       {| GetResults.Id := id;
          GetResults.Properties :=
            Some {| DatabaseAccountGetProperties.Capabilities := None |} |}
     = false).
Proof.
  split; [|repeat split; reflexivity].
  intros accResp. unfold IsServerlessCapacityMode.
  destruct (GetResults.Properties accResp) as [props|].
  - destruct (DatabaseAccountGetProperties.Capabilities props) as [caps|] eqn:Hcaps.
    + rewrite rangeCapabilities_spec. split.
      { intros (v & Hin & Hv). exists props, caps, v.
        repeat split; (assumption || reflexivity). }
      { intros (p & c & v & Hp & Hc & Hin & Hv).
        injection Hp as <-. rewrite Hcaps in Hc. injection Hc as <-.
        exists v. split; assumption. }
    + split; [discriminate|].
      intros (p & c & v & Hp & Hc & _). injection Hp as <-. congruence.
  - split; [discriminate|].
    intros (p & c & v & Hp & _). discriminate.
Qed.

Lemma rangeCapabilitiesLegacy_spec (caps : list documentdb.Capability.t) :
  rangeCapabilitiesLegacy caps = true <->
  exists v, In v caps /\ documentdb.Capability.Name v = Some "EnableServerless".
Proof.
  induction caps as [|c caps IH]; simpl.
  { split; [discriminate | intros (v & [] & _)]. }
  destruct (documentdb.Capability.Name c) as [name|] eqn:Hname.
  - destruct (String.eqb name "EnableServerless") eqn:Heq.
    + apply String.eqb_eq in Heq. subst name.
      split; [intros _; exists c; auto | reflexivity].
    + apply String.eqb_neq in Heq. rewrite IH. split.
      * intros (v & Hin & Hv). exists v; auto.
      * intros (v & [<-|Hin] & Hv); [congruence | exists v; auto].
  - rewrite IH. split.
    + intros (v & Hin & Hv). exists v; auto.
    + intros (v & [<-|Hin] & Hv); [congruence | exists v; auto].
Qed.

Lemma rangeCapabilitiesLegacy_map (caps : list documentdb.Capability.t) :
  rangeCapabilities
    (map (fun v => {| Capability.Name := documentdb.Capability.Name v |}) caps)
  = rangeCapabilitiesLegacy caps.
Proof.
  induction caps as [|c caps IH]; simpl; [reflexivity|].
  destruct (documentdb.Capability.Name c) as [name|]; [|exact IH].
  destruct (String.eqb name "EnableServerless"); [reflexivity | exact IH].
Qed.

(** X27.  [IsServerlessCapacityModeLegacy], the test on the account model of
    the older SDK, answers [true] exactly when the embedded properties and
    their capability list are not nil and the list holds an entry whose
    name is "EnableServerless"; it gives the answer that
    [IsServerlessCapacityMode] gives on the same account in the model of the
    current SDK. *)
Theorem IsServerlessCapacityModeLegacy_iff :
  (forall accResp : documentdb.DatabaseAccountGetResults.t,
     IsServerlessCapacityModeLegacy accResp = true <->
     exists props caps v,
       documentdb.DatabaseAccountGetResults.DatabaseAccountGetProperties accResp
         = Some props /\
       documentdb.DatabaseAccountGetProperties.Capabilities props = Some caps /\
       In v (elems caps) /\
       documentdb.Capability.Name v = Some "EnableServerless") /\
  (forall id accResp,
     IsServerlessCapacityMode (ofLegacy id accResp) = IsServerlessCapacityModeLegacy accResp).
Proof.
  split; intros ?; [|intros accResp]; unfold IsServerlessCapacityModeLegacy.
  - destruct (documentdb.DatabaseAccountGetResults.DatabaseAccountGetProperties accResp)
      as [props|].
    + destruct (documentdb.DatabaseAccountGetProperties.Capabilities props)
        as [caps|] eqn:Hcaps.
      * rewrite rangeCapabilitiesLegacy_spec. split.
        { intros (v & Hin & Hv). exists props, caps, v.
          repeat split; (assumption || reflexivity). }
        { intros (p & c & v & Hp & Hc & Hin & Hv).
          injection Hp as <-. rewrite Hcaps in Hc. injection Hc as <-.
          exists v. split; assumption. }
      * split; [discriminate|].
        intros (p & c & v & Hp & Hc & _). injection Hp as <-. congruence.
    + split; [discriminate|].
      intros (p & c & v & Hp & _). discriminate.
  - unfold IsServerlessCapacityMode, ofLegacy. cbn [GetResults.Properties].
    destruct (documentdb.DatabaseAccountGetResults.DatabaseAccountGetProperties accResp)
      as [props|]; [|reflexivity].
    cbn [DatabaseAccountGetProperties.Capabilities].
    destruct (documentdb.DatabaseAccountGetProperties.Capabilities props)
      as [[|caps]|]; try reflexivity.
    exact (rangeCapabilitiesLegacy_map caps).
Qed.

(** ** Flatten and expand *)

Lemma fold_left_append {A B} (f : A -> B) (l : list A) (acc : slice B) :
  fold_left (fun res item => append res (f item)) l acc = 
  match l with
  | [] => acc
  | _ => Slice (elems acc ++ map f l)
  end.
Proof.
  revert acc. induction l as [|x l IH]; intros acc; simpl; [reflexivity|].
  rewrite IH. destruct l as [|y l]; simpl.
  - reflexivity.
  - now rewrite <- app_assoc.
Qed.

Lemma flattenSqlRoleDefinitionPermissions_Slice F (l : list Permission.t) :
  flattenSqlRoleDefinitionPermissions F (Some (Slice l)) =
  Slice (map (fun item =>
                VMap [("data_actions", F (Permission.DataActions item))]) l).
Proof.
  unfold flattenSqlRoleDefinitionPermissions. rewrite fold_left_append.
  destruct l; reflexivity.
Qed.

(** C3.  On a nil or empty input the permissions flatten returns the empty,
    non-nil slice, and the two restorable-account flattens return it on a
    pointer to an empty or nil slice.  On a nil pointer the two
    restorable-account flattens dereference it and panic; the inner one
    receives a nil pointer from the outer one for every matching account
    whose restorable locations are absent. *)
Theorem flatten_nil_or_empty :
  (forall F, flattenSqlRoleDefinitionPermissions F None = Slice []) /\
  (forall F, flattenSqlRoleDefinitionPermissions F (Some (Slice [])) = Slice []) /\
  (forall F, flattenSqlRoleDefinitionPermissions F (Some NilSlice) = Slice []) /\
  flattenCosmosDbRestorableDatabaseAccountsRestorableLocations (Some (Slice []))
    = Ok (Slice []) /\
  flattenCosmosDbRestorableDatabaseAccountsRestorableLocations (Some NilSlice)
    = Ok (Slice []) /\
  (forall name,
     flattenCosmosDbRestorableDatabaseAccounts (Some (Slice [])) name = Ok (Slice [])) /\
  (forall name,
     flattenCosmosDbRestorableDatabaseAccounts (Some NilSlice) name = Ok (Slice [])) /\
  flattenCosmosDbRestorableDatabaseAccountsRestorableLocations None = Panicked /\
  (forall name, flattenCosmosDbRestorableDatabaseAccounts None name = Panicked) /\
  (forall id name apiType creationTime deletionTime,
     flattenCosmosDbRestorableDatabaseAccounts
       (Some (Slice
          [ {| GetResults.Id := id;
               GetResults.Properties :=
                 Some {| RestorableDatabaseAccountProperties.AccountName := Some name;
                         RestorableDatabaseAccountProperties.ApiType := apiType;
                         RestorableDatabaseAccountProperties.CreationTime := creationTime;
                         RestorableDatabaseAccountProperties.DeletionTime := deletionTime;
                         RestorableDatabaseAccountProperties.RestorableLocations := None |}
            |} ]))
       name = Panicked).
Proof.
  repeat split; try reflexivity.
  intros id name apiType creationTime deletionTime.
  unfold flattenCosmosDbRestorableDatabaseAccounts. simpl.
  now rewrite String.eqb_refl.
Qed.

(** One step of the loop of [expandSqlRoleDefinitionPermissions]. *)
Definition expandPermission (E : list value -> result (ptr (slice string)))
    (item : value) : result Permission.t :=
  rbind (assertMap item) (fun v =>
  rbind (assertSetList (index v "data_actions")) (fun l =>
  rbind (E l) (fun dataActions =>
  Ok {| Permission.DataActions := dataActions |}))).

(** The items of a list taken through a step that may panic, in order. *)
Fixpoint traverse {A B} (step : A -> result B) (l : list A) : result (list B) :=
  match l with
  | [] => Ok []
  | x :: rest =>
      rbind (step x) (fun y =>
      rbind (traverse step rest) (fun ys => Ok (y :: ys)))
  end.

Lemma fold_left_Panicked {A B} (step : slice B -> A -> result (slice B)) (l : list A) :
  fold_left (fun acc item => rbind acc (fun res => step res item)) l Panicked = Panicked.
Proof. induction l; simpl; auto. Qed.

Lemma expand_loop E (l : list value) (acc : list Permission.t) :
  fold_left
    (fun acc item =>
       rbind acc (fun results =>
       rbind (assertMap item) (fun v =>
       rbind (assertSetList (index v "data_actions")) (fun l =>
       rbind (E l) (fun dataActions =>
       Ok (append results {| Permission.DataActions := dataActions |}))))))
    l (Ok (Slice acc))
  = rbind (traverse (expandPermission E) l) (fun ps => Ok (Slice (acc ++ ps))).
Proof.
  revert acc. induction l as [|x l IH]; intros acc; simpl.
  - now rewrite app_nil_r.
  - unfold expandPermission at 1.
    destruct (assertMap x) as [v|]; simpl;
      [|apply (fold_left_Panicked (fun results item =>
           rbind (assertMap item) (fun v =>
           rbind (assertSetList (index v "data_actions")) (fun l =>
           rbind (E l) (fun dataActions =>
           Ok (append results {| Permission.DataActions := dataActions |}))))))].
    destruct (assertSetList (index v "data_actions")) as [sl|]; simpl;
      [|apply (fold_left_Panicked (fun results item =>
           rbind (assertMap item) (fun v =>
           rbind (assertSetList (index v "data_actions")) (fun l =>
           rbind (E l) (fun dataActions =>
           Ok (append results {| Permission.DataActions := dataActions |}))))))].
    destruct (E sl) as [da|]; simpl;
      [|apply (fold_left_Panicked (fun results item =>
           rbind (assertMap item) (fun v =>
           rbind (assertSetList (index v "data_actions")) (fun l =>
           rbind (E l) (fun dataActions =>
           Ok (append results {| Permission.DataActions := dataActions |}))))))].
    unfold append at 2. simpl. rewrite IH.
    destruct (traverse (expandPermission E) l) as [ps|]; simpl; [|reflexivity].
    now rewrite <- app_assoc.
Qed.

Lemma expandSqlRoleDefinitionPermissions_traverse E (input : slice value) :
  expandSqlRoleDefinitionPermissions E input =
  rbind (traverse (expandPermission E) (elems input)) (fun ps => Ok (Some (Slice ps))).
Proof.
  unfold expandSqlRoleDefinitionPermissions, make0.
  rewrite expand_loop.
  destruct (traverse (expandPermission E) (elems input)); reflexivity.
Qed.

Lemma traverse_map_id {A B} (step : B -> result A) (h : A -> B) (l : list A) :
  traverse step (map h l) = Ok l <-> Forall (fun x => step (h x) = Ok x) l.
Proof.
  induction l as [|x l IH]; simpl.
  - split; [constructor | reflexivity].
  - split.
    + intros H. destruct (step (h x)) as [y|] eqn:Hx; simpl in H; [|discriminate].
      destruct (traverse step (map h l)) as [ys|] eqn:Hl; simpl in H; [|discriminate].
      injection H as Hy Hys. subst y ys.
      constructor; [exact Hx | now apply IH].
    + intros H. inversion H as [|? ? Hx Hl]; subst.
      rewrite Hx. simpl. apply IH in Hl. now rewrite Hl.
Qed.

(** The data actions of one permission survive the trip through the flatten
    helper, the set assertion of expand and the expand helper. *)
Definition dataActionsRoundTrip
    (F : ptr (slice string) -> value)
    (E : list value -> result (ptr (slice string))) (p : Permission.t) : Prop :=
  rbind (assertSetList (F (Permission.DataActions p))) E = Ok (Permission.DataActions p).

Lemma expandPermission_flatten F E (p : Permission.t) :
  expandPermission E (VMap [("data_actions", F (Permission.DataActions p))]) = Ok p
  <-> dataActionsRoundTrip F E p.
Proof.
  unfold expandPermission, dataActionsRoundTrip. simpl.
  destruct p as [da]. simpl.
  destruct (assertSetList (F da)) as [l|]; simpl; [|split; discriminate].
  destruct (E l) as [da'|]; simpl; [|split; discriminate].
  split; intros H; injection H as ->; reflexivity.
Qed.

(** C4, as the code has it.  Expand after flatten turns a nil pointer and a
    pointer to a nil slice into a pointer to the empty slice; on a pointer to
    a list it returns that list exactly when the data actions of every entry
    survive the flatten helper, the set assertion and the expand helper. *)
Theorem expand_flatten_permissions F E :
  expandSqlRoleDefinitionPermissions E (flattenSqlRoleDefinitionPermissions F None)
    = Ok (Some (Slice [])) /\
  expandSqlRoleDefinitionPermissions E (flattenSqlRoleDefinitionPermissions F (Some NilSlice))
    = Ok (Some (Slice [])) /\
  (forall l : list Permission.t,
     expandSqlRoleDefinitionPermissions E
       (flattenSqlRoleDefinitionPermissions F (Some (Slice l))) = Ok (Some (Slice l))
     <-> Forall (dataActionsRoundTrip F E) l).
Proof.
  repeat split; try reflexivity.
  - rewrite flattenSqlRoleDefinitionPermissions_Slice,
      expandSqlRoleDefinitionPermissions_traverse. simpl.
    intros H.
    destruct (traverse _ _) as [ps|] eqn:Ht; simpl in H; [|discriminate].
    injection H as ->. apply traverse_map_id in Ht.
    eapply Forall_impl; [exact Ht|]. intros p Hp. now apply expandPermission_flatten.
  - intros H.
    rewrite flattenSqlRoleDefinitionPermissions_Slice,
      expandSqlRoleDefinitionPermissions_traverse. simpl.
    assert (Ht : traverse (expandPermission E)
                   (map (fun item =>
                           VMap [("data_actions", F (Permission.DataActions item))]) l)
                 = Ok l).
    { apply traverse_map_id. eapply Forall_impl; [exact H|].
      intros p Hp. now apply expandPermission_flatten. }
    now rewrite Ht.
Qed.

(** The claimed identity fails at the nil pointer: the composition returns a
    non-nil pointer to an empty slice. *)
Lemma expand_flatten_nil_not_identity :
  expandSqlRoleDefinitionPermissions utils_ExpandStringSlice
    (flattenSqlRoleDefinitionPermissions utils_FlattenStringSlice None) <> Ok None.
Proof. discriminate. Qed.

(** With the helpers of package [utils] as modelled, flatten emits the data
    actions as a plain list, and the set assertion of expand panics on every
    non-empty permissions list. *)
Lemma expand_flatten_nonempty_panics (p : Permission.t) (l : list Permission.t) :
  expandSqlRoleDefinitionPermissions utils_ExpandStringSlice
    (flattenSqlRoleDefinitionPermissions utils_FlattenStringSlice (Some (Slice (p :: l))))
  = Panicked.
Proof.
  rewrite flattenSqlRoleDefinitionPermissions_Slice,
    expandSqlRoleDefinitionPermissions_traverse. simpl.
  unfold expandPermission. simpl.
  destruct (Permission.DataActions p); reflexivity.
Qed.


(** ** The flattens of the restorable accounts *)

Lemma flattenLocations_Some (input : slice RestorableLocationResource.t) :
  flattenCosmosDbRestorableDatabaseAccountsRestorableLocations (Some input)
  = Ok (Slice (map restorableLocationEntry (elems input))).
Proof.
  unfold flattenCosmosDbRestorableDatabaseAccountsRestorableLocations. simpl.
  destruct (elems input) as [|x l] eqn:Hl; [reflexivity|].
  cbn [length Nat.eqb]. f_equal.
  exact (fold_left_append restorableLocationEntry (x :: l) make0).
Qed.

Lemma flatten_accounts_loop (accountName : string)
    (l : list RestorableDatabaseAccountGetResult) (acc : list value) :
  fold_left
    (fun acc item =>
       rbind acc (fun result =>
       match GetResults.Properties item with
       | Some props =>
           match RestorableDatabaseAccountProperties.AccountName props with
           | Some name =>
               if String.eqb name accountName then
                 rbind (flattenCosmosDbRestorableDatabaseAccountsRestorableLocations
                          (RestorableDatabaseAccountProperties.RestorableLocations props))
                   (fun locations =>
                      Ok (append result
                            (VMap [("id", VString (stringOrZero (GetResults.Id item)));
                                   ("api_type",
                                     VString (stringOrZero
                                       (RestorableDatabaseAccountProperties.ApiType props)));
                                   ("creation_time",
                                     VString (stringOrZero
                                       (RestorableDatabaseAccountProperties.CreationTime props)));
                                   ("deletion_time",
                                     VString (stringOrZero
                                       (RestorableDatabaseAccountProperties.DeletionTime props)));
                                   ("restorable_locations", VList (elems locations))])))
               else Ok result
           | None => Ok result
           end
       | None => Ok result
       end))
    l (Ok (Slice acc))
  = if existsb (lacksLocations accountName) l then Panicked
    else Ok (Slice (acc ++ map restorableAccountEntry (List.filter (accountMatches accountName) l))).
Proof.
  revert acc. induction l as [|item l IH]; intros acc.
  - cbn. now rewrite app_nil_r.
  - cbn [fold_left existsb List.filter].
    set (bad := existsb _ l) in *. set (kept := List.filter _ l) in *.
    unfold lacksLocations, accountMatches, locationsOf.
    destruct item as [id [[name apiType creationTime deletionTime locations]|]];
      cbn [rbind GetResults.Properties GetResults.Id andb orb
           RestorableDatabaseAccountProperties.AccountName
           RestorableDatabaseAccountProperties.RestorableLocations];
      [|rewrite IH; reflexivity].
    destruct name as [name|]; cbn [andb orb]; [|rewrite IH; reflexivity].
    destruct (String.eqb name accountName); cbn [andb orb]; [|rewrite IH; reflexivity].
    destruct locations as [locations|]; cbn [isNil andb orb].
    + rewrite flattenLocations_Some. cbn [rbind elems].
      unfold append. cbn [elems]. rewrite IH. cbn [map].
      now rewrite <- app_assoc.
    + cbn [flattenCosmosDbRestorableDatabaseAccountsRestorableLocations deref rbind].
      apply (fold_left_Panicked
               (fun result item =>
                  match GetResults.Properties item with
                  | Some props =>
                      match RestorableDatabaseAccountProperties.AccountName props with
                      | Some name =>
                          if String.eqb name accountName then
                            rbind (flattenCosmosDbRestorableDatabaseAccountsRestorableLocations
                                     (RestorableDatabaseAccountProperties.RestorableLocations
                                        props))
                              (fun locations =>
                                 Ok (append result
                                       (VMap [("id", VString (stringOrZero (GetResults.Id item)));
                                              ("api_type",
                                                VString (stringOrZero
                                                  (RestorableDatabaseAccountProperties.ApiType
                                                     props)));
                                              ("creation_time",
                                                VString (stringOrZero
                                                  (RestorableDatabaseAccountProperties.CreationTime
                                                     props)));
                                              ("deletion_time",
                                                VString (stringOrZero
                                                  (RestorableDatabaseAccountProperties.DeletionTime
                                                     props)));
                                              ("restorable_locations",
                                                VList (elems locations))])))
                          else Ok result
                      | None => Ok result
                      end
                  | None => Ok result
                  end)).
Qed.

(** X24.  The two flattens of the restorable accounts, on a pointer that is
    not nil.  The flatten of the locations never panics and returns a slice
    that is not nil, with one entry per location, in order; a nil field
    becomes the empty string.  The flatten of the accounts keeps the
    accounts of the name asked for, in order, one entry each, and drops the
    others; it panics exactly when one of the accounts it keeps has no
    restorable locations, because it hands that nil pointer to the flatten
    of the locations. *)
Theorem flatten_accounts_filters :
  (forall input : slice RestorableLocationResource.t,
     flattenCosmosDbRestorableDatabaseAccountsRestorableLocations (Some input)
     = Ok (Slice (map restorableLocationEntry (elems input)))) /\
  (forall (input : slice RestorableDatabaseAccountGetResult) (accountName : string),
     flattenCosmosDbRestorableDatabaseAccounts (Some input) accountName
     = if existsb (lacksLocations accountName) (elems input) then Panicked
       else Ok (Slice (map restorableAccountEntry
                         (List.filter (accountMatches accountName) (elems input))))).
Proof.
  split; [exact flattenLocations_Some|].
  intros input accountName.
  unfold flattenCosmosDbRestorableDatabaseAccounts. cbn [deref rbind].
  destruct (elems input) as [|x l] eqn:Hl; [reflexivity|].
  cbn [length Nat.eqb]. unfold make0.
  exact (flatten_accounts_loop accountName (x :: l) []).
Qed.


(** ** Running a handler step by step *)

Section Stepping.
Context {W P TG TU : Type}.
Variable pkg : Imports W P TG TU.

Lemma bind_bind {A B C} (c : M W A) (k1 : A -> M W B) (k2 : B -> M W C) st :
  bind (bind c k1) k2 st = bind c (fun a => bind (k1 a) k2) st.
Proof.
  unfold bind. destruct (c st) as [[[a|e|] s] t]; try reflexivity.
  destruct (k1 a s) as [[[b|e|] s'] t']; try reflexivity.
  destruct (k2 b s') as [[o s''] t'']. now rewrite app_assoc.
Qed.

Lemma bind_ret {A B} (a : A) (k : A -> M W B) st : bind (ret a) k st = k a st.
Proof. unfold bind, ret. now destruct (k a st) as [[o s] t]. Qed.

Lemma bind_return_ {A B} e (k : A -> M W B) st :
  bind (return_ e) k st = (Return e, st, []).
Proof. reflexivity. Qed.

Lemma bind_panic {A B} (k : A -> M W B) st : bind panic k st = (Panic, st, []).
Proof. reflexivity. Qed.

Lemma bind_getData {B} (k : ResourceData -> M W B) st :
  bind getData k st = k (rd st) st.
Proof. unfold bind, getData. now destruct (k (rd st) st) as [[o s] t]. Qed.

Lemma bind_putData {B} d (k : unit -> M W B) st :
  bind (putData d) k st = k tt {| rd := d; world := world st |}.
Proof. unfold bind, putData. now destruct (k tt _) as [[o s] t]. Qed.

Lemma bind_emit {B} e (k : unit -> M W B) st :
  bind (emit e) k st = pre [e] (k tt st).
Proof. unfold bind, emit, pre. now destruct (k tt st) as [[o s] t]. Qed.

Lemma bind_d_SetId {B} id (k : unit -> M W B) st :
  bind (d_SetId id) k st
  = pre [ESetId id] (k tt {| rd := setId (rd st) id; world := world st |}).
Proof. unfold bind, d_SetId, pre. now destruct (k tt _) as [[o s] t]. Qed.

Lemma bind_d_Set {B} key v (k : option error -> M W B) st :
  bind (d_Set pkg key v) k st
  = k (schemaSet pkg key v)
      {| rd := setChecked (schemaSet pkg) (rd st) key v; world := world st |}.
Proof. unfold bind, d_Set. now destruct (k _ _) as [[o s] t]. Qed.

Lemma bind_callGet {R B} op ids (f : W -> (Response.t R * option error) * W)
    (k : Response.t R * option error -> M W B) st resp err w :
  f (world st) = ((resp, err), w) ->
  bind (callGet op ids f) k st
  = pre [ECall op ids (Response.HttpResponse resp) err]
      (k (resp, err) {| rd := rd st; world := w |}).
Proof.
  intros Hf. unfold bind, callGet, pre. rewrite Hf.
  now destruct (k _ _) as [[o s] t].
Qed.

Lemma bind_callLro {B} op ids (f : W -> (Future.t P * option error) * W)
    (k : Future.t P * option error -> M W B) st future err w :
  f (world st) = ((future, err), w) ->
  bind (callLro op ids f) k st
  = pre [ECall op ids (Future.HttpResponse future) err]
      (k (future, err) {| rd := rd st; world := w |}).
Proof.
  intros Hf. unfold bind, callLro, pre. rewrite Hf.
  now destruct (k _ _) as [[o s] t].
Qed.

Lemma bind_poll {B} op p (k : option error -> M W B) st err w :
  PollUntilDone pkg p (world st) = (err, w) ->
  bind (poll pkg op p) k st
  = pre [EPoll op err] (k err {| rd := rd st; world := w |}).
Proof.
  intros Hf. unfold bind, poll, pre. rewrite Hf.
  now destruct (k _ _) as [[o s] t].
Qed.

Lemma bind_uuid {B} (k : string * option error -> M W B) st r w :
  GenerateUUID pkg (world st) = (r, w) ->
  bind (uuid_GenerateUUID pkg) k st = k r {| rd := rd st; world := w |}.
Proof.
  intros Hf. unfold bind, uuid_GenerateUUID. rewrite Hf.
  now destruct (k _ _) as [[o s] t].
Qed.

Lemma defer_apply {A} f (body : M W A) st : defer f body st = post [f] (body st).
Proof. unfold defer, post. now destruct (body st) as [[o s] t]. Qed.

Lemma return_apply {A} e (st : State W) : @return_ W A e st = (Return e, st, []).
Proof. reflexivity. Qed.

Lemma panic_apply {A} (st : State W) : @panic W A st = (Panic, st, []).
Proof. reflexivity. Qed.

Lemma pre_pre {X S} evs1 evs2 (r : X * S * list event) :
  pre evs1 (pre evs2 r) = pre (evs1 ++ evs2) r.
Proof. unfold pre. simpl. now rewrite app_assoc. Qed.

Lemma finish_pre evs (r : outcome Empty_set * State W * list event) :
  finish (pre evs r) = pre evs (finish r).
Proof. destruct r as [[[[]|e|] s] t]; reflexivity. Qed.

Lemma finish_post evs (r : outcome Empty_set * State W * list event) :
  finish (post evs r) = post evs (finish r).
Proof. destruct r as [[[[]|e|] s] t]; reflexivity. Qed.

Lemma resultOf_pre evs (r : result (option error) * State W * list event) :
  resultOf (pre evs r) = resultOf r.
Proof. reflexivity. Qed.

Lemma stateOf_pre evs (r : result (option error) * State W * list event) :
  stateOf (pre evs r) = stateOf r.
Proof. reflexivity. Qed.

Lemma traceOf_pre evs (r : result (option error) * State W * list event) :
  traceOf (pre evs r) = evs ++ traceOf r.
Proof. reflexivity. Qed.

Lemma resultOf_post evs (r : result (option error) * State W * list event) :
  resultOf (post evs r) = resultOf r.
Proof. reflexivity. Qed.

Lemma stateOf_post evs (r : result (option error) * State W * list event) :
  stateOf (post evs r) = stateOf r.
Proof. reflexivity. Qed.

Lemma traceOf_post evs (r : result (option error) * State W * list event) :
  traceOf (post evs r) = traceOf r ++ evs.
Proof. reflexivity. Qed.

End Stepping.

(** Case analysis on the scrutinee that is evaluated first in a nest of
    matches, unless a hypothesis already tells its value. *)
Ltac destruct_first x :=
  lazymatch x with
  | match ?y with _ => _ end => destruct_first y
  | negb ?y => destruct_first y
  | _ =>
      first [ match goal with H : x = _ |- _ => rewrite H end
            | destruct x eqn:? ]
  end.

Ltac go_norm :=
  cbv beta iota zeta;
  cbn [world rd fst snd app negb].

(** The statement [c] at the head of the handler under execution, with its
    continuation [k], from the state [st]. *)
Ltac go_head c k st :=
  lazymatch c with
  | bind ?c1 ?k1 => rewrite (bind_bind c1 k1 k st)
  | getData => rewrite (bind_getData k st)
  | ret ?a => rewrite (bind_ret a k st)
  | return_ ?e => rewrite (bind_return_ e k st)
  | panic => rewrite (bind_panic k st)
  | emit ?e => rewrite (bind_emit e k st)
  | d_SetId ?i => rewrite (bind_d_SetId i k st)
  | putData ?d => rewrite (bind_putData d k st)
  | d_Set ?pkg ?key ?v => rewrite (bind_d_Set pkg key v k st)
  | callGet ?op ?ids ?f =>
      first
        [ match goal with
          | H : f _ = ((?resp, ?err), ?w) |- _ =>
              rewrite (bind_callGet op ids f k st resp err w H)
          end
        | let H := fresh "Hcall" in
          destruct (f (world st)) as [[? ?] ?] eqn:H;
          rewrite (bind_callGet op ids f k st _ _ _ H) ]
  | callLro ?op ?ids ?f =>
      first
        [ match goal with
          | H : f _ = ((?future, ?err), ?w) |- _ =>
              rewrite (bind_callLro op ids f k st future err w H)
          end
        | let H := fresh "Hcall" in
          destruct (f (world st)) as [[? ?] ?] eqn:H;
          rewrite (bind_callLro op ids f k st _ _ _ H) ]
  | poll ?pkg ?op ?p =>
      first
        [ match goal with
          | H : PollUntilDone pkg p _ = (?err, ?w) |- _ =>
              rewrite (bind_poll pkg op p k st err w H)
          end
        | let H := fresh "Hpoll" in
          destruct (PollUntilDone pkg p (world st)) as [? ?] eqn:H;
          rewrite (bind_poll pkg op p k st _ _ H) ]
  | uuid_GenerateUUID ?pkg =>
      first
        [ match goal with
          | H : GenerateUUID pkg _ = (?r, ?w) |- _ =>
              rewrite (bind_uuid pkg k st r w H)
          end
        | let H := fresh "Huuid" in
          destruct (GenerateUUID pkg (world st)) as [[? ?] ?] eqn:H;
          rewrite (bind_uuid pkg k st _ _ H) ]
  | match ?x with _ => _ end => destruct_first x
  end.

(** One statement of the handler under execution. *)
Ltac go_step :=
  lazymatch goal with
  | |- context [bind ?c ?k ?st] => go_head c k st
  | |- context [defer ?f ?body ?st] => rewrite (defer_apply f body st)
  | |- context [@return_ ?W ?A ?e ?st] => rewrite (@return_apply W A e st)
  | |- context [@panic ?W ?A ?st] => rewrite (@panic_apply W A st)
  | |- context [pre ?evs (?o, ?s, ?t)] =>
      change (pre evs (o, s, t)) with (o, s, evs ++ t)
  | |- context [post ?evs (?o, ?s, ?t)] =>
      change (post evs (o, s, t)) with (o, s, t ++ evs)
  | |- context [finish (Return ?e, ?s, ?t)] =>
      change (finish (Return e, s, t)) with (Ok e, s, t)
  | |- context [finish (Panic, ?s, ?t)] =>
      change (finish (Panic, s, t)) with (@Panicked (option error), s, t)
  | |- context [finish (pre ?evs ?r)] => rewrite (finish_pre evs r)
  | |- context [finish (post ?evs ?r)] => rewrite (finish_post evs r)
  | |- context [match ?x with _ => _ end ?st] =>
      lazymatch type of st with State _ => destruct_first x end
  end;
  go_norm.

(** The string literals of the goal get names, which keeps the terms small. *)
Ltac name_strings :=
  repeat match goal with
         | |- context [String ?a ?s] =>
             let x := fresh "str" in set (x := String a s) in *
         end.

Ltac go_start :=
  unfold run, when, ifErr, parseOrReturn, parseOrNil, lift, locks_ByName, deref,
    andThen, orElse, rbind, isNil;
  name_strings;
  go_norm.


(** The handler is run to its end, or to the call of another handler. *)
Ltac go :=
  repeat go_step;
  cbn [resultOf stateOf traceOf pre post fst snd app].

Section HandlerProperties.
Context {W P TG TU : Type}.
Context `{!ResourceId ContainerId.t, !ResourceId TriggerId.t,
          !ResourceId UserDefinedFunctionId.t, !ResourceId StoredProcedureId.t,
          !ResourceId SqlDatabaseId.t, !ResourceId DatabaseAccountId.t,
          !ResourceId AccountId.t, !ResourceId SqlRoleDefinitionId.t}.
Variable meta : Client W P TG TU.
Variable pkg : Imports W P TG TU.

(** *** Read handlers *)

(** X1.  The six read handlers of the resources, when the GET fails: a 404
    clears the identifier and gives nil, any other error comes back wrapped
    with the identifier. *)
Theorem reads_on_GET_error :
  ReadOnGetError (resourceCosmosDbSQLTriggerRead meta pkg) (ParseTriggerID pkg)
    (SqlResourcesGetSqlTrigger (Cosmos_CosmosDBClient meta)) Op.GetSqlTrigger
    "retrieving CosmosDb SQLTrigger %q: %+v" (fun id => [show id]) /\
  ReadOnGetError (resourceCosmosDbSQLFunctionRead meta pkg)
    (ParseUserDefinedFunctionID pkg)
    (SqlResourcesGetSqlUserDefinedFunction (Cosmos_CosmosDBClient meta))
    Op.GetSqlUserDefinedFunction
    "retrieving CosmosDb SqlFunction %q: %+v" (fun id => [show id]) /\
  ReadOnGetError (resourceCosmosDbSQLStoredProcedureRead meta pkg)
    (ParseStoredProcedureID pkg)
    (SqlResourcesGetSqlStoredProcedure (Cosmos_CosmosDBClient meta))
    Op.GetSqlStoredProcedure
    "retrieving SQL Stored Procedure %q (Container %q / Database %q / Account %q): %+v"
    (fun id => [StoredProcedureId.StoredProcedureName id; StoredProcedureId.ContainerName id;
                StoredProcedureId.SqlDatabaseName id;
                StoredProcedureId.DatabaseAccountName id]) /\
  ReadOnGetError (resourceCosmosDbSQLDatabaseRead meta pkg) (ParseSqlDatabaseID pkg)
    (SqlResourcesGetSqlDatabase (Cosmos_CosmosDBClient meta)) Op.GetSqlDatabase
    "reading Cosmos SQL Database %q (Account: %q): %+v"
    (fun id => [SqlDatabaseId.SqlDatabaseName id; SqlDatabaseId.DatabaseAccountName id]) /\
  ReadOnGetError (resourceCosmosDbSQLRoleAssignmentRead meta pkg) (ParseAccountID pkg)
    (SqlResourcesGetSqlRoleAssignment (Cosmos_RbacsClient meta)) Op.GetSqlRoleAssignment
    "retrieving %s: %+v" (fun id => [show id]) /\
  ReadOnGetError (resourceCosmosDbSQLRoleDefinitionRead meta pkg)
    (ParseSqlRoleDefinitionID pkg)
    (SqlResourcesGetSqlRoleDefinition (Cosmos_RbacsClient meta)) Op.GetSqlRoleDefinition
    "retrieving %s: %+v" (fun id => [show id]).
Proof.
  repeat split; intros st id resp err w Hparse Hget.
  - unfold resourceCosmosDbSQLTriggerRead. go_start. go; reflexivity.
  - unfold resourceCosmosDbSQLFunctionRead. go_start. go; reflexivity.
  - unfold resourceCosmosDbSQLStoredProcedureRead. go_start. go; reflexivity.
  - unfold resourceCosmosDbSQLDatabaseRead. go_start. go; reflexivity.
  - unfold resourceCosmosDbSQLRoleAssignmentRead. go_start. go; reflexivity.
  - unfold resourceCosmosDbSQLRoleDefinitionRead. go_start. go; reflexivity.
Qed.

(** X3.  The six read handlers test the error of the GET but not its model:
    an answer with neither error nor model makes them panic on
    [resp.Model.Properties], after the one request. *)
Theorem reads_panic_on_nil_model :
  ReadPanicsOnNilModel (resourceCosmosDbSQLTriggerRead meta pkg) (ParseTriggerID pkg)
    (SqlResourcesGetSqlTrigger (Cosmos_CosmosDBClient meta)) Op.GetSqlTrigger /\
  ReadPanicsOnNilModel (resourceCosmosDbSQLFunctionRead meta pkg)
    (ParseUserDefinedFunctionID pkg)
    (SqlResourcesGetSqlUserDefinedFunction (Cosmos_CosmosDBClient meta))
    Op.GetSqlUserDefinedFunction /\
  ReadPanicsOnNilModel (resourceCosmosDbSQLStoredProcedureRead meta pkg)
    (ParseStoredProcedureID pkg)
    (SqlResourcesGetSqlStoredProcedure (Cosmos_CosmosDBClient meta))
    Op.GetSqlStoredProcedure /\
  ReadPanicsOnNilModel (resourceCosmosDbSQLDatabaseRead meta pkg) (ParseSqlDatabaseID pkg)
    (SqlResourcesGetSqlDatabase (Cosmos_CosmosDBClient meta)) Op.GetSqlDatabase /\
  ReadPanicsOnNilModel (resourceCosmosDbSQLRoleAssignmentRead meta pkg) (ParseAccountID pkg)
    (SqlResourcesGetSqlRoleAssignment (Cosmos_RbacsClient meta)) Op.GetSqlRoleAssignment /\
  ReadPanicsOnNilModel (resourceCosmosDbSQLRoleDefinitionRead meta pkg)
    (ParseSqlRoleDefinitionID pkg)
    (SqlResourcesGetSqlRoleDefinition (Cosmos_RbacsClient meta)) Op.GetSqlRoleDefinition.
Proof.
  repeat apply conj; intros st id resp w Hparse Hget Hmodel.
  - unfold resourceCosmosDbSQLTriggerRead. go_start. go. split; reflexivity.
  - unfold resourceCosmosDbSQLFunctionRead. go_start. go. split; reflexivity.
  - unfold resourceCosmosDbSQLStoredProcedureRead. go_start. go. split; reflexivity.
  - unfold resourceCosmosDbSQLDatabaseRead. go_start. go. split; reflexivity.
  - unfold resourceCosmosDbSQLRoleAssignmentRead. go_start. go. split; reflexivity.
  - unfold resourceCosmosDbSQLRoleDefinitionRead. go_start. go. split; reflexivity.
Qed.

(** X5.  No run of a read handler, of a resource or of a data source, sends
    a request that changes the remote state. *)
Theorem reads_never_mutate :
  NeverMutates (resourceCosmosDbSQLTriggerRead meta pkg) /\
  NeverMutates (resourceCosmosDbSQLFunctionRead meta pkg) /\
  NeverMutates (resourceCosmosDbSQLStoredProcedureRead meta pkg) /\
  NeverMutates (resourceCosmosDbSQLDatabaseRead meta pkg) /\
  NeverMutates (resourceCosmosDbSQLRoleAssignmentRead meta pkg) /\
  NeverMutates (resourceCosmosDbSQLRoleDefinitionRead meta pkg) /\
  NeverMutates (dataSourceCosmosDbSQLDatabaseRead meta pkg) /\
  NeverMutates (dataSourceCosmosDbSQLRoleDefinitionRead meta pkg).
Proof.
  repeat apply conj; intros st.
  - unfold resourceCosmosDbSQLTriggerRead. go_start. go; reflexivity.
  - unfold resourceCosmosDbSQLFunctionRead. go_start. go; reflexivity.
  - unfold resourceCosmosDbSQLStoredProcedureRead. go_start. go; reflexivity.
  - unfold resourceCosmosDbSQLDatabaseRead. go_start. go; reflexivity.
  - unfold resourceCosmosDbSQLRoleAssignmentRead. go_start. go; reflexivity.
  - unfold resourceCosmosDbSQLRoleDefinitionRead. go_start. go; reflexivity.
  - unfold dataSourceCosmosDbSQLDatabaseRead. go_start. go; reflexivity.
  - unfold dataSourceCosmosDbSQLRoleDefinitionRead. go_start. go; reflexivity.
Qed.


(** X2.  Every handler that starts from the stored identifier gives the
    parser's error back as it is when the identifier does not parse: no
    request is sent, no lock is taken, the state is untouched. *)
Theorem handlers_fail_on_bad_id :
  FailsOnBadId (resourceCosmosDbSQLTriggerRead meta pkg) (ParseTriggerID pkg) /\
  FailsOnBadId (resourceCosmosDbSQLTriggerDelete meta pkg) (ParseTriggerID pkg) /\
  FailsOnBadId (resourceCosmosDbSQLFunctionRead meta pkg) (ParseUserDefinedFunctionID pkg) /\
  FailsOnBadId (resourceCosmosDbSQLFunctionDelete meta pkg)
    (ParseUserDefinedFunctionID pkg) /\
  FailsOnBadId (resourceCosmosDbSQLStoredProcedureRead meta pkg)
    (ParseStoredProcedureID pkg) /\
  FailsOnBadId (resourceCosmosDbSQLStoredProcedureUpdate meta pkg)
    (ParseStoredProcedureID pkg) /\
  FailsOnBadId (resourceCosmosDbSQLStoredProcedureDelete meta pkg)
    (ParseStoredProcedureID pkg) /\
  FailsOnBadId (resourceCosmosDbSQLDatabaseRead meta pkg) (ParseSqlDatabaseID pkg) /\
  FailsOnBadId (resourceCosmosDbSQLDatabaseUpdate meta pkg) (ParseSqlDatabaseID pkg) /\
  FailsOnBadId (resourceCosmosDbSQLDatabaseDelete meta pkg) (ParseSqlDatabaseID pkg) /\
  FailsOnBadId (resourceCosmosDbSQLRoleAssignmentRead meta pkg) (ParseAccountID pkg) /\
  FailsOnBadId (resourceCosmosDbSQLRoleAssignmentUpdate meta pkg) (ParseAccountID pkg) /\
  FailsOnBadId (resourceCosmosDbSQLRoleAssignmentDelete meta pkg) (ParseAccountID pkg) /\
  FailsOnBadId (resourceCosmosDbSQLRoleDefinitionRead meta pkg)
    (ParseSqlRoleDefinitionID pkg) /\
  FailsOnBadId (resourceCosmosDbSQLRoleDefinitionUpdate meta pkg)
    (ParseSqlRoleDefinitionID pkg) /\
  FailsOnBadId (resourceCosmosDbSQLRoleDefinitionDelete meta pkg)
    (ParseSqlRoleDefinitionID pkg).
Proof.
  repeat apply conj; intros st err Hparse.
  - unfold resourceCosmosDbSQLTriggerRead. go_start. go. now destruct st.
  - unfold resourceCosmosDbSQLTriggerDelete. go_start. go. now destruct st.
  - unfold resourceCosmosDbSQLFunctionRead. go_start. go. now destruct st.
  - unfold resourceCosmosDbSQLFunctionDelete. go_start. go. now destruct st.
  - unfold resourceCosmosDbSQLStoredProcedureRead. go_start. go. now destruct st.
  - unfold resourceCosmosDbSQLStoredProcedureUpdate. go_start. go. now destruct st.
  - unfold resourceCosmosDbSQLStoredProcedureDelete. go_start. go. now destruct st.
  - unfold resourceCosmosDbSQLDatabaseRead. go_start. go. now destruct st.
  - unfold resourceCosmosDbSQLDatabaseUpdate. go_start. go. now destruct st.
  - unfold resourceCosmosDbSQLDatabaseDelete. go_start. go. now destruct st.
  - unfold resourceCosmosDbSQLRoleAssignmentRead. go_start. go. now destruct st.
  - unfold resourceCosmosDbSQLRoleAssignmentUpdate. go_start. go. now destruct st.
  - unfold resourceCosmosDbSQLRoleAssignmentDelete. go_start. go. now destruct st.
  - unfold resourceCosmosDbSQLRoleDefinitionRead. go_start. go. now destruct st.
  - unfold resourceCosmosDbSQLRoleDefinitionUpdate. go_start. go. now destruct st.
  - unfold resourceCosmosDbSQLRoleDefinitionDelete. go_start. go. now destruct st.
Qed.

(** X4.  A read of a trigger, a function, a stored procedure or a role
    assignment whose GET succeeds writes the fields of the identifier from
    the parsed identifier and the other fields from the answer, and leaves
    those other fields alone when the answer has no properties. *)
Theorem reads_write_fields :
  ReadWrites (resourceCosmosDbSQLTriggerRead meta pkg) (ParseTriggerID pkg)
    (SqlResourcesGetSqlTrigger (Cosmos_CosmosDBClient meta)) Op.GetSqlTrigger
    (schemaSet pkg)
    (fun id =>
       [("name", VString (TriggerId.TriggerName id));
        ("container_id",
          VString (ID (NewContainerID (TriggerId.SubscriptionId id)
                         (TriggerId.ResourceGroupName id) (TriggerId.DatabaseAccountName id)
                         (TriggerId.SqlDatabaseName id) (TriggerId.ContainerName id))))])
    (fun model =>
       match GetResults.Properties model with
       | Some props =>
           match GetProperties.Resource props with
           | Some res =>
               [("body", ofPtrString (SqlTriggerResource.Body res));
                ("operation", ofPtrString (SqlTriggerResource.TriggerOperation res));
                ("type", ofPtrString (SqlTriggerResource.TriggerType res))]
           | None => []
           end
       | None => []
       end) /\
  ReadWrites (resourceCosmosDbSQLFunctionRead meta pkg) (ParseUserDefinedFunctionID pkg)
    (SqlResourcesGetSqlUserDefinedFunction (Cosmos_CosmosDBClient meta))
    Op.GetSqlUserDefinedFunction (schemaSet pkg)
    (fun id =>
       [("name", VString (UserDefinedFunctionId.UserDefinedFunctionName id));
        ("container_id",
          VString (ID (NewContainerID (UserDefinedFunctionId.SubscriptionId id)
                         (UserDefinedFunctionId.ResourceGroupName id)
                         (UserDefinedFunctionId.DatabaseAccountName id)
                         (UserDefinedFunctionId.SqlDatabaseName id)
                         (UserDefinedFunctionId.ContainerName id))))])
    (fun model =>
       match GetResults.Properties model with
       | Some props =>
           match GetProperties.Resource props with
           | Some res => [("body", ofPtrString (SqlUserDefinedFunctionResource.Body res))]
           | None => []
           end
       | None => []
       end) /\
  ReadWrites (resourceCosmosDbSQLStoredProcedureRead meta pkg) (ParseStoredProcedureID pkg)
    (SqlResourcesGetSqlStoredProcedure (Cosmos_CosmosDBClient meta))
    Op.GetSqlStoredProcedure (schemaSet pkg)
    (fun id =>
       [("resource_group_name", VString (StoredProcedureId.ResourceGroupName id));
        ("account_name", VString (StoredProcedureId.DatabaseAccountName id));
        ("database_name", VString (StoredProcedureId.SqlDatabaseName id));
        ("container_name", VString (StoredProcedureId.ContainerName id));
        ("name", VString (StoredProcedureId.StoredProcedureName id))])
    (fun model =>
       match GetResults.Properties model with
       | Some props =>
           match GetProperties.Resource props with
           | Some res => [("body", ofPtrString (SqlStoredProcedureResource.Body res))]
           | None => []
           end
       | None => []
       end) /\
  ReadWrites (resourceCosmosDbSQLRoleAssignmentRead meta pkg) (ParseAccountID pkg)
    (SqlResourcesGetSqlRoleAssignment (Cosmos_RbacsClient meta)) Op.GetSqlRoleAssignment
    (schemaSet pkg)
    (fun id =>
       [("name", VString (AccountId.RoleAssignmentId id));
        ("resource_group_name", VString (AccountId.ResourceGroupName id));
        ("account_name", VString (AccountId.DatabaseAccountName id))])
    (fun model =>
       match GetResults.Properties model with
       | Some props =>
           [("principal_id", ofPtrString (SqlRoleAssignmentResource.PrincipalId props));
            ("role_definition_id",
              ofPtrString (SqlRoleAssignmentResource.RoleDefinitionId props));
            ("scope", ofPtrString (SqlRoleAssignmentResource.Scope props))]
       | None => []
       end).
Proof.
  repeat apply conj; intros st id resp w model Hparse Hget Hmodel.
  - unfold resourceCosmosDbSQLTriggerRead. go_start. go; reflexivity.
  - unfold resourceCosmosDbSQLFunctionRead. go_start. go; reflexivity.
  - unfold resourceCosmosDbSQLStoredProcedureRead. go_start. go; reflexivity.
  - unfold resourceCosmosDbSQLRoleAssignmentRead. go_start. go; reflexivity.
Qed.

(** *** Delete handlers *)

(** X6.  The delete handlers of the trigger, the function, the role
    assignment and the role definition return every error of the delete
    request wrapped, a 404 included, without polling; the two role handlers
    do so inside the lock of the account. *)
Theorem deletes_fail_on_error :
  DeleteFailsOnError (resourceCosmosDbSQLTriggerDelete meta pkg) (ParseTriggerID pkg)
    (SqlResourcesDeleteSqlTrigger (Cosmos_CosmosDBClient meta)) Op.DeleteSqlTrigger
    (fun _ => None)
    "deleting CosmosDb SQLResourcesSQLTrigger %q: %+v" (fun id => [show id]) /\
  DeleteFailsOnError (resourceCosmosDbSQLFunctionDelete meta pkg)
    (ParseUserDefinedFunctionID pkg)
    (SqlResourcesDeleteSqlUserDefinedFunction (Cosmos_CosmosDBClient meta))
    Op.DeleteSqlUserDefinedFunction (fun _ => None)
    "deleting CosmosDb SqlFunction %q: %+v" (fun id => [show id]) /\
  DeleteFailsOnError (resourceCosmosDbSQLRoleAssignmentDelete meta pkg) (ParseAccountID pkg)
    (SqlResourcesDeleteSqlRoleAssignment (Cosmos_RbacsClient meta))
    Op.DeleteSqlRoleAssignment
    (fun id => Some (AccountId.DatabaseAccountName id, CosmosDbAccountResourceName pkg))
    "deleting %s: %+v" (fun id => [show id]) /\
  DeleteFailsOnError (resourceCosmosDbSQLRoleDefinitionDelete meta pkg)
    (ParseSqlRoleDefinitionID pkg)
    (SqlResourcesDeleteSqlRoleDefinition (Cosmos_RbacsClient meta))
    Op.DeleteSqlRoleDefinition
    (fun id => Some (SqlRoleDefinitionId.DatabaseAccountName id,
                     CosmosDbAccountResourceName pkg))
    "deleting %s: %+v" (fun id => [show id]).
Proof.
  repeat apply conj; intros st id future err w Hparse Hdel.
  - unfold resourceCosmosDbSQLTriggerDelete. go_start. go; reflexivity.
  - unfold resourceCosmosDbSQLFunctionDelete. go_start. go; reflexivity.
  - unfold resourceCosmosDbSQLRoleAssignmentDelete. go_start. go; reflexivity.
  - unfold resourceCosmosDbSQLRoleDefinitionDelete. go_start. go; reflexivity.
Qed.

(** X7.  The delete handlers of the stored procedure and of the SQL database
    drop a 404 of the delete request and go on to poll the poller of the
    failed request: they return nil exactly when that poll returns nil.  Any
    other error of the request is returned wrapped. *)
Theorem deletes_poll_after_not_found :
  DeletePollsAfterNotFound (resourceCosmosDbSQLStoredProcedureDelete meta pkg)
    (ParseStoredProcedureID pkg)
    (SqlResourcesDeleteSqlStoredProcedure (Cosmos_CosmosDBClient meta))
    (PollUntilDone pkg) Op.DeleteSqlStoredProcedure
    "deleting SQL Stored Procedure %q (Container %q / Database %q / Account %q): %+v"
    "waiting for deletion of SQL Stored Procedure %q (Container %q / Database %q / Account %q): %+v"
    (fun id => [StoredProcedureId.StoredProcedureName id; StoredProcedureId.ContainerName id;
                StoredProcedureId.SqlDatabaseName id;
                StoredProcedureId.DatabaseAccountName id]) /\
  DeletePollsAfterNotFound (resourceCosmosDbSQLDatabaseDelete meta pkg)
    (ParseSqlDatabaseID pkg)
    (SqlResourcesDeleteSqlDatabase (Cosmos_CosmosDBClient meta))
    (PollUntilDone pkg) Op.DeleteSqlDatabase
    "deleting Cosmos SQL Database %q (Account: %q): %+v"
    "waiting on delete future for Cosmos SQL Database %q (Account: %q): %+v"
    (fun id => [SqlDatabaseId.SqlDatabaseName id; SqlDatabaseId.DatabaseAccountName id]).
Proof.
  repeat apply conj; intros st id future err w perr w' Hparse Hdel Hpoll.
  - unfold resourceCosmosDbSQLStoredProcedureDelete. go_start. go; reflexivity.
  - unfold resourceCosmosDbSQLDatabaseDelete. go_start. go; reflexivity.
Qed.

(** X8.  When the delete request is accepted, each of the six delete
    handlers polls once and returns the error of the poll wrapped, or nil;
    the resource data, its identifier included, is left as it was. *)
Theorem deletes_accepted :
  DeleteAccepted (resourceCosmosDbSQLTriggerDelete meta pkg) (ParseTriggerID pkg)
    (SqlResourcesDeleteSqlTrigger (Cosmos_CosmosDBClient meta)) (PollUntilDone pkg)
    Op.DeleteSqlTrigger (fun _ => None)
    "waiting for deletion of the CosmosDb SQLResourcesSQLTrigger %q: %+v"
    (fun id => [show id]) /\
  DeleteAccepted (resourceCosmosDbSQLFunctionDelete meta pkg)
    (ParseUserDefinedFunctionID pkg)
    (SqlResourcesDeleteSqlUserDefinedFunction (Cosmos_CosmosDBClient meta))
    (PollUntilDone pkg) Op.DeleteSqlUserDefinedFunction (fun _ => None)
    "waiting for deletion of the CosmosDb SqlFunction %q: %+v" (fun id => [show id]) /\
  DeleteAccepted (resourceCosmosDbSQLStoredProcedureDelete meta pkg)
    (ParseStoredProcedureID pkg)
    (SqlResourcesDeleteSqlStoredProcedure (Cosmos_CosmosDBClient meta))
    (PollUntilDone pkg) Op.DeleteSqlStoredProcedure (fun _ => None)
    "waiting for deletion of SQL Stored Procedure %q (Container %q / Database %q / Account %q): %+v"
    (fun id => [StoredProcedureId.StoredProcedureName id; StoredProcedureId.ContainerName id;
                StoredProcedureId.SqlDatabaseName id;
                StoredProcedureId.DatabaseAccountName id]) /\
  DeleteAccepted (resourceCosmosDbSQLDatabaseDelete meta pkg) (ParseSqlDatabaseID pkg)
    (SqlResourcesDeleteSqlDatabase (Cosmos_CosmosDBClient meta)) (PollUntilDone pkg)
    Op.DeleteSqlDatabase (fun _ => None)
    "waiting on delete future for Cosmos SQL Database %q (Account: %q): %+v"
    (fun id => [SqlDatabaseId.SqlDatabaseName id; SqlDatabaseId.DatabaseAccountName id]) /\
  DeleteAccepted (resourceCosmosDbSQLRoleAssignmentDelete meta pkg) (ParseAccountID pkg)
    (SqlResourcesDeleteSqlRoleAssignment (Cosmos_RbacsClient meta)) (PollUntilDone pkg)
    Op.DeleteSqlRoleAssignment
    (fun id => Some (AccountId.DatabaseAccountName id, CosmosDbAccountResourceName pkg))
    "waiting for the completion of the deleting of %s: %+v" (fun id => [show id]) /\
  DeleteAccepted (resourceCosmosDbSQLRoleDefinitionDelete meta pkg)
    (ParseSqlRoleDefinitionID pkg)
    (SqlResourcesDeleteSqlRoleDefinition (Cosmos_RbacsClient meta)) (PollUntilDone pkg)
    Op.DeleteSqlRoleDefinition
    (fun id => Some (SqlRoleDefinitionId.DatabaseAccountName id,
                     CosmosDbAccountResourceName pkg))
    "waiting for deletion of %s: %+v" (fun id => [show id]).
Proof.
  repeat apply conj; intros st id future w perr w' Hparse Hdel Hpoll.
  - unfold resourceCosmosDbSQLTriggerDelete. go_start. go; reflexivity.
  - unfold resourceCosmosDbSQLFunctionDelete. go_start. go; reflexivity.
  - unfold resourceCosmosDbSQLStoredProcedureDelete. go_start. go; reflexivity.
  - unfold resourceCosmosDbSQLDatabaseDelete. go_start. go; reflexivity.
  - unfold resourceCosmosDbSQLRoleAssignmentDelete. go_start. go; reflexivity.
  - unfold resourceCosmosDbSQLRoleDefinitionDelete. go_start. go; reflexivity.
Qed.


(** *** Create handlers *)

(** X9.  The create handlers of the trigger, the function, the role
    assignment and the role definition stop after the probe when its answer
    is not a 404: with the "checking" error when the probe failed, with the
    import-as-exists error naming the identifier when it did not.  No other
    request is sent; the two role handlers release the lock. *)
Theorem creates_refuse_existing :
  CreateRefusesExisting (resourceCosmosDbSQLTriggerCreateUpdate meta pkg)
    (fun st id w0 =>
       rdIsNew (rd st) = true /\ triggerIdBuilt meta pkg (rd st) id /\ w0 = world st)
    (SqlResourcesGetSqlTrigger (Cosmos_CosmosDBClient meta)) Op.GetSqlTrigger
    (fun _ => None)
    "azurerm_cosmosdb_sql_trigger"
    "checking for existing CosmosDb SQLTrigger %q: %+v" /\
  CreateRefusesExisting (resourceCosmosDbSQLFunctionCreateUpdate meta pkg)
    (fun st id w0 =>
       rdIsNew (rd st) = true /\ functionIdBuilt meta pkg (rd st) id /\ w0 = world st)
    (SqlResourcesGetSqlUserDefinedFunction (Cosmos_CosmosDBClient meta))
    Op.GetSqlUserDefinedFunction (fun _ => None)
    "azurerm_cosmosdb_sql_function"
    "checking for existing CosmosDb SqlFunction %q: %+v" /\
  CreateRefusesExisting (resourceCosmosDbSQLRoleAssignmentCreate meta pkg)
    (roleAssignmentIdBuilt meta pkg)
    (SqlResourcesGetSqlRoleAssignment (Cosmos_RbacsClient meta)) Op.GetSqlRoleAssignment
    (fun id => Some (AccountId.DatabaseAccountName id, CosmosDbAccountResourceName pkg))
    "azurerm_cosmosdb_sql_role_assignment"
    "checking for presence of existing %s: %+v" /\
  CreateRefusesExisting (resourceCosmosDbSQLRoleDefinitionCreate meta pkg)
    (roleDefinitionIdBuilt meta pkg)
    (SqlResourcesGetSqlRoleDefinition (Cosmos_RbacsClient meta)) Op.GetSqlRoleDefinition
    (fun id => Some (SqlRoleDefinitionId.DatabaseAccountName id,
                     CosmosDbAccountResourceName pkg))
    "azurerm_cosmosdb_sql_role_definition"
    "checking for presence of existing %s: %+v".
Proof.
  repeat apply conj; intros st id w0 existing err w Hready Hget H404.
  - destruct Hready as (Hnew & (c & Hc & ->) & ->).
    unfold resourceCosmosDbSQLTriggerCreateUpdate. go_start. go; reflexivity.
  - destruct Hready as (Hnew & (c & Hc & ->) & ->).
    unfold resourceCosmosDbSQLFunctionCreateUpdate. go_start. go; reflexivity.
  - destruct Hready as (name & Hname & ->). unfold namedOrGenerated in Hname.
    unfold resourceCosmosDbSQLRoleAssignmentCreate. go_start.
    destruct (String.eqb (getString (rd st) _) _) eqn:Hempty.
    + go; reflexivity.
    + destruct Hname as [-> ->]. go; reflexivity.
  - destruct Hready as (name & Hname & ->). unfold namedOrGenerated in Hname.
    unfold resourceCosmosDbSQLRoleDefinitionCreate. go_start.
    destruct (String.eqb (getString (rd st) _) _) eqn:Hempty.
    + go; reflexivity.
    + destruct Hname as [-> ->]. go; reflexivity.
Qed.




(** X13.  The create-or-update handlers of the trigger and of the function
    drop the error of [ParseContainerID]: a container identifier that does
    not parse makes them panic on the nil identifier, before any request. *)
Theorem createUpdate_panics_on_bad_container :
  PanicsOnBadConfig (resourceCosmosDbSQLTriggerCreateUpdate meta pkg)
    (ParseContainerID pkg) "container_id" /\
  PanicsOnBadConfig (resourceCosmosDbSQLFunctionCreateUpdate meta pkg)
    (ParseContainerID pkg) "container_id".
Proof.
  repeat apply conj; intros st err Hparse.
  - unfold resourceCosmosDbSQLTriggerCreateUpdate. go_start. go. now destruct st.
  - unfold resourceCosmosDbSQLFunctionCreateUpdate. go_start. go. now destruct st.
Qed.

(** X12.  An update sends no existence probe: the first request of the
    trigger and function handlers on a resource that is not new, and of the
    four update handlers, is the create-or-update request itself. *)
Theorem updates_send_no_probe :
  FirstRequestIs (resourceCosmosDbSQLTriggerCreateUpdate meta pkg)
    (fun st => rdIsNew (rd st) = false) Op.CreateUpdateSqlTrigger /\
  FirstRequestIs (resourceCosmosDbSQLFunctionCreateUpdate meta pkg)
    (fun st => rdIsNew (rd st) = false) Op.CreateUpdateSqlUserDefinedFunction /\
  FirstRequestIs (resourceCosmosDbSQLStoredProcedureUpdate meta pkg)
    (fun _ => True) Op.CreateUpdateSqlStoredProcedure /\
  FirstRequestIs (resourceCosmosDbSQLDatabaseUpdate meta pkg)
    (fun _ => True) Op.CreateUpdateSqlDatabase /\
  FirstRequestIs (resourceCosmosDbSQLRoleAssignmentUpdate meta pkg)
    (fun _ => True) Op.CreateUpdateSqlRoleAssignment /\
  FirstRequestIs (resourceCosmosDbSQLRoleDefinitionUpdate meta pkg)
    (fun _ => True) Op.CreateUpdateSqlRoleDefinition.
Proof.
  repeat apply conj; intros st Hcond.
  - unfold resourceCosmosDbSQLTriggerCreateUpdate. go_start.
    go; cbn [firstCall]; first [reflexivity | exact I].
  - unfold resourceCosmosDbSQLFunctionCreateUpdate. go_start.
    go; cbn [firstCall]; first [reflexivity | exact I].
  - unfold resourceCosmosDbSQLStoredProcedureUpdate. go_start.
    go; cbn [firstCall]; first [reflexivity | exact I].
  - unfold resourceCosmosDbSQLDatabaseUpdate. go_start.
    go; cbn [firstCall]; first [reflexivity | exact I].
  - unfold resourceCosmosDbSQLRoleAssignmentUpdate. go_start.
    go; cbn [firstCall]; first [reflexivity | exact I].
  - unfold resourceCosmosDbSQLRoleDefinitionUpdate. go_start.
    go; cbn [firstCall]; first [reflexivity | exact I].
Qed.

(** X18.  The create handlers of the role assignment and of the role
    definition generate a UUID when the configured name is empty; when the
    generation fails they return its error wrapped, before taking the lock
    and before any request. *)
Theorem role_creates_fail_on_uuid :
  FailsOnUUID (resourceCosmosDbSQLRoleAssignmentCreate meta pkg) (GenerateUUID pkg)
    "name" "generating UUID for Cosmos DB SQL Role Assignment: %+v" /\
  FailsOnUUID (resourceCosmosDbSQLRoleDefinitionCreate meta pkg) (GenerateUUID pkg)
    "role_definition_id" "generating UUID for Cosmos DB SQL Role Definition: %+v".
Proof.
  repeat apply conj; intros st uuid err w Hname Hgen.
  - unfold resourceCosmosDbSQLRoleAssignmentCreate. go_start. go_step.
    rewrite Hname. cbn [String.eqb]. go; reflexivity.
  - unfold resourceCosmosDbSQLRoleDefinitionCreate. go_start. go_step.
    rewrite Hname. cbn [String.eqb]. go; reflexivity.
Qed.


(** *** From the write to the read *)







(** *** The lock of the account *)

Lemma lockedSection_of name kind tr :
  bodyThenUnlock name kind tr -> lockedSection name kind (ELock name kind :: tr).
Proof.
  intros Hbody.
  assert (exists body, tr = body ++ [EUnlock name kind] /\
                       Forall (fun e => isLockEvent e = false) body) as (body & -> & Hall).
  { induction Hbody as [|e tr He _ (body & -> & Hall)|body Hall].
    - exists []. split; [reflexivity | constructor].
    - exists (e :: body). split; [reflexivity | now constructor].
    - exists body. split; [reflexivity | assumption]. }
  exists body. split; [reflexivity | assumption].
Qed.

Lemma role_reads_never_lock :
  NeverLocks (resourceCosmosDbSQLRoleAssignmentRead meta pkg) /\
  NeverLocks (resourceCosmosDbSQLRoleDefinitionRead meta pkg).
Proof.
  repeat apply conj; intros st.
  - unfold resourceCosmosDbSQLRoleAssignmentRead. go_start. go; repeat constructor.
  - unfold resourceCosmosDbSQLRoleDefinitionRead. go_start. go; repeat constructor.
Qed.

Ltac body_then_unlock Hread :=
  repeat first [ apply btu_unlock
               | apply btu_tail; apply Hread
               | apply btu_event; [reflexivity |] ].

Ltac locks_account Hread :=
  first [ left; reflexivity
        | right; eexists; split;
          [ | apply lockedSection_of; body_then_unlock Hread ];
          first [ reflexivity
                | eexists; split; [first [eassumption | reflexivity] | reflexivity] ] ].

(** X17.  The create, update and delete handlers of the role assignment and
    of the role definition take the lock of the database account once,
    before their first request, and release it last on every way out, the
    error returns and the panics included; a run that fails before the lock
    sends no request at all. *)
Theorem role_handlers_lock_account :
  LocksAccount (resourceCosmosDbSQLRoleAssignmentCreate meta pkg)
    (CosmosDbAccountResourceName pkg)
    (fun st name => name = getString (rd st) "account_name") /\
  LocksAccount (resourceCosmosDbSQLRoleAssignmentUpdate meta pkg)
    (CosmosDbAccountResourceName pkg)
    (fun st name => exists id, ParseAccountID pkg (rdId (rd st)) = inr id /\
                               name = AccountId.DatabaseAccountName id) /\
  LocksAccount (resourceCosmosDbSQLRoleAssignmentDelete meta pkg)
    (CosmosDbAccountResourceName pkg)
    (fun st name => exists id, ParseAccountID pkg (rdId (rd st)) = inr id /\
                               name = AccountId.DatabaseAccountName id) /\
  LocksAccount (resourceCosmosDbSQLRoleDefinitionCreate meta pkg)
    (CosmosDbAccountResourceName pkg)
    (fun st name => name = getString (rd st) "account_name") /\
  LocksAccount (resourceCosmosDbSQLRoleDefinitionUpdate meta pkg)
    (CosmosDbAccountResourceName pkg)
    (fun st name => exists id, ParseSqlRoleDefinitionID pkg (rdId (rd st)) = inr id /\
                               name = SqlRoleDefinitionId.DatabaseAccountName id) /\
  LocksAccount (resourceCosmosDbSQLRoleDefinitionDelete meta pkg)
    (CosmosDbAccountResourceName pkg)
    (fun st name => exists id, ParseSqlRoleDefinitionID pkg (rdId (rd st)) = inr id /\
                               name = SqlRoleDefinitionId.DatabaseAccountName id).
Proof.
  destruct role_reads_never_lock as [Hassignment Hdefinition].
  repeat apply conj; intros st.
  - unfold resourceCosmosDbSQLRoleAssignmentCreate. go_start.
    go; locks_account Hassignment.
  - unfold resourceCosmosDbSQLRoleAssignmentUpdate. go_start.
    go; locks_account Hassignment.
  - unfold resourceCosmosDbSQLRoleAssignmentDelete. go_start.
    go; locks_account Hassignment.
  - unfold resourceCosmosDbSQLRoleDefinitionCreate. go_start.
    go; locks_account Hdefinition.
  - unfold resourceCosmosDbSQLRoleDefinitionUpdate. go_start.
    go; locks_account Hdefinition.
  - unfold resourceCosmosDbSQLRoleDefinitionDelete. go_start.
    go; locks_account Hdefinition.
Qed.


(** *** The SQL database, past the GET *)

Ltac account_answered H :=
  destruct H as (resp & w & model & Hget & Hmodel & Hacc & -> & ->);
  unfold accountIdOf, databaseFields, startOf, accountIdMissing, sqlDatabaseIdOf in *.

(** X16.  The two reads of a SQL database, of the resource and of the data
    source, send no throughput request for a serverless account: they
    return nil after the account request. *)
Theorem database_reads_skip_throughput_when_serverless :
  SkipsThroughputWhenServerless meta pkg (resourceCosmosDbSQLDatabaseRead meta pkg)
    (fun st id => ParseSqlDatabaseID pkg (rdId (rd st)) = inr id) false /\
  SkipsThroughputWhenServerless meta pkg (dataSourceCosmosDbSQLDatabaseRead meta pkg)
    (fun st id => id = sqlDatabaseIdOf meta (rd st)) true.
Proof.
  repeat apply conj;
    intros st id d1 w1 accResp accModel tr Hid Hreached Haccmodel Hmissing Hserverless;
    account_answered Hreached;
    destruct (GetResults.Id accModel) as [s|] eqn:Hs; try discriminate.
  - unfold resourceCosmosDbSQLDatabaseRead. go_start. go; reflexivity.
  - subst id. unfold dataSourceCosmosDbSQLDatabaseRead. go_start. go; reflexivity.
Qed.


(** X19.  The two reads of a SQL database stop at the account request when
    it fails or when its answer has no usable [Id]: the error comes back,
    the fields of the database stay written, and no throughput request is
    sent.  An answer with neither error nor model is a panic. *)
Theorem database_reads_stop_at_account :
  StopsAtAccount meta pkg (resourceCosmosDbSQLDatabaseRead meta pkg)
    (fun st id => ParseSqlDatabaseID pkg (rdId (rd st)) = inr id) false /\
  StopsAtAccount meta pkg (dataSourceCosmosDbSQLDatabaseRead meta pkg)
    (fun st id => id = sqlDatabaseIdOf meta (rd st)) true.
Proof.
  repeat apply conj;
    intros st id d1 w1 accResp aerr tr Hid Hreached;
    account_answered Hreached;
    (destruct aerr as [e|];
     [|destruct (Response.Model accResp) as [accModel|] eqn:Haccmodel;
       [intros Hmissing; destruct (GetResults.Id accModel) as [s|] eqn:Hs|]]).
  - unfold resourceCosmosDbSQLDatabaseRead. go_start. go; reflexivity.
  - unfold resourceCosmosDbSQLDatabaseRead. go_start. go; reflexivity.
  - unfold resourceCosmosDbSQLDatabaseRead. go_start. go; reflexivity.
  - unfold resourceCosmosDbSQLDatabaseRead. go_start. go; reflexivity.
  - subst id. unfold dataSourceCosmosDbSQLDatabaseRead. go_start. go; reflexivity.
  - subst id. unfold dataSourceCosmosDbSQLDatabaseRead. go_start. go; reflexivity.
  - subst id. unfold dataSourceCosmosDbSQLDatabaseRead. go_start. go; reflexivity.
  - subst id. unfold dataSourceCosmosDbSQLDatabaseRead. go_start. go; reflexivity.
Qed.

(** X20.  On an account that is not serverless the two reads of a SQL
    database send one throughput request and end: a 404 writes nil to
    [throughput] and [autoscale_settings] and gives nil, any other error
    comes back wrapped, a model is handed to
    [SetResourceDataThroughputFromResponse], and an answer with neither
    error nor model is a panic. *)
Theorem database_reads_throughput :
  ReadsThroughput meta pkg (resourceCosmosDbSQLDatabaseRead meta pkg)
    (fun st id => ParseSqlDatabaseID pkg (rdId (rd st)) = inr id) false /\
  ReadsThroughput meta pkg (dataSourceCosmosDbSQLDatabaseRead meta pkg)
    (fun st id => id = sqlDatabaseIdOf meta (rd st)) true.
Proof.
  repeat apply conj;
    intros st id d1 w1 accResp accModel tr tresp terr w2
      Hid Hreached Haccmodel Hmissing Hserverless Hthroughput;
    account_answered Hreached;
    destruct (GetResults.Id accModel) as [s|] eqn:Hs; try discriminate.
  - unfold resourceCosmosDbSQLDatabaseRead. go_start. go; reflexivity.
  - subst id. unfold dataSourceCosmosDbSQLDatabaseRead. go_start. go; reflexivity.
Qed.

(** X21.  The update of a SQL database.  The check of the throughput mode
    comes first and its error stops the handler before any request.  After
    the create-or-update request and its poll, the throughput request is
    sent only when the throughput changed; of its errors only a 404 stops
    the handler, any other is dropped and the poller of the failed request
    is polled; then the handler goes on to the read. *)
Theorem database_update_throughput :
  ChecksThroughputModeFirst pkg (resourceCosmosDbSQLDatabaseUpdate meta pkg) /\
  UpdateWithoutThroughput meta pkg (resourceCosmosDbSQLDatabaseUpdate meta pkg)
    (resourceCosmosDbSQLDatabaseRead meta pkg) /\
  UpdatesThroughput meta pkg (resourceCosmosDbSQLDatabaseUpdate meta pkg)
    (resourceCosmosDbSQLDatabaseRead meta pkg).
Proof.
  repeat apply conj.
  - intros st id e Hparse Hcheck.
    unfold resourceCosmosDbSQLDatabaseUpdate. go_start. go. now destruct st.
  - intros st id w1 tr (future & w & Hparse & Hcheck & Hput & Hpoll & ->) Hchange.
    unfold updatePayload in *.
    unfold resourceCosmosDbSQLDatabaseUpdate. go_start. go; reflexivity.
  - intros st id w1 tr (future & w & Hparse & Hcheck & Hput & Hpoll & ->) Hchange.
    unfold updatePayload in *.
    destruct (ExpandCosmosDBThroughputSettingsUpdateParameters pkg (rd st))
      as [parameters|] eqn:Hexpand.
    + intros tfuture terr w2 perr w3 Htput Htpoll.
      unfold resourceCosmosDbSQLDatabaseUpdate. go_start. go; reflexivity.
    + unfold resourceCosmosDbSQLDatabaseUpdate. go_start. go; reflexivity.
Qed.

(** *** Data sources *)

(** X22.  The data sources of the SQL database and of the role definition,
    when the GET fails: a 404 gives the error "was not found", any other
    error comes back wrapped; in both cases the identifier is neither
    written nor cleared and no field is touched. *)
Theorem dataSources_on_GET_error :
  DataSourceOnGetError (dataSourceCosmosDbSQLDatabaseRead meta pkg)
    (sqlDatabaseIdOf meta)
    (SqlResourcesGetSqlDatabase (Cosmos_CosmosDBClient meta)) Op.GetSqlDatabase
    "reading Cosmos SQL Database %q (Account: %q): %+v"
    (fun id => [SqlDatabaseId.SqlDatabaseName id; SqlDatabaseId.DatabaseAccountName id]) /\
  DataSourceOnGetError (dataSourceCosmosDbSQLRoleDefinitionRead meta pkg)
    (sqlRoleDefinitionIdOf meta)
    (SqlResourcesGetSqlRoleDefinition (Cosmos_RbacsClient meta)) Op.GetSqlRoleDefinition
    "retrieving %s: %+v" (fun id => [show id]).
Proof.
  repeat apply conj; intros st resp err w Hget;
    unfold sqlDatabaseIdOf, sqlRoleDefinitionIdOf in *.
  - unfold dataSourceCosmosDbSQLDatabaseRead. go_start. go; reflexivity.
  - unfold dataSourceCosmosDbSQLRoleDefinitionRead. go_start. go; reflexivity.
Qed.

(** X23.  The two reads of a role definition, of the resource and of the
    data source, when the GET succeeds with a model: the three fields of
    the identifier are written, then the four fields of the properties when
    there are properties, and the result is nil unless the schema refuses
    the flattened permissions; the data source writes the identifier
    first. *)
Theorem role_definition_reads_write_fields :
  ReadsRoleDefinition meta pkg (resourceCosmosDbSQLRoleDefinitionRead meta pkg)
    (fun st id => ParseSqlRoleDefinitionID pkg (rdId (rd st)) = inr id) false /\
  ReadsRoleDefinition meta pkg (dataSourceCosmosDbSQLRoleDefinitionRead meta pkg)
    (fun st id => id = sqlRoleDefinitionIdOf meta (rd st)) true.
Proof.
  repeat apply conj; intros st id resp w model Hid Hget Hmodel;
    unfold roleDefinitionFields, startOf, sqlRoleDefinitionIdOf, wrapErr in *.
  - unfold resourceCosmosDbSQLRoleDefinitionRead. go_start. go; reflexivity.
  - subst id. unfold dataSourceCosmosDbSQLRoleDefinitionRead. go_start. go; reflexivity.
Qed.


(** *** What the handlers never do *)

Lemma pollsAccepted_without_poll (tr : list event) :
  Forall (fun e => isPoll e = false) tr ->
  forall last, pollsAccepted last tr = true.
Proof.
  induction 1 as [|e tr He _ IH]; intros last; [reflexivity|].
  destruct e; try discriminate; cbn [pollsAccepted]; apply IH.
Qed.

Lemma reads_never_poll :
  NeverPolls (resourceCosmosDbSQLTriggerRead meta pkg) /\
  NeverPolls (resourceCosmosDbSQLFunctionRead meta pkg) /\
  NeverPolls (resourceCosmosDbSQLStoredProcedureRead meta pkg) /\
  NeverPolls (resourceCosmosDbSQLDatabaseRead meta pkg) /\
  NeverPolls (resourceCosmosDbSQLRoleAssignmentRead meta pkg) /\
  NeverPolls (resourceCosmosDbSQLRoleDefinitionRead meta pkg).
Proof.
  repeat apply conj; intros st.
  - unfold resourceCosmosDbSQLTriggerRead. go_start. go; repeat constructor.
  - unfold resourceCosmosDbSQLFunctionRead. go_start. go; repeat constructor.
  - unfold resourceCosmosDbSQLStoredProcedureRead. go_start. go; repeat constructor.
  - unfold resourceCosmosDbSQLDatabaseRead. go_start. go; repeat constructor.
  - unfold resourceCosmosDbSQLRoleAssignmentRead. go_start. go; repeat constructor.
  - unfold resourceCosmosDbSQLRoleDefinitionRead. go_start. go; repeat constructor.
Qed.

Lemma sql_reads_never_lock :
  NeverLocks (resourceCosmosDbSQLTriggerRead meta pkg) /\
  NeverLocks (resourceCosmosDbSQLFunctionRead meta pkg) /\
  NeverLocks (resourceCosmosDbSQLStoredProcedureRead meta pkg) /\
  NeverLocks (resourceCosmosDbSQLDatabaseRead meta pkg).
Proof.
  repeat apply conj; intros st.
  - unfold resourceCosmosDbSQLTriggerRead. go_start. go; repeat constructor.
  - unfold resourceCosmosDbSQLFunctionRead. go_start. go; repeat constructor.
  - unfold resourceCosmosDbSQLStoredProcedureRead. go_start. go; repeat constructor.
  - unfold resourceCosmosDbSQLDatabaseRead. go_start. go; repeat constructor.
Qed.

(** The events of the handler, then the events [Hread] of its read, then
    perhaps the release of the lock: none is a poll, or none is a lock. *)
Ltac each_event Hread :=
  repeat lazymatch goal with
         | |- Forall _ [] => apply List.Forall_nil
         | |- Forall _ (_ :: _) => apply List.Forall_cons; [reflexivity|]
         | |- Forall _ (_ ++ _) => apply Forall_app; split
         | |- Forall _ _ => apply Hread
         end.

Ltac polls_accepted Hread :=
  cbn [pollsAccepted isNil Op.eqb andb];
  first [ reflexivity | apply pollsAccepted_without_poll; each_event Hread ].

(** X28.  The create and update handlers other than the update of the SQL
    database, and the delete handlers of the trigger, the function, the
    role assignment and the role definition, poll nothing but the poller of
    a request that was accepted: in every run, the last request before a
    poll is of the operation polled and returned no error. *)
Theorem writes_poll_only_accepted :
  PollsOnlyAccepted (resourceCosmosDbSQLTriggerCreateUpdate meta pkg) /\
  PollsOnlyAccepted (resourceCosmosDbSQLTriggerDelete meta pkg) /\
  PollsOnlyAccepted (resourceCosmosDbSQLFunctionCreateUpdate meta pkg) /\
  PollsOnlyAccepted (resourceCosmosDbSQLFunctionDelete meta pkg) /\
  PollsOnlyAccepted (resourceCosmosDbSQLStoredProcedureCreate meta pkg) /\
  PollsOnlyAccepted (resourceCosmosDbSQLStoredProcedureUpdate meta pkg) /\
  PollsOnlyAccepted (resourceCosmosDbSQLDatabaseCreate meta pkg) /\
  PollsOnlyAccepted (resourceCosmosDbSQLRoleAssignmentCreate meta pkg) /\
  PollsOnlyAccepted (resourceCosmosDbSQLRoleAssignmentUpdate meta pkg) /\
  PollsOnlyAccepted (resourceCosmosDbSQLRoleAssignmentDelete meta pkg) /\
  PollsOnlyAccepted (resourceCosmosDbSQLRoleDefinitionCreate meta pkg) /\
  PollsOnlyAccepted (resourceCosmosDbSQLRoleDefinitionUpdate meta pkg) /\
  PollsOnlyAccepted (resourceCosmosDbSQLRoleDefinitionDelete meta pkg).
Proof.
  destruct reads_never_poll
    as (Htrigger & Hfunction & Hprocedure & Hdatabase & Hassignment & Hdefinition).
  repeat apply conj; intros st.
  - unfold resourceCosmosDbSQLTriggerCreateUpdate. go_start. go; polls_accepted Htrigger.
  - unfold resourceCosmosDbSQLTriggerDelete. go_start. go; polls_accepted Htrigger.
  - unfold resourceCosmosDbSQLFunctionCreateUpdate. go_start. go; polls_accepted Hfunction.
  - unfold resourceCosmosDbSQLFunctionDelete. go_start. go; polls_accepted Hfunction.
  - unfold resourceCosmosDbSQLStoredProcedureCreate. go_start. go; polls_accepted Hprocedure.
  - unfold resourceCosmosDbSQLStoredProcedureUpdate. go_start. go; polls_accepted Hprocedure.
  - unfold resourceCosmosDbSQLDatabaseCreate. go_start. go; polls_accepted Hdatabase.
  - unfold resourceCosmosDbSQLRoleAssignmentCreate. go_start. go; polls_accepted Hassignment.
  - unfold resourceCosmosDbSQLRoleAssignmentUpdate. go_start. go; polls_accepted Hassignment.
  - unfold resourceCosmosDbSQLRoleAssignmentDelete. go_start. go; polls_accepted Hassignment.
  - unfold resourceCosmosDbSQLRoleDefinitionCreate. go_start. go; polls_accepted Hdefinition.
  - unfold resourceCosmosDbSQLRoleDefinitionUpdate. go_start. go; polls_accepted Hdefinition.
  - unfold resourceCosmosDbSQLRoleDefinitionDelete. go_start. go; polls_accepted Hdefinition.
Qed.

(** X29.  Only the write handlers of the role assignment and of the role
    definition lock the account: no run of a handler of the trigger, the
    function, the stored procedure or the SQL database, of a read of a role
    resource, or of a data source, takes or releases a lock. *)
Theorem other_handlers_never_lock :
  NeverLocks (resourceCosmosDbSQLTriggerCreateUpdate meta pkg) /\
  NeverLocks (resourceCosmosDbSQLTriggerRead meta pkg) /\
  NeverLocks (resourceCosmosDbSQLTriggerDelete meta pkg) /\
  NeverLocks (resourceCosmosDbSQLFunctionCreateUpdate meta pkg) /\
  NeverLocks (resourceCosmosDbSQLFunctionRead meta pkg) /\
  NeverLocks (resourceCosmosDbSQLFunctionDelete meta pkg) /\
  NeverLocks (resourceCosmosDbSQLStoredProcedureCreate meta pkg) /\
  NeverLocks (resourceCosmosDbSQLStoredProcedureUpdate meta pkg) /\
  NeverLocks (resourceCosmosDbSQLStoredProcedureRead meta pkg) /\
  NeverLocks (resourceCosmosDbSQLStoredProcedureDelete meta pkg) /\
  NeverLocks (resourceCosmosDbSQLDatabaseCreate meta pkg) /\
  NeverLocks (resourceCosmosDbSQLDatabaseUpdate meta pkg) /\
  NeverLocks (resourceCosmosDbSQLDatabaseRead meta pkg) /\
  NeverLocks (resourceCosmosDbSQLDatabaseDelete meta pkg) /\
  NeverLocks (resourceCosmosDbSQLRoleAssignmentRead meta pkg) /\
  NeverLocks (resourceCosmosDbSQLRoleDefinitionRead meta pkg) /\
  NeverLocks (dataSourceCosmosDbSQLDatabaseRead meta pkg) /\
  NeverLocks (dataSourceCosmosDbSQLRoleDefinitionRead meta pkg).
Proof.
  destruct sql_reads_never_lock as (Htrigger & Hfunction & Hprocedure & Hdatabase).
  destruct role_reads_never_lock as (Hassignment & Hdefinition).
  repeat apply conj; try assumption; intros st.
  - unfold resourceCosmosDbSQLTriggerCreateUpdate. go_start. go; each_event Htrigger.
  - unfold resourceCosmosDbSQLTriggerDelete. go_start. go; each_event Htrigger.
  - unfold resourceCosmosDbSQLFunctionCreateUpdate. go_start. go; each_event Hfunction.
  - unfold resourceCosmosDbSQLFunctionDelete. go_start. go; each_event Hfunction.
  - unfold resourceCosmosDbSQLStoredProcedureCreate. go_start. go; each_event Hprocedure.
  - unfold resourceCosmosDbSQLStoredProcedureUpdate. go_start. go; each_event Hprocedure.
  - unfold resourceCosmosDbSQLStoredProcedureDelete. go_start. go; each_event Hprocedure.
  - unfold resourceCosmosDbSQLDatabaseCreate. go_start. go; each_event Hdatabase.
  - unfold resourceCosmosDbSQLDatabaseUpdate. go_start. go; each_event Hdatabase.
  - unfold resourceCosmosDbSQLDatabaseDelete. go_start. go; each_event Hdatabase.
  - unfold dataSourceCosmosDbSQLDatabaseRead. go_start. go; each_event Hdatabase.
  - unfold dataSourceCosmosDbSQLRoleDefinitionRead. go_start. go; each_event Hdefinition.
Qed.

End HandlerProperties.

(** ** The data source of the restorable accounts *)

Section RestorableAccountsProperties.
Context {W P TG TU : Type}.
Context `{!ResourceId LocationId.t, !ResourceId RestorableDatabaseAccountId.t}.
Variable meta : Client W P TG TU.
Variable pkg : Imports W P TG TU.
Variable RestorablesClient :
  GetOp W LocationId.t RestorableDatabaseAccountsListResult.t.

(** X25.  The read of the restorable accounts, when the request fails:
    "was not found" on a 404, the error wrapped otherwise; the message names
    the identifier of the data source, not the location that was listed,
    and neither the location nor the identifier is written. *)
Theorem restorable_accounts_read_fails :
  RestorableAccountsReadFails meta
    (dataSourceCosmosDbRestorableDatabaseAccountsRead meta pkg RestorablesClient)
    RestorablesClient.
Proof.
  intros st resp err w Hlist.
  unfold restorableLocationIdOf, restorableAccountsIdOf in *.
  unfold dataSourceCosmosDbRestorableDatabaseAccountsRead. go_start. go; reflexivity.
Qed.

(** X26.  The read of the restorable accounts, when the request succeeds.
    It tests the list of the answer for nil before flattening it, so the
    flatten of the accounts never gets a nil pointer from it.  The read
    panics on an answer without model and whenever the flatten panics.
    Otherwise the accounts that the flatten returns and then the identifier
    are written, unless the schema refuses the accounts. *)
Theorem restorable_accounts_read :
  RestorableAccountsRead meta pkg
    (dataSourceCosmosDbRestorableDatabaseAccountsRead meta pkg RestorablesClient)
    RestorablesClient.
Proof.
  intros st resp w Hlist id name called located.
  subst id name called located.
  unfold restorableLocationIdOf, restorableAccountsIdOf in *.
  unfold dataSourceCosmosDbRestorableDatabaseAccountsRead. go_start.
  go; try reflexivity;
    match goal with
    | H : schemaSet pkg _ _ = _ |- _ => unfold setChecked; rewrite !H; reflexivity
    end.
Qed.

End RestorableAccountsProperties.

(** * Concrete runs

    Each contract above is stated for every client and every state.  The
    runs below apply the theorems to the in-memory remote, at states where
    the hypotheses of the contracts hold. *)

#[local] Existing Instances
  Fake.ContainerId_ResourceId Fake.TriggerId_ResourceId
  Fake.UserDefinedFunctionId_ResourceId Fake.StoredProcedureId_ResourceId
  Fake.SqlDatabaseId_ResourceId Fake.DatabaseAccountId_ResourceId
  Fake.AccountId_ResourceId Fake.SqlRoleDefinitionId_ResourceId
  Scenario.LocationId_ResourceId Scenario.RestorableDatabaseAccountId_ResourceId.

(** The run asked for is the one that the contract [H] gives, once its
    hypotheses are computed. *)
Ltac by_contract H := eapply eq_trans; [eapply H; reflexivity | reflexivity].

(** A trigger that is stored but gone from the remote: the read clears the
    identifier. *)
Lemma reads_on_GET_error_witness :
  let st := {| rd := Scenario.stored "sub/rg/acct/db/c1/t1"; world := Fake.empty |} in
  let id := NewTriggerID "sub" "rg" "acct" "db" "c1" "t1" in
  ParseTriggerID Fake.pkg (rdId (rd st)) = inr id /\
  SqlResourcesGetSqlTrigger Fake.cosmos id (world st)
    = (({| Response.HttpResponse := Scenario.status 404; Response.Model := None |},
        Some (RemoteError "404 Not Found")), Fake.empty) /\
  run (resourceCosmosDbSQLTriggerRead Fake.meta Fake.pkg) st =
  (Ok None, {| rd := setId (rd st) ""; world := Fake.empty |},
   [ECall Op.GetSqlTrigger (ID id) (Scenario.status 404) (Some (RemoteError "404 Not Found"));
    ESetId ""]).
Proof.
  intros st id. split; [reflexivity|]. split; [reflexivity|].
  destruct (reads_on_GET_error Fake.meta Fake.pkg) as (H & _).
  by_contract H.
Defined.

(** A stored identifier that does not parse. *)
Lemma handlers_fail_on_bad_id_witness :
  let st := {| rd := Scenario.stored "nonsense"; world := Fake.empty |} in
  ParseSqlDatabaseID Fake.pkg (rdId (rd st)) = inl Fake.malformed /\
  run (resourceCosmosDbSQLDatabaseDelete Fake.meta Fake.pkg) st
    = (Ok (Some Fake.malformed), st, []).
Proof.
  intros st. split; [reflexivity|].
  destruct (handlers_fail_on_bad_id Fake.meta Fake.pkg)
    as (_ & _ & _ & _ & _ & _ & _ & _ & _ & H & _).
  by_contract H.
Defined.

(** A trigger GET answered 200 without a body. *)
Lemma reads_panic_on_nil_model_witness :
  let meta := Scenario.metaWith (Scenario.cosmosWith Scenario.emptyAnswer Fake.accountsGet) in
  let st := {| rd := Scenario.stored "sub/rg/acct/db/c1/t1"; world := Fake.empty |} in
  let id := NewTriggerID "sub" "rg" "acct" "db" "c1" "t1" in
  ParseTriggerID Fake.pkg (rdId (rd st)) = inr id /\
  SqlResourcesGetSqlTrigger (Cosmos_CosmosDBClient meta) id (world st)
    = (({| Response.HttpResponse := Scenario.status 200; Response.Model := None |}, None),
       Fake.empty) /\
  resultOf (run (resourceCosmosDbSQLTriggerRead meta Fake.pkg) st) = Panicked /\
  traceOf (run (resourceCosmosDbSQLTriggerRead meta Fake.pkg) st)
    = [ECall Op.GetSqlTrigger (ID id) (Scenario.status 200) None].
Proof.
  intros meta st id. split; [reflexivity|]. split; [reflexivity|].
  destruct (reads_panic_on_nil_model meta Fake.pkg) as (H & _).
  exact (H st id _ _ eq_refl eq_refl eq_refl).
Defined.

(** A trigger that is stored and exists. *)
Lemma reads_write_fields_witness :
  let st := {| rd := Scenario.stored "sub/rg/acct/db/c1/t1";
               world := Scenario.withIds ["sub/rg/acct/db/c1/t1"] |} in
  let id := NewTriggerID "sub" "rg" "acct" "db" "c1" "t1" in
  ParseTriggerID Fake.pkg (rdId (rd st)) = inr id /\
  run (resourceCosmosDbSQLTriggerRead Fake.meta Fake.pkg) st =
  (Ok None,
   {| rd := setAll (schemaSet Fake.pkg) (rd st)
              [("name", VString "t1"); ("container_id", VString "sub/rg/acct/db/c1");
               ("body", VString "function(){}"); ("operation", VString "All");
               ("type", VString "Pre")];
      world := world st |},
   [ECall Op.GetSqlTrigger (ID id) (Scenario.status 200) None]).
Proof.
  intros st id. split; [reflexivity|].
  destruct (reads_write_fields Fake.meta Fake.pkg) as (H & _).
  by_contract H.
Defined.

(** The delete of a trigger that is gone: the 404 comes back as an error. *)
Lemma deletes_fail_on_error_witness :
  let st := {| rd := Scenario.stored "sub/rg/acct/db/c1/t1"; world := Fake.empty |} in
  let id := NewTriggerID "sub" "rg" "acct" "db" "c1" "t1" in
  ParseTriggerID Fake.pkg (rdId (rd st)) = inr id /\
  run (resourceCosmosDbSQLTriggerDelete Fake.meta Fake.pkg) st =
  (Ok (Some (Errorf "deleting CosmosDb SQLResourcesSQLTrigger %q: %+v" ["t1"]
               (Some (RemoteError "404 Not Found")))),
   st,
   [ECall Op.DeleteSqlTrigger (ID id) (Scenario.status 404)
      (Some (RemoteError "404 Not Found"))]).
Proof.
  intros st id. split; [reflexivity|].
  destruct (deletes_fail_on_error Fake.meta Fake.pkg) as (H & _).
  by_contract H.
Defined.

(** The delete of a SQL database that is gone: the 404 is dropped, the
    poller is polled, and the delete succeeds. *)
Lemma deletes_poll_after_not_found_witness :
  let st := {| rd := Scenario.stored "sub/rg/acct/db"; world := Fake.empty |} in
  let id := NewSqlDatabaseID "sub" "rg" "acct" "db" in
  ParseSqlDatabaseID Fake.pkg (rdId (rd st)) = inr id /\
  run (resourceCosmosDbSQLDatabaseDelete Fake.meta Fake.pkg) st =
  (Ok None, st,
   [ECall Op.DeleteSqlDatabase (ID id) (Scenario.status 404)
      (Some (RemoteError "404 Not Found"));
    EPoll Op.DeleteSqlDatabase None]).
Proof.
  intros st id. split; [reflexivity|].
  destruct (deletes_poll_after_not_found Fake.meta Fake.pkg) as (_ & H).
  by_contract H.
Defined.

(** The delete of a role assignment that exists, inside the lock. *)
Lemma deletes_accepted_witness :
  let st := {| rd := Scenario.stored "sub/rg/acct/assignments/ra1";
               world := Scenario.withIds ["sub/rg/acct/assignments/ra1"] |} in
  let id := NewAccountID "sub" "rg" "acct" "ra1" in
  ParseAccountID Fake.pkg (rdId (rd st)) = inr id /\
  run (resourceCosmosDbSQLRoleAssignmentDelete Fake.meta Fake.pkg) st =
  (Ok None, {| rd := rd st; world := Fake.empty |},
   [ELock "acct" "azurerm_cosmosdb_account";
    ECall Op.DeleteSqlRoleAssignment (ID id) (Scenario.status 202) None;
    EPoll Op.DeleteSqlRoleAssignment None;
    EUnlock "acct" "azurerm_cosmosdb_account"]).
Proof.
  intros st id. split; [reflexivity|].
  destruct (deletes_accepted Fake.meta Fake.pkg) as (_ & _ & _ & _ & H & _).
  by_contract H.
Defined.

(** The create of a trigger that exists already. *)
Lemma creates_refuse_existing_witness :
  let st := {| rd := Fake.triggerConfig;
               world := Scenario.withIds ["sub/rg/acct/db/c1/t1"] |} in
  let id := NewTriggerID "sub" "rg" "acct" "db" "c1" "t1" in
  rdIsNew (rd st) = true /\
  triggerIdBuilt Fake.meta Fake.pkg (rd st) id /\
  run (resourceCosmosDbSQLTriggerCreateUpdate Fake.meta Fake.pkg) st =
  (Ok (Some (ImportAsExistsError "azurerm_cosmosdb_sql_trigger" "sub/rg/acct/db/c1/t1")),
   st, [ECall Op.GetSqlTrigger (ID id) (Scenario.status 200) None]).
Proof.
  intros st id.
  assert (Hbuilt : triggerIdBuilt Fake.meta Fake.pkg (rd st) id).
  { exists (NewContainerID "sub" "rg" "acct" "db" "c1"). split; reflexivity. }
  split; [reflexivity|]. split; [exact Hbuilt|].
  destruct (creates_refuse_existing Fake.meta Fake.pkg) as (H & _).
  eapply eq_trans;
    [eapply (H st id (world st)); [exact (conj eq_refl (conj Hbuilt eq_refl)) | reflexivity..]
    | reflexivity].
Defined.



(** The update of a trigger. *)
Lemma updates_send_no_probe_witness :
  let st := {| rd := Scenario.notNew Fake.triggerConfig;
               world := Scenario.withIds ["sub/rg/acct/db/c1/t1"] |} in
  rdIsNew (rd st) = false /\
  match firstCall
          (traceOf (run (resourceCosmosDbSQLTriggerCreateUpdate Fake.meta Fake.pkg) st)) with
  | Some (ECall op _ _ _) => op = Op.CreateUpdateSqlTrigger
  | Some _ => False
  | None => True
  end.
Proof.
  intros st. split; [reflexivity|].
  destruct (updates_send_no_probe Fake.meta Fake.pkg) as (H & _).
  exact (H st eq_refl).
Defined.

(** A trigger whose container identifier does not parse. *)
Lemma createUpdate_panics_on_bad_container_witness :
  let st := {| rd := Fake.config [("name", "t1"); ("container_id", "nonsense")];
               world := Fake.empty |} in
  ParseContainerID Fake.pkg (getString (rd st) "container_id") = inl Fake.malformed /\
  run (resourceCosmosDbSQLTriggerCreateUpdate Fake.meta Fake.pkg) st = (Panicked, st, []).
Proof.
  intros st. split; [reflexivity|].
  destruct (createUpdate_panics_on_bad_container Fake.meta Fake.pkg) as (H & _).
  by_contract H.
Defined.

(** A role assignment without a name, when no UUID can be generated. *)
Lemma role_creates_fail_on_uuid_witness :
  let pkg := Scenario.pkgWith Scenario.noEntropy in
  let st := {| rd := Fake.config [("resource_group_name", "rg"); ("account_name", "acct")];
               world := Fake.empty |} in
  getString (rd st) "name" = "" /\
  GenerateUUID pkg (world st) = (("", Some (RemoteError "reading random bytes")), Fake.empty) /\
  run (resourceCosmosDbSQLRoleAssignmentCreate Fake.meta pkg) st =
  (Ok (Some (Errorf "generating UUID for Cosmos DB SQL Role Assignment: %+v" []
               (Some (RemoteError "reading random bytes")))),
   st, []).
Proof.
  intros pkg st. split; [reflexivity|]. split; [reflexivity|].
  destruct (role_creates_fail_on_uuid Fake.meta pkg) as (H & _).
  by_contract H.
Defined.

(** The read of a SQL database on a serverless account: two requests. *)
Lemma database_reads_skip_throughput_when_serverless_witness :
  let w := Scenario.serverlessWith ["sub/rg/acct/db"] in
  let st := {| rd := Scenario.stored "sub/rg/acct/db"; world := w |} in
  let id := NewSqlDatabaseID "sub" "rg" "acct" "db" in
  let accountId := accountIdOf Fake.meta id in
  let accModel := Fake.accountOf accountId w in
  let accResp := {| Response.HttpResponse := Scenario.status 200;
                    Response.Model := Some accModel |} in
  let d1 := setAll (schemaSet Fake.pkg) (rd st)
              [("resource_group_name", VString "rg"); ("account_name", VString "acct");
               ("name", VString "db")] in
  let tr := [ECall Op.GetSqlDatabase (ID id) (Scenario.status 200) None;
             ECall Op.DatabaseAccountsGet (ID accountId) (Scenario.status 200) None] in
  ParseSqlDatabaseID Fake.pkg (rdId (rd st)) = inr id /\
  AccountAnswered Fake.meta Fake.pkg false st id d1 w accResp None tr /\
  accountIdMissing accModel = false /\
  IsServerlessCapacityMode accModel = true /\
  run (resourceCosmosDbSQLDatabaseRead Fake.meta Fake.pkg) st
    = (Ok None, {| rd := d1; world := w |}, tr).
Proof.
  intros w st id accountId accModel accResp d1 tr.
  assert (Hanswered : AccountAnswered Fake.meta Fake.pkg false st id d1 w accResp None tr).
  { eexists _, _, _. repeat split; reflexivity. }
  split; [reflexivity|]. split; [exact Hanswered|]. split; [reflexivity|].
  split; [reflexivity|].
  destruct (database_reads_skip_throughput_when_serverless Fake.meta Fake.pkg) as (H & _).
  exact (H st id d1 w accResp accModel tr eq_refl Hanswered eq_refl eq_refl eq_refl).
Defined.

(** The data source of a SQL database when the account request fails: the
    identifier and the fields of the database stay written. *)
Lemma database_reads_stop_at_account_witness :
  let meta := Scenario.metaWith
                (Scenario.cosmosWith (SqlResourcesGetSqlTrigger Fake.cosmos) Scenario.failing) in
  let w := Scenario.withIds ["sub/rg/acct/db"] in
  let st := {| rd := Fake.databaseConfig; world := w |} in
  let id := NewSqlDatabaseID "sub" "rg" "acct" "db" in
  let accResp := {| Response.HttpResponse := Scenario.status 500; Response.Model := None |} in
  let failure := RemoteError "500 Internal Server Error" in
  let d1 := setAll (schemaSet Fake.pkg) (setId (rd st) (ID id))
              [("resource_group_name", VString "rg"); ("account_name", VString "acct");
               ("name", VString "db")] in
  let tr := [ECall Op.GetSqlDatabase (ID id) (Scenario.status 200) None;
             ESetId (ID id);
             ECall Op.DatabaseAccountsGet (ID (accountIdOf meta id)) (Scenario.status 500)
               (Some failure)] in
  AccountAnswered meta Fake.pkg true st id d1 w accResp (Some failure) tr /\
  run (dataSourceCosmosDbSQLDatabaseRead meta Fake.pkg) st =
  (Ok (Some (Errorf "reading CosmosDB Account %q (Resource Group %q): %+v" ["acct"; "rg"]
               (Some failure))),
   {| rd := d1; world := w |}, tr).
Proof.
  intros meta w st id accResp failure d1 tr.
  assert (Hanswered : AccountAnswered meta Fake.pkg true st id d1 w accResp (Some failure) tr).
  { eexists _, _, _. repeat split; reflexivity. }
  split; [exact Hanswered|].
  destruct (database_reads_stop_at_account meta Fake.pkg) as (_ & H).
  exact (H st id d1 w accResp (Some failure) tr eq_refl Hanswered).
Defined.

(** The read of a SQL database on an account that is not serverless: the
    throughput is asked for and handed to the helper. *)
Lemma database_reads_throughput_witness :
  let w := Scenario.withIds ["sub/rg/acct/db"] in
  let st := {| rd := Scenario.stored "sub/rg/acct/db"; world := w |} in
  let id := NewSqlDatabaseID "sub" "rg" "acct" "db" in
  let accountId := accountIdOf Fake.meta id in
  let accModel := Fake.accountOf accountId w in
  let accResp := {| Response.HttpResponse := Scenario.status 200;
                    Response.Model := Some accModel |} in
  let d1 := setAll (schemaSet Fake.pkg) (rd st)
              [("resource_group_name", VString "rg"); ("account_name", VString "acct");
               ("name", VString "db")] in
  let tr := [ECall Op.GetSqlDatabase (ID id) (Scenario.status 200) None;
             ECall Op.DatabaseAccountsGet (ID accountId) (Scenario.status 200) None] in
  AccountAnswered Fake.meta Fake.pkg false st id d1 w accResp None tr /\
  IsServerlessCapacityMode accModel = false /\
  run (resourceCosmosDbSQLDatabaseRead Fake.meta Fake.pkg) st =
  (Ok None,
   {| rd := SetResourceDataThroughputFromResponse Fake.pkg tt d1; world := w |},
   tr ++ [ECall Op.GetSqlDatabaseThroughput (ID id) (Scenario.status 200) None]).
Proof.
  intros w st id accountId accModel accResp d1 tr.
  assert (Hanswered : AccountAnswered Fake.meta Fake.pkg false st id d1 w accResp None tr).
  { eexists _, _, _. repeat split; reflexivity. }
  split; [exact Hanswered|]. split; [reflexivity|].
  destruct (database_reads_throughput Fake.meta Fake.pkg) as (H & _).
  exact (H st id d1 w accResp accModel tr _ None w
           eq_refl Hanswered eq_refl eq_refl eq_refl eq_refl).
Defined.

(** The update of a SQL database whose throughput did not change. *)
Lemma database_update_throughput_witness :
  let w := Scenario.withIds ["sub/rg/acct/db"] in
  let w1 := Scenario.withIds ["sub/rg/acct/db"; "sub/rg/acct/db"] in
  let st := {| rd := Scenario.stored "sub/rg/acct/db"; world := w |} in
  let id := NewSqlDatabaseID "sub" "rg" "acct" "db" in
  let tr := [ECall Op.CreateUpdateSqlDatabase (ID id) (Scenario.status 200) None;
             EPoll Op.CreateUpdateSqlDatabase None] in
  DatabaseUpdated Fake.meta Fake.pkg st id w1 tr /\
  HasThroughputChange Fake.pkg (rd st) = false /\
  run (resourceCosmosDbSQLDatabaseUpdate Fake.meta Fake.pkg) st
    = pre tr (run (resourceCosmosDbSQLDatabaseRead Fake.meta Fake.pkg)
                {| rd := rd st; world := w1 |}).
Proof.
  intros w w1 st id tr.
  assert (Hupdated : DatabaseUpdated Fake.meta Fake.pkg st id w1 tr).
  { eexists _, _. repeat split; reflexivity. }
  split; [exact Hupdated|]. split; [reflexivity|].
  destruct (database_update_throughput Fake.meta Fake.pkg) as (_ & H & _).
  exact (H st id w1 tr Hupdated eq_refl).
Defined.

(** The data source of a role definition that does not exist. *)
Lemma dataSources_on_GET_error_witness :
  let st := {| rd := Fake.roleDefinitionConfig; world := Fake.empty |} in
  let id := NewSqlRoleDefinitionID "sub" "rg" "acct" "rd1" in
  sqlRoleDefinitionIdOf Fake.meta (rd st) = id /\
  SqlResourcesGetSqlRoleDefinition Fake.rbacs id (world st)
    = (({| Response.HttpResponse := Scenario.status 404; Response.Model := None |},
        Some (RemoteError "404 Not Found")), Fake.empty) /\
  run (dataSourceCosmosDbSQLRoleDefinitionRead Fake.meta Fake.pkg) st =
  (Ok (Some (Errorf "%s was not found" ["rd1"] None)), st,
   [ECall Op.GetSqlRoleDefinition (ID id) (Scenario.status 404)
      (Some (RemoteError "404 Not Found"))]).
Proof.
  intros st id. split; [reflexivity|]. split; [reflexivity|].
  destruct (dataSources_on_GET_error Fake.meta Fake.pkg) as (_ & H).
  by_contract H.
Defined.

(** The read of a role definition that exists. *)
Lemma role_definition_reads_write_fields_witness :
  let w := Scenario.withIds ["sub/rg/acct/definitions/rd1"] in
  let st := {| rd := Scenario.stored "sub/rg/acct/definitions/rd1"; world := w |} in
  let id := NewSqlRoleDefinitionID "sub" "rg" "acct" "rd1" in
  ParseSqlRoleDefinitionID Fake.pkg (rdId (rd st)) = inr id /\
  run (resourceCosmosDbSQLRoleDefinitionRead Fake.meta Fake.pkg) st =
  (Ok None,
   {| rd := setAll (schemaSet Fake.pkg) (rd st)
              [("role_definition_id", VString "rd1"); ("resource_group_name", VString "rg");
               ("account_name", VString "acct");
               ("assignable_scopes", VList [VString "/"]); ("name", VString "reader");
               ("type", VString "CustomRole"); ("permissions", VList [])];
      world := w |},
   [ECall Op.GetSqlRoleDefinition (ID id) (Scenario.status 200) None]).
Proof.
  intros w st id. split; [reflexivity|].
  destruct (role_definition_reads_write_fields Fake.meta Fake.pkg) as (H & _).
  by_contract H.
Defined.

(** The restorable accounts of a location during an outage. *)
Lemma restorable_accounts_read_fails_witness :
  let list := Scenario.restorables [] in
  let st := {| rd := Fake.config [("name", "acct"); ("location", "westeurope")];
               world := Scenario.outage |} in
  list (restorableLocationIdOf Fake.meta (rd st)) (world st)
    = (({| Response.HttpResponse := Scenario.status 500; Response.Model := None |},
        Some (RemoteError "500 Internal Server Error")), Scenario.outage) /\
  run (dataSourceCosmosDbRestorableDatabaseAccountsRead Fake.meta Fake.pkg list) st =
  (Ok (Some (Errorf "retrieving %s: %+v" ["read"]
               (Some (RemoteError "500 Internal Server Error")))),
   st,
   [ECall Op.RestorableDatabaseAccountsListByLocation "sub/locations/westeurope"
      (Scenario.status 500) (Some (RemoteError "500 Internal Server Error"))]).
Proof.
  intros list st. split; [reflexivity|].
  by_contract (restorable_accounts_read_fails Fake.meta Fake.pkg list).
Defined.

(** The restorable accounts of a location that lists two accounts, one of
    the name asked for. *)
Lemma restorable_accounts_read_witness :
  let list :=
    Scenario.restorables
      [Scenario.account "other" None;
       Scenario.account "acct" (Some (Slice [Scenario.westeurope]))] in
  let st := {| rd := Fake.config [("name", "acct"); ("location", "westeurope")];
               world := Fake.empty |} in
  let id := "sub/locations/westeurope/restorableDatabaseAccounts/read" in
  let kept :=
    VList [VMap [("id", VString "acct"); ("api_type", VString "Sql");
                 ("creation_time", VString ""); ("deletion_time", VString "");
                 ("restorable_locations",
                   VList [VMap [("creation_time", VString ""); ("deletion_time", VString "");
                                ("location", VString "westeurope");
                                ("regional_database_account_instance_id", VString "")]])]] in
  snd (fst (list (restorableLocationIdOf Fake.meta (rd st)) (world st))) = None /\
  run (dataSourceCosmosDbRestorableDatabaseAccountsRead Fake.meta Fake.pkg list) st =
  (Ok None,
   {| rd := setId (setAll (schemaSet Fake.pkg) (rd st)
                     [("location", VString "westeurope"); ("accounts", kept)]) id;
      world := Fake.empty |},
   [ECall Op.RestorableDatabaseAccountsListByLocation "sub/locations/westeurope"
      (Scenario.status 200) None;
    ESetId id]).
Proof.
  intros list st id kept. split; [reflexivity|].
  eapply eq_trans;
    [eapply (restorable_accounts_read Fake.meta Fake.pkg list); reflexivity|].
  vm_compute. reflexivity.
Defined.

(** The invariant of the polls is not one of every handler: the delete of a
    SQL database that is gone polls the poller of the request that failed. *)
Example database_delete_polls_failed_request :
  pollsAccepted None
    (traceOf (run (resourceCosmosDbSQLDatabaseDelete Fake.meta Fake.pkg)
                {| rd := Scenario.stored "sub/rg/acct/db"; world := Fake.empty |}))
  = false.
Proof. vm_compute. reflexivity. Qed.
